(** * Expensify App: search router, report-field edit page, web pressable

    A shallow embedding of three components of the application and the
    properties of their event handlers.

    - [JS]: the fragment of JavaScript values and operators the handlers use
      (truthiness, [??], [String.prototype.trim], template literals).
    - [Pressable]: [WebGenericPressable]
      (src/components/Pressable/GenericPressable/index.tsx).
    - [ReportFieldsEditValue]: [editValue] of [ReportFieldsEditValuePage].
    - [SearchRouter]: the handlers of [SearchRouter] ([onSearchQueryChange],
      [submitSearch], [setTextAndUpdateSelection], [onListItemPress],
      [updateAutocompleteSubstitutions], [onSubmit]), as functions on a world
      that holds the React state, the refs and the log of the calls made.
    - [Sample]: one environment and the scenarios of the specification.
    - [PressableSpec], [ReportFieldsEditValueSpec], [SearchRouterSpec]: the
      properties.

    Strings are sequences of UTF-16 code units; a [string] of this file
    holds one code unit per character, which covers the code units below
    256 (so U+00A0, the non-breaking space, is the single character 160 and
    [String.length] is JavaScript's [.length]). *)

From Stdlib Require Import ZArith String Ascii List Lia DecimalString.
From stdpp Require Import base option list strings gmap.

Local Open Scope string_scope.
Local Open Scope Z_scope.

(* ===================================================================== *)
(** ** JavaScript values and operators *)
(* ===================================================================== *)

Module JS.

(** The primitive values that occur in the handlers. *)
Inductive value :=
| Undefined
| Bool (b : bool)
| Number (n : Z)
| Str (s : string).

(** [ToBoolean]: [undefined], [false], [0] and the empty string are falsy. *)
Definition ToBoolean (v : value) : bool :=
  match v with
  | Undefined => false
  | Bool b => b
  | Number n => negb (n =? 0)
  | Str s => negb (bool_decide (s = ""))
  end.

(** [a ?? b]: [b] when [a] is [undefined], [a] otherwise. *)
Definition coalesce (a b : value) : value :=
  match a with
  | Undefined => b
  | _ => a
  end.

(** [a === b] on primitive values. *)
#[global] Instance value_eq_dec : EqDecision value.
Proof. solve_decision. Defined.

Definition strict_eq (a b : value) : bool := bool_decide (a = b).

(** An optional property read as a value. *)
Definition of_bool (o : option bool) : value := from_option Bool Undefined o.
Definition of_number (o : option Z) : value := from_option Number Undefined o.
Definition of_string (o : option string) : value := from_option Str Undefined o.

(** Truthiness of an optional string property: present and not empty. *)
Definition truthy (o : option string) : bool := ToBoolean (of_string o).

(** [`${x}`] for a string property that may be [undefined]. *)
Definition template (o : option string) : string := default "undefined" o.

(** [Number.isSafeInteger(n)] for an integer [n]. *)
Definition isSafeInteger (n : Z) : bool :=
  (- (2 ^ 53 - 1) <=? n) && (n <=? 2 ^ 53 - 1).

(** [`${n}`] and [n.toString()] for a safe integer [n]: its decimal
    digits, after a minus sign when it is negative. JavaScript writes an
    exponent from 10^21 on, and the numbers beyond the safe integers are
    not exact; lengths and times are safe integers, and a statement about
    any other number says so. *)
Definition template_number (n : Z) : string := NilZero.string_of_int (Z.to_int n).

(** U+00A0 *)
Definition nbsp : string := String "160"%char EmptyString.

(** White space and line terminators among the code units below 256:
    TAB, LF, VT, FF, CR, SP, NBSP. *)
Definition is_white_space (c : ascii) : bool :=
  let n := N_of_ascii c in
  ((9 <=? n) && (n <=? 13) || (n =? 32) || (n =? 160))%N.

Fixpoint trimStart (s : string) : string :=
  match s with
  | EmptyString => EmptyString
  | String c s' => if is_white_space c then trimStart s' else s
  end.

(** [trimEnd s]: the white space that is followed by white space only,
    up to the end, is dropped. *)
Fixpoint trimEnd (s : string) : string :=
  match s with
  | EmptyString => EmptyString
  | String c s' =>
      match trimEnd s' with
      | EmptyString => if is_white_space c then EmptyString else String c EmptyString
      | t => String c t
      end
  end.

(** [String.prototype.trim] *)
Definition trim (s : string) : string := trimEnd (trimStart s).

(** The last code unit of a string, if it has one. *)
Fixpoint last (s : string) : option ascii :=
  match s with
  | EmptyString => None
  | String c EmptyString => Some c
  | String _ s' => last s'
  end.

End JS.

(* ===================================================================== *)
(** ** WebGenericPressable *)
(* ===================================================================== *)

Module Pressable.
Import JS.

(** The props the computation of [tabIndex] reads; a [tabIndex] is an
    integer here. *)
Record PressableProps := {
  focusable : option bool;
  accessible : option bool;
  tabIndex : option Z;
}.

(** [{focusable = true, ...props}] *)
Definition focusable_of (p : PressableProps) : bool := default true (focusable p).

(** [props.accessible ?? props.accessible === undefined ? true : props.accessible],
    which JavaScript reads as
    [(props.accessible ?? (props.accessible === undefined)) ? true : props.accessible]. *)
Definition accessible_of (p : PressableProps) : value :=
  if ToBoolean (coalesce (of_bool (accessible p))
                         (Bool (strict_eq (of_bool (accessible p)) Undefined)))
  then Bool true
  else of_bool (accessible p).

(** The condition of the conditional in
    [props.tabIndex ?? (!accessible || !focusable) ? -1 : 0]: [??] binds
    tighter than [? :]. *)
Definition tabIndex_condition (p : PressableProps) : value :=
  coalesce (of_number (tabIndex p))
           (Bool (negb (ToBoolean (accessible_of p)) || negb (focusable_of p))).

(** The [tabIndex] handed to [GenericPressable]. *)
Definition WebGenericPressable_tabIndex (p : PressableProps) : Z :=
  if ToBoolean (tabIndex_condition p) then -1 else 0.

End Pressable.

(* ===================================================================== *)
(** ** ReportFieldsEditValuePage *)
(* ===================================================================== *)

Module ReportFieldsEditValue.
Import JS.

(** The calls [editValue] makes. *)
Inductive effect :=
| renameReportFieldsListValue (valueIndex : Z) (newValueName : option string)
| Keyboard_dismiss
| Navigation_goBack.

#[global] Instance effect_eq_dec : EqDecision effect.
Proof. solve_decision. Defined.

(** The form draft of [ONYXKEYS.FORMS.WORKSPACE_REPORT_FIELDS_FORM_DRAFT]. *)
Record FormDraft := { listValues : option (list string) }.

Record Page := {
  formDraft : option FormDraft;
  valueIndex : Z;
}.

(** [a[i]] for a route parameter [i]: [undefined] outside the array. *)
Definition index (l : list string) (i : Z) : option string :=
  if 0 <=? i then l !! Z.to_nat i else None.

(** [formDraft?.listValues?.[valueIndex] ?? ''] *)
Definition currentValueName (p : Page) : string :=
  default "" (d ← formDraft p; l ← listValues d; index l (valueIndex p)).

(** [editValue(values)], with [newValueName] the field
    [values[INPUT_IDS.NEW_VALUE_NAME]]. *)
Definition editValue (p : Page) (newValueName : option string) : list effect :=
  let valueName := trim <$> newValueName in
  ((if negb (bool_decide (Some (currentValueName p) = valueName))
   then [renameReportFieldsListValue (valueIndex p) valueName]
   else [])
  ++ [Keyboard_dismiss; Navigation_goBack])%list.

End ReportFieldsEditValue.

(* ===================================================================== *)
(** ** SearchRouter *)
(* ===================================================================== *)

Module SearchRouter.
Import JS.

(** *** Data *)

(** A thrown value, and [String(error)]. *)
Inductive exn := Error (message : string).

Definition String_of (e : exn) : string :=
  match e with Error m => "Error: " +:+ m end.

(** How a call ends: with a value, or with an exception. *)
Inductive completion (A : Type) :=
| Normal (a : A)
| Throw (e : exn).
Arguments Normal {A} a.
Arguments Throw {A} e.

(** [{start, end}] *)
Record Selection := { start : Z; end_ : Z }.

(** [CONST.SEARCH.SEARCH_ROUTER_ITEM_TYPE] *)
Inductive SearchRouterItemType :=
| CONTEXTUAL_SUGGESTION
| AUTOCOMPLETE_SUGGESTION
| SEARCH.

#[global] Instance SearchRouterItemType_eq_dec : EqDecision SearchRouterItemType.
Proof. solve_decision. Defined.

(** The fields of a [SearchQueryItem] the handlers read; all are optional. *)
Record SearchQueryItem := {
  searchQuery : option string;
  autocompleteID : option string;
  searchItemType : option SearchRouterItemType;
  roomType : option string;
  policyID : option string;
  mapKey : option string;
}.

(** The fields of an [OptionData] the handlers read; [None] stands for an
    item without the property. *)
Record OptionData := {
  reportID : option string;
  login : option string;
}.

(** [OptionData | SearchQueryItem]; the constructor is what
    [isSearchQueryItem] tests. *)
Inductive ListItem :=
| QueryItem (item : SearchQueryItem)
| OptionItem (item : OptionData).

Definition isSearchQueryItem (item : ListItem) : bool :=
  match item with QueryItem _ => true | OptionItem _ => false end.

(** [ROUTES.SEARCH_ROOT.getRoute({query})] and
    [ROUTES.REPORT_WITH_ID.getRoute(reportID)] *)
Inductive route :=
| SEARCH_ROOT (query : string)
| REPORT_WITH_ID (reportID : string).

(** The task handed to [InteractionManager.runAfterInteractions]. *)
Inductive deferred :=
| focusAndScrollToRight (actionId : string).

(** The React state of the component. *)
Record State := {
  textInputValue : string;
  autocompleteQueryValue : string;
  selection : Selection;
  autocompleteSubstitutions : gmap string string;
}.

(** What a handler does to the outside, in order: log lines, calls of
    state setters, calls to collaborators. *)
Inductive event :=
| LogInfo (message : string) (sendToServer : bool) (parameters : list (string * value))
| LogAlert (message : string) (parameters : list (string * value))
| SetTextInputValue (v : string)
| SetAutocompleteQueryValue (v : string)
| SetSelection (s : Selection)
| SetAutocompleteSubstitutions (m : gmap string string)
| UpdateAndScrollToFocusedIndex (i : Z)
| BackHistory
| OnRouterClose
| Navigate (r : route)
| NavigateToAndOpenReport (logins : list string) (shouldDismissModal : bool)
| RunAfterInteractions (task : deferred)
| Focus
| ScrollToRight.

(** [CONST.SEARCH]: the constants the handlers read. *)
Record SearchConst := {
  DATA_TYPES_EXPENSE : string;
  DATA_TYPES_INVOICE : string;
  DATA_TYPES_CHAT : string;
  SYNTAX_FILTER_KEYS_TO : string;
  SYNTAX_FILTER_KEYS_IN : string;
  SEARCH_USER_FRIENDLY_KEYS_TYPE : string;
  SEARCH_USER_FRIENDLY_KEYS_POLICY_ID : string;
  SEARCH_USER_FRIENDLY_KEYS_TO : string;
  SEARCH_USER_FRIENDLY_KEYS_IN : string;
  SEARCH_ROUTER_ITEM_TYPE : SearchRouterItemType -> string;
}.

(** The library functions and collaborators the component imports; their
    code is outside the component. A library function returns or throws.
    [raises e] is the exception the collaborator call [e] ends with, if any.
    [Date_now n] is the reading of the [n]-th call of [Date.now()], and
    [Math_random n] the text [Math.random().toString(36).substring(2, 9)]
    of the [n]-th draw. *)
Record Env := {
  CONST : SearchConst;
  lineBreaksToSpaces : string -> bool -> completion string;
  getAutocompleteQueryWithComma : string -> string -> completion string;
  getQueryWithoutAutocompletedPart : string -> completion string;
  sanitizeSearchValue : string -> completion string;
  getQueryWithUpdatedValues : string -> completion (option string);
  getQueryWithSubstitutions : string -> gmap string string -> completion string;
  getUpdatedSubstitutionsMap : string -> gmap string string -> completion (gmap string string);
  raises : event -> option exn;
  Date_now : nat -> Z;
  Math_random : nat -> string;
}.

(** *** The world a handler runs in *)

(** [pending] is the React state as the setter calls made so far leave it:
    the state of the next render. The refs and the log of events follow;
    [clock] and [draws] count the readings of [Date.now()] and
    [Math.random()]. *)
Record World := {
  pending : State;
  shouldScrollRef : bool;
  listRef : bool;
  textInputRef : bool;
  out : list event;
  clock : nat;
  draws : nat;
}.

Definition M (A : Type) : Type := World -> completion A * World.

Definition ret {A} (a : A) : M A := fun w => (Normal a, w).

Definition bind {A B} (m : M A) (k : A -> M B) : M B :=
  fun w =>
    match m w with
    | (Normal a, w') => k a w'
    | (Throw e, w') => (Throw e, w')
    end.

Definition throw {A} (e : exn) : M A := fun w => (Throw e, w).

(** [try { body } catch (error) { handler }] *)
Definition try_catch {A} (body : M A) (handler : exn -> M A) : M A :=
  fun w =>
    match body w with
    | (Normal a, w') => (Normal a, w')
    | (Throw e, w') => handler e w'
    end.

Definition lift {A} (c : completion A) : M A := fun w => (c, w).

Declare Scope router_scope.
Delimit Scope router_scope with router.
Notation "x <- m ;; k" := (bind m (fun x => k))
  (at level 100, m at next level, right associativity) : router_scope.
Notation "m ;;; k" := (bind m (fun _ => k))
  (at level 100, right associativity) : router_scope.
Local Open Scope router_scope.

Definition with_pending (f : State -> State) (w : World) : World :=
  {| pending := f (pending w); shouldScrollRef := shouldScrollRef w;
     listRef := listRef w; textInputRef := textInputRef w;
     out := out w; clock := clock w; draws := draws w |}.

Definition with_out (f : list event -> list event) (w : World) : World :=
  {| pending := pending w; shouldScrollRef := shouldScrollRef w;
     listRef := listRef w; textInputRef := textInputRef w;
     out := f (out w); clock := clock w; draws := draws w |}.

Definition with_shouldScrollRef (b : bool) (w : World) : World :=
  {| pending := pending w; shouldScrollRef := b;
     listRef := listRef w; textInputRef := textInputRef w;
     out := out w; clock := clock w; draws := draws w |}.

Definition tick (w : World) : World :=
  {| pending := pending w; shouldScrollRef := shouldScrollRef w;
     listRef := listRef w; textInputRef := textInputRef w;
     out := out w; clock := S (clock w); draws := draws w |}.

Definition draw (w : World) : World :=
  {| pending := pending w; shouldScrollRef := shouldScrollRef w;
     listRef := listRef w; textInputRef := textInputRef w;
     out := out w; clock := clock w; draws := S (draws w) |}.

(** An event that cannot fail: a log line, a state setter. *)
Definition emit (e : event) : M unit :=
  fun w => (Normal tt, with_out (fun l => (l ++ [e])%list) w).

Definition update (f : State -> State) : M unit :=
  fun w => (Normal tt, with_pending f w).

(** The state setters of [useDebouncedState] and [useState]. *)
Definition setTextInputValue (v : string) : M unit :=
  emit (SetTextInputValue v) ;;;
  update (fun s => {| textInputValue := v;
                      autocompleteQueryValue := autocompleteQueryValue s;
                      selection := selection s;
                      autocompleteSubstitutions := autocompleteSubstitutions s |}).

Definition setAutocompleteQueryValue (v : string) : M unit :=
  emit (SetAutocompleteQueryValue v) ;;;
  update (fun s => {| textInputValue := textInputValue s;
                      autocompleteQueryValue := v;
                      selection := selection s;
                      autocompleteSubstitutions := autocompleteSubstitutions s |}).

Definition setSelection (v : Selection) : M unit :=
  emit (SetSelection v) ;;;
  update (fun s => {| textInputValue := textInputValue s;
                      autocompleteQueryValue := autocompleteQueryValue s;
                      selection := v;
                      autocompleteSubstitutions := autocompleteSubstitutions s |}).

Definition setAutocompleteSubstitutions (v : gmap string string) : M unit :=
  emit (SetAutocompleteSubstitutions v) ;;;
  update (fun s => {| textInputValue := textInputValue s;
                      autocompleteQueryValue := autocompleteQueryValue s;
                      selection := selection s;
                      autocompleteSubstitutions := v |}).

(** [text.length] *)
Definition length_of (s : string) : Z := Z.of_nat (String.length s).

(** [deepEqual] of fast-equals on two substitution maps. *)
Definition deepEqual (a b : gmap string string) : bool := bool_decide (a = b).

(** [{...substitutions, [key]: value}] *)
Definition spread_with (substitutions : gmap string string) (key value : string)
  : gmap string string :=
  <[key := value]> substitutions.

(** The state of the first render, and the world around it. *)
Definition initialState : State :=
  {| textInputValue := ""; autocompleteQueryValue := "";
     selection := {| start := 0; end_ := 0 |};
     autocompleteSubstitutions := ∅ |}.

Definition initialWorld : World :=
  {| pending := initialState; shouldScrollRef := false;
     listRef := true; textInputRef := true;
     out := []; clock := 0%nat; draws := 0%nat |}.

(** *** The functions of the module *)

Section Handlers.

Variable E : Env.

(** A call to a collaborator: it is recorded, and may throw. *)
Definition call (e : event) : M unit :=
  emit e ;;;
  match raises E e with
  | Some error => throw error
  | None => ret tt
  end.

(** [Date.now()] *)
Definition now : M Z :=
  fun w => (Normal (Date_now E (clock w)), tick w).

(** [Math.random().toString(36).substring(2, 9)] *)
Definition random : M string :=
  fun w => (Normal (Math_random E (draws w)), draw w).

(** [`${prefix}_${Date.now()}_${Math.random().toString(36).substring(2, 9)}`] *)
Definition newActionId (prefix : string) : M string :=
  t <- now ;;
  r <- random ;;
  ret (prefix +:+ "_" +:+ template_number t +:+ "_" +:+ r).

(** [listRef.current?.updateAndScrollToFocusedIndex(i)] *)
Definition updateAndScrollToFocusedIndex (i : Z) : M unit :=
  fun w => if listRef w then call (UpdateAndScrollToFocusedIndex i) w else (Normal tt, w).

Definition onRouterClose : M unit := call OnRouterClose.

Definition navigate (r : route) : M unit := call (Navigate r).

(** Modelled from the spec: [backHistory] of
    @libs/Navigation/helpers/backHistory is not among the sources. The
    navigation stack is reached once per submission or selection (§6), so
    [backHistory] runs the callback it is given once, after its own work. *)
Definition backHistory (callback : M unit) : M unit :=
  call BackHistory ;;;
  callback.

Definition getContextualSearchAutocompleteKey (item : SearchQueryItem) : option string :=
  if bool_decide (roomType item = Some (DATA_TYPES_INVOICE (CONST E))) then
    Some (SYNTAX_FILTER_KEYS_TO (CONST E) +:+ ":" +:+ template (searchQuery item))
  else if bool_decide (roomType item = Some (DATA_TYPES_CHAT (CONST E))) then
    Some (SYNTAX_FILTER_KEYS_IN (CONST E) +:+ ":" +:+ template (searchQuery item))
  else None.

Definition getContextualSearchQuery (item : SearchQueryItem) : completion string :=
  let baseQuery :=
    SEARCH_USER_FRIENDLY_KEYS_TYPE (CONST E) +:+ ":" +:+ template (roomType item) in
  if bool_decide (roomType item = Some (DATA_TYPES_EXPENSE (CONST E)))
     || bool_decide (roomType item = Some (DATA_TYPES_INVOICE (CONST E)))
  then
    let additionalQuery :=
      " " +:+ SEARCH_USER_FRIENDLY_KEYS_POLICY_ID (CONST E) +:+ ":" +:+ template (policyID item) in
    if bool_decide (roomType item = Some (DATA_TYPES_INVOICE (CONST E)))
       && truthy (autocompleteID item)
    then
      match sanitizeSearchValue E (default "" (searchQuery item)) with
      | Normal v =>
          Normal (baseQuery +:+ (additionalQuery +:+ " " +:+ SEARCH_USER_FRIENDLY_KEYS_TO (CONST E) +:+ ":" +:+ v))
      | Throw e => Throw e
      end
    else Normal (baseQuery +:+ additionalQuery)
  else
    match sanitizeSearchValue E (default "" (searchQuery item)) with
    | Normal v =>
        Normal (baseQuery +:+ (" " +:+ SEARCH_USER_FRIENDLY_KEYS_IN (CONST E) +:+ ":" +:+ v))
    | Throw e => Throw e
    end.

(** The handlers close over the state of the render they were created in:
    [r] is that state, read by the handler, while the setters write the
    pending state of the world. *)

(** [onSearchQueryChange] in three parts: what precedes the [try], the
    [try] block and the [catch] block. *)
Definition onSearchQueryChange_begin (r : State) (userQuery : string) (autoScrollToRight : bool)
  : M (string * Z) :=
  actionId <- newActionId "search_query" ;;
  startTime <- now ;;
  emit (LogInfo "[CMD_K_DEBUG] Search query change started" false
          [("actionId", Str actionId);
           ("inputLength", Number (length_of userQuery));
           ("previousInputLength", Number (length_of (textInputValue r)));
           ("autoScrollToRight", Bool autoScrollToRight);
           ("timestamp", Number startTime)]) ;;;
  ret (actionId, startTime).

Definition onSearchQueryChange_try (r : State) (userQuery : string) (autoScrollToRight : bool)
    (actionId : string) (startTime : Z) : M unit :=
  (if autoScrollToRight
   then (fun w => (Normal tt, with_shouldScrollRef true w))
   else ret tt) ;;;
  singleLineUserQuery <- lift (lineBreaksToSpaces E userQuery true) ;;
  updatedUserQuery <-
    lift (getAutocompleteQueryWithComma E (textInputValue r) singleLineUserQuery) ;;
  setTextInputValue updatedUserQuery ;;;
  setAutocompleteQueryValue updatedUserQuery ;;;
  updatedSubstitutionsMap <-
    lift (getUpdatedSubstitutionsMap E singleLineUserQuery (autocompleteSubstitutions r)) ;;
  (if negb (deepEqual (autocompleteSubstitutions r) updatedSubstitutionsMap)
   then setAutocompleteSubstitutions updatedSubstitutionsMap
   else ret tt) ;;;
  (if ToBoolean (Str updatedUserQuery) || (0 <? length_of (textInputValue r))
   then updateAndScrollToFocusedIndex 0
   else updateAndScrollToFocusedIndex (-1)) ;;;
  endTime <- now ;;
  emit (LogInfo "[CMD_K_DEBUG] Search query change completed" false
          [("actionId", Str actionId);
           ("duration", Number (endTime - startTime));
           ("finalInputLength", Number (length_of updatedUserQuery));
           ("substitutionsUpdated",
            Bool (negb (deepEqual (autocompleteSubstitutions r) updatedSubstitutionsMap)));
           ("timestamp", Number endTime)]).

Definition onSearchQueryChange_catch (userQuery : string) (actionId : string) (startTime : Z)
    (error : exn) : M unit :=
  endTime <- now ;;
  emit (LogAlert "[CMD_K_FREEZE] Search query change failed"
          [("actionId", Str actionId);
           ("error", Str (String_of error));
           ("duration", Number (endTime - startTime));
           ("inputLength", Number (length_of userQuery));
           ("timestamp", Number endTime)]) ;;;
  throw error.

Definition onSearchQueryChange (r : State) (userQuery : string) (autoScrollToRight : bool) : M unit :=
  started <- onSearchQueryChange_begin r userQuery autoScrollToRight ;;
  try_catch
    (onSearchQueryChange_try r userQuery autoScrollToRight (fst started) (snd started))
    (onSearchQueryChange_catch userQuery (fst started) (snd started)).

Definition submitSearch (r : State) (queryString : string) : M unit :=
  queryWithSubstitutions <-
    lift (getQueryWithSubstitutions E queryString (autocompleteSubstitutions r)) ;;
  updatedQuery <- lift (getQueryWithUpdatedValues E queryWithSubstitutions) ;;
  if negb (truthy updatedQuery) then ret tt
  else
    backHistory
      (onRouterClose ;;;
       navigate (SEARCH_ROOT (default "" updatedQuery))) ;;;
    setTextInputValue "" ;;;
    setAutocompleteQueryValue "".

Definition setTextAndUpdateSelection (text : string) : M unit :=
  setTextInputValue text ;;;
  (fun w => (Normal tt, with_shouldScrollRef true w)) ;;;
  setSelection {| start := length_of text; end_ := length_of text |}.

(** What the task scheduled by [setFocusAndScrollToRight] does when it
    runs, at time [t], with [mounted] telling whether
    [textInputRef.current] is set. *)
Definition run_deferred (task : deferred) (mounted : bool) (t : Z) : list event :=
  match task with
  | focusAndScrollToRight actionId =>
      if negb mounted then
        [LogInfo "[CMD_K_DEBUG] Focus skipped - no text input ref" false
           [("actionId", Str actionId); ("timestamp", Number t)]]
      else [Focus; ScrollToRight]
  end.

Definition setFocusAndScrollToRight (actionId : string) : M unit :=
  try_catch
    (call (RunAfterInteractions (focusAndScrollToRight actionId)))
    (fun error =>
       t <- now ;;
       emit (LogAlert "[CMD_K_FREEZE] Focus and scroll failed"
               [("actionId", Str actionId);
                ("error", Str (String_of error));
                ("timestamp", Number t)])).

Definition itemType (item : ListItem) : string :=
  if isSearchQueryItem item then "SearchQueryItem" else "OptionData".

(** [isSearchQueryItem(item) ? item.searchItemType : undefined] *)
Definition searchItemType_of (item : ListItem) : value :=
  match item with
  | QueryItem i => of_string (SEARCH_ROUTER_ITEM_TYPE (CONST E) <$> searchItemType i)
  | OptionItem _ => Undefined
  end.

(** [onListItemPress] in three parts: what precedes the outer [try], the
    [try] block and the [catch] block. *)
Definition onListItemPress_begin (item : ListItem) : M (string * Z) :=
  actionId <- newActionId "list_item_press" ;;
  startTime <- now ;;
  emit (LogInfo "[CMD_K_DEBUG] List item press started" false
          [("actionId", Str actionId);
           ("itemType", Str (itemType item));
           ("searchItemType", searchItemType_of item);
           ("hasSearchQuery",
            match item with
            | QueryItem i => Bool (truthy (searchQuery i))
            | OptionItem _ => Undefined
            end);
           ("hasReportID",
            match item with
            | QueryItem _ => Undefined
            | OptionItem o => from_option (fun i => Bool (ToBoolean (Str i))) Undefined (reportID o)
            end);
           ("hasLogin",
            match item with
            | QueryItem _ => Undefined
            | OptionItem o => from_option (fun l => Bool (ToBoolean (Str l))) Undefined (login o)
            end);
           ("timestamp", Number startTime)]) ;;;
  ret (actionId, startTime).

Definition onListItemPress_try (r : State) (item : ListItem)
    (actionId : string) (startTime : Z) : M unit :=
  match item with
   | QueryItem item =>
       if negb (truthy (searchQuery item)) then
         t <- now ;;
         emit (LogInfo "[CMD_K_DEBUG] List item press skipped - no search query" false
                 [("actionId", Str actionId);
                  ("itemType", Str "SearchQueryItem");
                  ("timestamp", Number t)])
       else if bool_decide (searchItemType item = Some CONTEXTUAL_SUGGESTION) then
         searchQuery <- lift (getContextualSearchQuery item) ;;
         let newSearchQuery := searchQuery +:+ nbsp in
         onSearchQueryChange r newSearchQuery true ;;;
         setSelection {| start := length_of newSearchQuery; end_ := length_of newSearchQuery |} ;;;
         let autocompleteKey := getContextualSearchAutocompleteKey item in
         (if truthy autocompleteKey && truthy (autocompleteID item)
          then setAutocompleteSubstitutions
                 (spread_with (autocompleteSubstitutions r)
                    (default "" autocompleteKey) (default "" (autocompleteID item)))
          else ret tt) ;;;
         setFocusAndScrollToRight actionId ;;;
         endTime <- now ;;
         emit (LogInfo "[CMD_K_DEBUG] Contextual suggestion handled" false
                 [("actionId", Str actionId);
                  ("duration", Number (endTime - startTime));
                  ("newQueryLength", Number (length_of newSearchQuery));
                  ("hasSubstitutions",
                   Bool (truthy autocompleteKey && truthy (autocompleteID item)));
                  ("timestamp", Number endTime)])
       else if bool_decide (searchItemType item = Some AUTOCOMPLETE_SUGGESTION)
               && ToBoolean (Str (textInputValue r)) then
         trimmedUserSearchQuery <- lift (getQueryWithoutAutocompletedPart E (textInputValue r)) ;;
         sanitized <- lift (sanitizeSearchValue E (default "" (searchQuery item))) ;;
         let newSearchQuery := trimmedUserSearchQuery +:+ sanitized +:+ nbsp in
         onSearchQueryChange r newSearchQuery true ;;;
         setSelection {| start := length_of newSearchQuery; end_ := length_of newSearchQuery |} ;;;
         (if truthy (mapKey item) && truthy (autocompleteID item)
          then setAutocompleteSubstitutions
                 (spread_with (autocompleteSubstitutions r)
                    (default "" (mapKey item)) (default "" (autocompleteID item)))
          else ret tt) ;;;
         setFocusAndScrollToRight actionId ;;;
         endTime <- now ;;
         emit (LogInfo "[CMD_K_DEBUG] Autocomplete suggestion handled" false
                 [("actionId", Str actionId);
                  ("duration", Number (endTime - startTime));
                  ("trimmedQueryLength", Number (length_of trimmedUserSearchQuery));
                  ("newQueryLength", Number (length_of newSearchQuery));
                  ("hasMapKey", Bool (truthy (mapKey item) && truthy (autocompleteID item)));
                  ("timestamp", Number endTime)])
       else
         submitSearch r (default "" (searchQuery item)) ;;;
         endTime <- now ;;
         emit (LogInfo "[CMD_K_DEBUG] Search submitted" false
                 [("actionId", Str actionId);
                  ("duration", Number (endTime - startTime));
                  ("searchQuery", of_string (searchQuery item));
                  ("timestamp", Number endTime)])
   | OptionItem item =>
       backHistory
         (if truthy (reportID item) then
            navigate (REPORT_WITH_ID (default "" (reportID item)))
          else
            match login item with
            | Some l =>
                call (NavigateToAndOpenReport
                        (if ToBoolean (Str l) then [l] else []) false)
            | None => ret tt
            end) ;;;
       onRouterClose ;;;
       endTime <- now ;;
       emit (LogInfo "[CMD_K_DEBUG] Navigation item handled" false
               [("actionId", Str actionId);
                ("duration", Number (endTime - startTime));
                ("reportID", of_string (reportID item));
                ("hasLogin", Bool (from_option (fun l => ToBoolean (Str l)) false (login item)));
                ("timestamp", Number endTime)])
   end.

Definition onListItemPress_catch (item : ListItem) (actionId : string) (startTime : Z)
    (error : exn) : M unit :=
  endTime <- now ;;
  emit (LogAlert "[CMD_K_FREEZE] List item press failed"
          [("actionId", Str actionId);
           ("error", Str (String_of error));
           ("duration", Number (endTime - startTime));
           ("itemType", Str (itemType item));
           ("searchItemType", searchItemType_of item);
           ("timestamp", Number endTime)]) ;;;
  throw error.

Definition onListItemPress (r : State) (item : ListItem) : M unit :=
  started <- onListItemPress_begin item ;;
  try_catch
    (onListItemPress_try r item (fst started) (snd started))
    (onListItemPress_catch item (fst started) (snd started)).

Definition updateAutocompleteSubstitutions (r : State) (item : SearchQueryItem) : M unit :=
  if negb (truthy (autocompleteID item)) || negb (truthy (mapKey item)) then ret tt
  else
    setAutocompleteSubstitutions
      (spread_with (autocompleteSubstitutions r)
         (default "" (mapKey item)) (default "" (autocompleteID item))).

(** The [onSubmit] of the input; [focusedOption] is what
    [listRef.current?.getFocusedOption()] returns. *)
Definition onSubmit (r : State) (focusedOption : option ListItem) : M unit :=
  match focusedOption with
  | None => submitSearch r (textInputValue r)
  | Some option => onListItemPress r option
  end.

(** The effect keyed on [textInputValue]. *)
Definition scrollEffect : M unit :=
  fun w =>
    if negb (textInputRef w) || negb (shouldScrollRef w) then (Normal tt, w)
    else (emit ScrollToRight ;;; (fun w' => (Normal tt, with_shouldScrollRef false w'))) w.

(** A handler of the current render: it closes over the pending state. *)
Definition dispatch {A} (handler : State -> M A) : M A :=
  fun w => handler (pending w) w.

End Handlers.

(** The number of calls of [Navigation.navigate] among the events. *)
Definition is_navigate (e : event) : bool :=
  match e with Navigate _ => true | _ => false end.

Definition navigations (l : list event) : nat :=
  List.length (List.filter is_navigate l).

(** [0 <= start <= end <= length(text)] *)
Definition selection_in_bounds (s : State) : Prop :=
  0 <= start (selection s)
  /\ start (selection s) <= end_ (selection s)
  /\ end_ (selection s) <= length_of (textInputValue s).

End SearchRouter.

(* ===================================================================== *)
(** ** A concrete environment *)
(* ===================================================================== *)

Module Sample.
Import JS SearchRouter.

(** The values of [CONST.SEARCH] in the application. *)
Definition CONST_SEARCH : SearchConst :=
  {| DATA_TYPES_EXPENSE := "expense";
     DATA_TYPES_INVOICE := "invoice";
     DATA_TYPES_CHAT := "chat";
     SYNTAX_FILTER_KEYS_TO := "to";
     SYNTAX_FILTER_KEYS_IN := "in";
     SEARCH_USER_FRIENDLY_KEYS_TYPE := "type";
     SEARCH_USER_FRIENDLY_KEYS_POLICY_ID := "policyID";
     SEARCH_USER_FRIENDLY_KEYS_TO := "to";
     SEARCH_USER_FRIENDLY_KEYS_IN := "in";
     SEARCH_ROUTER_ITEM_TYPE := fun t =>
       match t with
       | CONTEXTUAL_SUGGESTION => "contextualSuggestion"
       | AUTOCOMPLETE_SUGGESTION => "autocompleteSuggestion"
       | SEARCH => "searchItem"
       end |}.

(** Modelled from the spec: [getQueryWithSubstitutions] is not among the
    sources. Its [applyTo] (§4.2) replaces in the text, as literal
    substrings, the keys of the map by the identifiers they are bound to,
    and leaves a text without any of the keys unchanged. [replace] copies
    the text, and where the key starts it writes the identifier and skips
    the rest of the key. *)
Fixpoint replace (key value text : string) (skip : nat) : string :=
  match text with
  | EmptyString => EmptyString
  | String c rest =>
      match skip with
      | S n => replace key value rest n
      | O =>
          if negb (bool_decide (key = "")) && String.prefix key text
          then value +:+ replace key value rest (String.length key - 1)
          else String c (replace key value rest 0)
      end
  end.

Definition applyTo (text : string) (substitutions : gmap string string) : string :=
  map_fold (fun key value t => replace key value t 0) text substitutions.

(** An environment for queries without line breaks, quoting or a fragment
    in progress: there the library functions hand their argument back. The
    normalizer rejects a blank query. No collaborator throws, except that
    [focus] is what scheduling the deferred focus throws, and [lineBreaks]
    what [lineBreaksToSpaces] throws, if anything. *)
Definition env (focus lineBreaks : option exn) : Env :=
  {| CONST := CONST_SEARCH;
     lineBreaksToSpaces := fun text _ => from_option Throw (Normal text) lineBreaks;
     getAutocompleteQueryWithComma := fun _ newQuery => Normal newQuery;
     getQueryWithoutAutocompletedPart := fun text => Normal text;
     sanitizeSearchValue := fun text => Normal text;
     getQueryWithUpdatedValues := fun query =>
       Normal (if bool_decide (trim query = "") then None else Some query);
     getQueryWithSubstitutions := fun query substitutions =>
       Normal (applyTo query substitutions);
     getUpdatedSubstitutionsMap := fun _ substitutions => Normal substitutions;
     raises := fun e =>
       match e with
       | RunAfterInteractions _ => focus
       | _ => None
       end;
     Date_now := fun n => 1700000000000 + Z.of_nat n;
     Math_random := fun _ => "k3x9q2a" |}.

Definition world_of (s : State) : World :=
  {| pending := s; shouldScrollRef := false; listRef := true; textInputRef := true;
     out := []; clock := 0%nat; draws := 0%nat |}.

(** Scenario A of the specification: the buffer holds [type:chat in:] and
    the list offers the room [#general], whose identifier is [room_42]. *)
Definition typing_in : State :=
  {| textInputValue := "type:chat in:";
     autocompleteQueryValue := "type:chat in:";
     selection := {| start := 13; end_ := 13 |};
     autocompleteSubstitutions := ∅ |}.

Definition general_room : SearchQueryItem :=
  {| searchQuery := Some "#general";
     autocompleteID := Some "room_42";
     searchItemType := Some AUTOCOMPLETE_SUGGESTION;
     roomType := None;
     policyID := None;
     mapKey := Some "in:#general" |}.

(** The state once that suggestion is accepted. *)
Definition accepted_general : State :=
  {| textInputValue := "type:chat in:#general" +:+ nbsp;
     autocompleteQueryValue := "type:chat in:#general" +:+ nbsp;
     selection := {| start := 22; end_ := 22 |};
     autocompleteSubstitutions := {["in:#general" := "room_42"]} |}.

(** Contextual suggestions: the chat [#general], and the expense chat of
    the workspace [policy_7]. *)
Definition this_chat : SearchQueryItem :=
  {| searchQuery := Some "#general";
     autocompleteID := Some "room_42";
     searchItemType := Some CONTEXTUAL_SUGGESTION;
     roomType := Some "chat";
     policyID := None;
     mapKey := None |}.

Definition this_expense_chat : SearchQueryItem :=
  {| searchQuery := Some "Travel";
     autocompleteID := Some "policy_7";
     searchItemType := Some CONTEXTUAL_SUGGESTION;
     roomType := Some "expense";
     policyID := Some "policy_7";
     mapKey := None |}.

End Sample.

(* ===================================================================== *)
(** ** WebGenericPressable: the other attributes *)
(* ===================================================================== *)

Module PressableAttributes.
Import JS.

(** The props read for [role] and [dataSet]. A [dataSet] is an object
    from names to primitive values. *)
Record AttributeProps := {
  accessibilityRole : option string;
  role : option string;
  noDragArea : option bool;
  dataSet : option (gmap string value);
}.

(** [props.accessibilityRole ?? props.role] *)
Definition role_of (p : AttributeProps) : option string :=
  match accessibilityRole p with
  | Some r => Some r
  | None => role p
  end.

(** [...(props.noDragArea && {dragArea: false})]: spreading [undefined]
    or [false] adds nothing. *)
Definition dragArea_part (p : AttributeProps) : gmap string value :=
  if default false (noDragArea p) then {["dragArea" := Bool false]} else ∅.

(** [{tag: 'pressable', ...(props.noDragArea && {dragArea: false}), ...props.dataSet}]:
    a later spread overrides what precedes it. *)
Definition dataSet_of (p : AttributeProps) : gmap string value :=
  default ∅ (dataSet p) ∪ (dragArea_part p ∪ {["tag" := Str "pressable"]}).

End PressableAttributes.

(* ===================================================================== *)
(** ** Shapes of text *)
(* ===================================================================== *)

Module Text.
Import JS.

(** A string that does not begin with white space. *)
Definition starts_clean (s : string) : Prop :=
  match s with
  | EmptyString => True
  | String c _ => is_white_space c = false
  end.

(** A string that does not end with white space. *)
Definition ends_clean (s : string) : Prop :=
  forall c, last s = Some c -> is_white_space c = false.

(** A string of white space only. *)
Fixpoint white (s : string) : bool :=
  match s with
  | EmptyString => true
  | String c s' => is_white_space c && white s'
  end.

End Text.

(* ===================================================================== *)
(** ** SearchFiltersCategoryPage *)
(* ===================================================================== *)

Module SearchFiltersCategory.

(** A policy category; [name] is the field the page reads. *)
Module Category.
Record t := { name : string }.
End Category.

(** An item of the picker. *)
Record Item := { name : string; value : string }.

(** An object used as a dictionary: its entries in the order
    [Object.values] enumerates them. *)
Definition values {V} (o : list (string * V)) : list V := map snd o.

(** [o[key]] *)
Definition get {V} (o : list (string * V)) (key : string) : option V :=
  snd <$> List.find (fun e => bool_decide (fst e = key)) o.

(** The fields of the advanced-filters form the page reads. *)
Record Form := {
  category : option (list string);
  policyID : option string;
}.

(** [Set.prototype.add]: a set keeps its elements in insertion order. *)
Definition Set_add (s : list string) (x : string) : list string :=
  if bool_decide (x ∈ s) then s else s ++ [x].

Section Page.

(** [translate], [CONST.SEARCH.CATEGORY_EMPTY_VALUE] and
    [ONYXKEYS.COLLECTION.POLICY_CATEGORIES]. *)
Variable translate : string -> string.
Variable CATEGORY_EMPTY_VALUE : string.
Variable POLICY_CATEGORIES : string.

(** [searchAdvancedFiltersForm?.category?.map(...)] *)
Definition selectedCategoriesItems (form : option Form) : option (list Item) :=
  f ← form;
  categories ← category f;
  Some (map (fun c =>
               if bool_decide (c = CATEGORY_EMPTY_VALUE)
               then {| name := translate "search.noCategory"; value := c |}
               else {| name := c; value := c |})
            categories).

(** [searchAdvancedFiltersForm?.policyID ?? '-1'] *)
Definition policyID_of (form : option Form) : string :=
  default "-1" (form ≫= policyID).

(** [allPolicyCategories?.[`${ONYXKEYS.COLLECTION.POLICY_CATEGORIES}${policyID}`]];
    the collection holds, per key, the categories of a policy or
    [undefined]. *)
Definition singlePolicyCategories
    (allPolicyCategories : option (list (string * option (list (string * Category.t)))))
    (form : option Form) : option (list (string * Category.t)) :=
  all ← allPolicyCategories;
  mjoin (get all (POLICY_CATEGORIES +:+ policyID_of form)).

(** The set filled by the two nested loops over
    [Object.values(allPolicyCategories ?? {})] and
    [Object.values(policyCategories ?? {})], as [Array.from] lists it. *)
Definition uniqueCategoryNames
    (allPolicyCategories : option (list (string * option (list (string * Category.t)))))
  : list string :=
  fold_left
    (fun names policyCategories =>
       fold_left (fun names c => Set_add names (Category.name c))
         (values (default [] policyCategories)) names)
    (values (default [] allPolicyCategories)) [].

Definition categoryItems
    (allPolicyCategories : option (list (string * option (list (string * Category.t)))))
    (form : option Form) : list Item :=
  let items :=
    [{| name := translate "search.noCategory"; value := CATEGORY_EMPTY_VALUE |}] in
  match singlePolicyCategories allPolicyCategories form with
  | None =>
      items ++ map (fun categoryName => {| name := categoryName; value := categoryName |})
                   (uniqueCategoryNames allPolicyCategories)
  | Some categories =>
      items ++ map (fun c => {| name := Category.name c; value := Category.name c |})
                   (values categories)
  end.

End Page.

End SearchFiltersCategory.

(* ===================================================================== *)
(** ** SearchRouter: the items of the list *)
(* ===================================================================== *)

Module SearchRouterList.
Import JS SearchRouter.

(** [report.item.invoiceReceiver]: an individual, with an account, or
    another kind of receiver. *)
Inductive InvoiceReceiver :=
| Individual (accountID : Z)
| NotIndividual.

(** The fields of a recent report the contextual suggestion reads. *)
Module Report.
Record t := {
  reportID : option string;
  text : option string;
  alternateText : option string;
  isInvoiceRoom : option bool;
  isPolicyExpenseChat : option bool;
  policyID : option string;
  invoiceReceiver : option InvoiceReceiver;
}.
End Report.

(** The item [getAdditionalSections] returns, in its one section: the label
    shown, the key of the row, and the fields the handlers read. *)
Record ContextualSection := {
  text : string;
  keyForList : string;
  data : SearchQueryItem;
}.

Section List_.

Variable E : Env.
Variable translate : string -> string.

(** [a ?? b ?? c] on optional strings *)
Definition first_defined (a b : option string) : option string :=
  match a with Some _ => a | None => b end.

Definition getAdditionalSections (contextualReportID : option string) (textInputValue : string)
    (isSearchRouterDisplayed : option bool) (recentReports : list Report.t)
  : completion (option ContextualSection) :=
  if negb (truthy contextualReportID) then Normal None
  else if ToBoolean (Str textInputValue) then Normal None
  else if negb (default false isSearchRouterDisplayed) then Normal None
  else
    match List.find (fun o => bool_decide (Report.reportID o = contextualReportID)) recentReports with
    | None => Normal None
    | Some reportForContextualSearch =>
        let reportQueryValue :=
          first_defined (Report.text reportForContextualSearch)
            (first_defined (Report.alternateText reportForContextualSearch)
               (Report.reportID reportForContextualSearch)) in
        let roomType := DATA_TYPES_CHAT (CONST E) in
        let autocompleteID := Report.reportID reportForContextualSearch in
        let '(roomType, autocompleteID) :=
          if default false (Report.isInvoiceRoom reportForContextualSearch) then
            (DATA_TYPES_INVOICE (CONST E),
             match Report.invoiceReceiver reportForContextualSearch with
             | Some (Individual accountID) => Some (template_number accountID)
             | _ => Some ""
             end)
          else (roomType, autocompleteID) in
        let '(roomType, autocompleteID) :=
          if default false (Report.isPolicyExpenseChat reportForContextualSearch) then
            (DATA_TYPES_EXPENSE (CONST E),
             if truthy (Report.policyID reportForContextualSearch)
             then Report.policyID reportForContextualSearch
             else Some "")
          else (roomType, autocompleteID) in
        match lineBreaksToSpaces E
                (translate "search.searchIn" +:+ " " +:+
                 template (first_defined (Report.text reportForContextualSearch)
                             (Report.alternateText reportForContextualSearch)))
                false with
        | Throw e => Throw e
        | Normal text =>
            Normal (Some
              {| text := text;
                 keyForList := "contextualSearch";
                 data :=
                   {| searchQuery := reportQueryValue;
                      autocompleteID := autocompleteID;
                      searchItemType := Some CONTEXTUAL_SUGGESTION;
                      roomType := Some roomType;
                      policyID := Report.policyID reportForContextualSearch;
                      mapKey := None |} |})
        end
    end.

(** [searchQueryItem]: the row that searches for the text as typed. *)
Definition searchQueryItem (textInputValue : string) : option SearchQueryItem :=
  if ToBoolean (Str textInputValue) then
    Some {| searchQuery := Some textInputValue;
            autocompleteID := None;
            searchItemType := Some SEARCH;
            roomType := None;
            policyID := None;
            mapKey := None |}
  else None.

End List_.

End SearchRouterList.

(* ===================================================================== *)
(** ** Reading a log of events *)
(* ===================================================================== *)

Module Trace.
Import SearchRouter.

(** The log lines among the events, and the rest: the calls of state
    setters and collaborators. *)
Definition is_log (e : event) : bool :=
  match e with
  | LogInfo _ _ _ | LogAlert _ _ => true
  | _ => false
  end.

Definition effects (l : list event) : list event :=
  List.filter (fun e => negb (is_log e)) l.

(** The calls of the state setters. *)
Definition is_setter (e : event) : bool :=
  match e with
  | SetTextInputValue _ | SetAutocompleteQueryValue _ | SetSelection _
  | SetAutocompleteSubstitutions _ => true
  | _ => false
  end.

(** The events a keystroke can produce. *)
Definition keystroke_event (e : event) : bool :=
  match e with
  | LogInfo _ _ _ | LogAlert _ _
  | SetTextInputValue _ | SetAutocompleteQueryValue _ | SetAutocompleteSubstitutions _
  | UpdateAndScrollToFocusedIndex _ => true
  | _ => false
  end.

End Trace.

(* ===================================================================== *)
(** ** More sample data *)
(* ===================================================================== *)

Module SampleMore.
Import JS SearchRouter SearchRouterList Sample.

(** Which library function of the sample environment throws. *)
Inductive fault :=
| in_getUpdatedSubstitutionsMap
| in_getQueryWithUpdatedValues
| in_getQueryWithSubstitutions
| in_getAutocompleteQueryWithComma
| in_navigate.

(** The sample environment, with one function that throws [error]. *)
Definition failing (f : fault) (error : exn) : Env :=
  {| CONST := CONST_SEARCH;
     lineBreaksToSpaces := lineBreaksToSpaces (env None None);
     getAutocompleteQueryWithComma :=
       match f with
       | in_getAutocompleteQueryWithComma => fun _ _ => Throw error
       | _ => getAutocompleteQueryWithComma (env None None)
       end;
     getQueryWithoutAutocompletedPart := getQueryWithoutAutocompletedPart (env None None);
     sanitizeSearchValue := sanitizeSearchValue (env None None);
     getQueryWithUpdatedValues :=
       match f with
       | in_getQueryWithUpdatedValues => fun _ => Throw error
       | _ => getQueryWithUpdatedValues (env None None)
       end;
     getQueryWithSubstitutions :=
       match f with
       | in_getQueryWithSubstitutions => fun _ _ => Throw error
       | _ => getQueryWithSubstitutions (env None None)
       end;
     getUpdatedSubstitutionsMap :=
       match f with
       | in_getUpdatedSubstitutionsMap => fun _ _ => Throw error
       | _ => getUpdatedSubstitutionsMap (env None None)
       end;
     raises := fun e =>
       match f, e with
       | in_navigate, Navigate _ => Some error
       | _, _ => None
       end;
     Date_now := Date_now (env None None);
     Math_random := Math_random (env None None) |}.

(** A line-break pass that does what its name says: a line break (CR LF,
    CR or LF) becomes one [space]. *)
Fixpoint breaksToSpaces (space : ascii) (text : string) : string :=
  match text with
  | EmptyString => EmptyString
  | String c rest =>
      if bool_decide (c = "013"%char) then
        match rest with
        | String c' _ =>
            if bool_decide (c' = "010"%char) then breaksToSpaces space rest
            else String space (breaksToSpaces space rest)
        | EmptyString => String space EmptyString
        end
      else if bool_decide (c = "010"%char) then String space (breaksToSpaces space rest)
      else String c (breaksToSpaces space rest)
  end.

(** The sample environment with that pass for [lineBreaksToSpaces]; the
    space is U+00A0 when the second argument asks for it. *)
Definition single_line : Env :=
  {| CONST := CONST_SEARCH;
     lineBreaksToSpaces := fun text useNonBreakingSpace =>
       Normal (breaksToSpaces (if useNonBreakingSpace then "160"%char else " "%char) text);
     getAutocompleteQueryWithComma := getAutocompleteQueryWithComma (env None None);
     getQueryWithoutAutocompletedPart := getQueryWithoutAutocompletedPart (env None None);
     sanitizeSearchValue := sanitizeSearchValue (env None None);
     getQueryWithUpdatedValues := getQueryWithUpdatedValues (env None None);
     getQueryWithSubstitutions := getQueryWithSubstitutions (env None None);
     getUpdatedSubstitutionsMap := getUpdatedSubstitutionsMap (env None None);
     raises := raises (env None None);
     Date_now := Date_now (env None None);
     Math_random := Math_random (env None None) |}.

(** A suggestion whose text runs over two lines. *)
Definition two_lines : SearchQueryItem :=
  {| searchQuery := Some ("Ada" +:+ String "013"%char (String "010"%char "B"));
     autocompleteID := Some "1234";
     searchItemType := Some AUTOCOMPLETE_SUGGESTION;
     roomType := None; policyID := None; mapKey := Some "in:Ada B" |}.

(** [translate] of the sample: the English text of the two keys used. *)
Definition translate (key : string) : string :=
  if bool_decide (key = "search.searchIn") then "Search in"
  else if bool_decide (key = "search.noCategory") then "No category"
  else key.

(** Recent reports: a chat, an invoice room of an individual, an invoice
    room of a business, an expense chat, and a chat with an empty title. *)
Definition general_chat : Report.t :=
  {| Report.reportID := Some "room_42"; Report.text := Some "#general";
     Report.alternateText := None; Report.isInvoiceRoom := None;
     Report.isPolicyExpenseChat := None; Report.policyID := None;
     Report.invoiceReceiver := None |}.

Definition invoice_of_individual : Report.t :=
  {| Report.reportID := Some "room_7"; Report.text := Some "Ada";
     Report.alternateText := None; Report.isInvoiceRoom := Some true;
     Report.isPolicyExpenseChat := None; Report.policyID := Some "policy_7";
     Report.invoiceReceiver := Some (Individual 1234) |}.

Definition invoice_of_business : Report.t :=
  {| Report.reportID := Some "room_8"; Report.text := Some "Acme";
     Report.alternateText := None; Report.isInvoiceRoom := Some true;
     Report.isPolicyExpenseChat := None; Report.policyID := Some "policy_7";
     Report.invoiceReceiver := Some NotIndividual |}.

Definition expense_chat : Report.t :=
  {| Report.reportID := Some "room_9"; Report.text := Some "Travel";
     Report.alternateText := None; Report.isInvoiceRoom := None;
     Report.isPolicyExpenseChat := Some true; Report.policyID := Some "policy_7";
     Report.invoiceReceiver := None |}.

Definition untitled_chat : Report.t :=
  {| Report.reportID := Some "room_10"; Report.text := Some "";
     Report.alternateText := Some "notes"; Report.isInvoiceRoom := None;
     Report.isPolicyExpenseChat := None; Report.policyID := None;
     Report.invoiceReceiver := None |}.

Definition recentReports : list Report.t :=
  [general_chat; invoice_of_individual; invoice_of_business; expense_chat; untitled_chat].

(** What is offered with the chat [#general], and with the expense chat,
    in context. *)
Definition general_offer : ContextualSection :=
  {| text := "Search in #general"; keyForList := "contextualSearch";
     data := {| searchQuery := Some "#general"; autocompleteID := Some "room_42";
                searchItemType := Some CONTEXTUAL_SUGGESTION;
                roomType := Some "chat"; policyID := None; mapKey := None |} |}.

Definition expense_offer : ContextualSection :=
  {| text := "Search in Travel"; keyForList := "contextualSearch";
     data := {| searchQuery := Some "Travel"; autocompleteID := Some "policy_7";
                searchItemType := Some CONTEXTUAL_SUGGESTION;
                roomType := Some "expense"; policyID := Some "policy_7"; mapKey := None |} |}.

(** What is offered with the invoice room of Ada, and with the chat
    without a title. *)
Definition invoice_offer : ContextualSection :=
  {| text := "Search in Ada"; keyForList := "contextualSearch";
     data := {| searchQuery := Some "Ada"; autocompleteID := Some "1234";
                searchItemType := Some CONTEXTUAL_SUGGESTION;
                roomType := Some "invoice"; policyID := Some "policy_7"; mapKey := None |} |}.

Definition untitled_offer : ContextualSection :=
  {| text := "Search in "; keyForList := "contextualSearch";
     data := {| searchQuery := Some ""; autocompleteID := Some "room_10";
                searchItemType := Some CONTEXTUAL_SUGGESTION;
                roomType := Some "chat"; policyID := None; mapKey := None |} |}.

(** A suggestion without a search query, and a second suggestion with a
    pair to merge. *)
Definition blank_suggestion : SearchQueryItem :=
  {| searchQuery := Some ""; autocompleteID := Some "room_1";
     searchItemType := Some AUTOCOMPLETE_SUGGESTION;
     roomType := None; policyID := None; mapKey := Some "in:" |}.

Definition ada : SearchQueryItem :=
  {| searchQuery := Some "Ada"; autocompleteID := Some "1234";
     searchItemType := Some AUTOCOMPLETE_SUGGESTION;
     roomType := None; policyID := None; mapKey := Some "from:Ada" |}.

Definition invoice_suggestion : SearchQueryItem :=
  {| searchQuery := Some "Ada"; autocompleteID := Some "1234";
     searchItemType := Some CONTEXTUAL_SUGGESTION;
     roomType := Some "invoice"; policyID := None; mapKey := None |}.

(** A row that opens a report, and one that opens a chat with a person. *)
Definition report_row : OptionData := {| reportID := Some "room_42"; login := None |}.
Definition person_row : OptionData := {| reportID := None; login := Some "ada@example.com" |}.

(** Policy categories: two policies that share [Travel]; a third entry
    holds nothing. *)
Definition allPolicyCategories
  : option (list (string * option (list (string * SearchFiltersCategory.Category.t)))) :=
  Some [("policyCategories_A",
         Some [("Travel", {| SearchFiltersCategory.Category.name := "Travel" |});
               ("Meals", {| SearchFiltersCategory.Category.name := "Meals" |})]);
        ("policyCategories_B",
         Some [("Travel", {| SearchFiltersCategory.Category.name := "Travel" |});
               ("Fuel", {| SearchFiltersCategory.Category.name := "Fuel" |})]);
        ("policyCategories_C", None)].

Definition form_of (policy : option string) (categories : option (list string))
  : option SearchFiltersCategory.Form :=
  Some {| SearchFiltersCategory.category := categories;
          SearchFiltersCategory.policyID := policy |}.

End SampleMore.

(* ===================================================================== *)
(** ** Properties of WebGenericPressable *)
(* ===================================================================== *)

Module PressableSpec.
Import JS Pressable.

Lemma accessible_of_cases (p : PressableProps) :
  accessible_of p = Bool (default true (accessible p)).
Proof. unfold accessible_of. destruct (accessible p) as [[|]|]; reflexivity. Qed.

Lemma tabIndex_explicit (p : PressableProps) (t : Z) :
  tabIndex p = Some t ->
  WebGenericPressable_tabIndex p = if t =? 0 then 0 else -1.
Proof.
  intros Ht. unfold WebGenericPressable_tabIndex, tabIndex_condition.
  rewrite Ht. cbn. destruct (t =? 0); reflexivity.
Qed.

Lemma tabIndex_absent (p : PressableProps) :
  tabIndex p = None ->
  WebGenericPressable_tabIndex p =
    if negb (default true (accessible p)) || negb (default true (focusable p)) then -1 else 0.
Proof.
  intros Ht. unfold WebGenericPressable_tabIndex, tabIndex_condition, focusable_of.
  rewrite Ht, accessible_of_cases. reflexivity.
Qed.

(** C10, counterexample: an explicit [tabIndex] of [0] reaches the
    pressable as [0], and one of [-1] as [-1]: these two values come out as
    they went in. *)
Lemma tabIndex_zero_and_minus_one_unchanged :
  WebGenericPressable_tabIndex
    {| focusable := None; accessible := None; tabIndex := Some 0 |} = 0
  /\ WebGenericPressable_tabIndex
       {| focusable := None; accessible := None; tabIndex := Some (-1) |} = -1.
Proof. split; reflexivity. Qed.

(** C10, amended: for every combination of props the forwarded [tabIndex]
    is [0] or [-1]; it is [-1] exactly when
    [props.tabIndex ?? (!accessible || !focusable)] is truthy and [0]
    otherwise; an explicit [tabIndex] counts by its truthiness only ([0]
    gives [0], anything else gives [-1], so [5] gives [-1]), hence a value
    other than [0] and [-1] never comes out as it went in; and [accessible]
    is [true] when the prop is undefined. *)
Theorem tabIndex_by_truthiness (p : PressableProps) :
  (WebGenericPressable_tabIndex p = 0 \/ WebGenericPressable_tabIndex p = -1)
  /\ (WebGenericPressable_tabIndex p = -1 <-> ToBoolean (tabIndex_condition p) = true)
  /\ (WebGenericPressable_tabIndex p = 0 <-> ToBoolean (tabIndex_condition p) = false)
  /\ (forall t, tabIndex p = Some t ->
        WebGenericPressable_tabIndex p = if t =? 0 then 0 else -1)
  /\ (forall t, tabIndex p = Some t -> t <> 0 -> t <> -1 ->
        WebGenericPressable_tabIndex p <> t)
  /\ (forall f a, WebGenericPressable_tabIndex
                    {| focusable := f; accessible := a; tabIndex := Some 5 |} = -1)
  /\ (accessible p = None -> accessible_of p = Bool true).
Proof.
  repeat split.
  - unfold WebGenericPressable_tabIndex. destruct (ToBoolean _); auto.
  - unfold WebGenericPressable_tabIndex. destruct (ToBoolean _); [reflexivity | discriminate].
  - unfold WebGenericPressable_tabIndex. intros ->. reflexivity.
  - unfold WebGenericPressable_tabIndex. destruct (ToBoolean _); [discriminate | reflexivity].
  - unfold WebGenericPressable_tabIndex. intros ->. reflexivity.
  - apply tabIndex_explicit.
  - intros t Ht H0 H1. rewrite (tabIndex_explicit p t Ht).
    destruct (Z.eqb_spec t 0); congruence.
  - intros Ha. rewrite accessible_of_cases, Ha. reflexivity.
Qed.

End PressableSpec.

(* ===================================================================== *)
(** ** Properties of ReportFieldsEditValuePage *)
(* ===================================================================== *)

Module ReportFieldsEditValueSpec.
Import JS Text ReportFieldsEditValue.

(** The current value is the entry of the draft's list at the edited
    index, and the empty string when there is none. *)
Lemma currentValueName_at (l : list string) (i : nat) (v : string) :
  l !! i = Some v ->
  currentValueName {| formDraft := Some {| listValues := Some l |}; valueIndex := Z.of_nat i |} = v.
Proof.
  intros H. unfold currentValueName, index. cbn.
  destruct (Z.leb_spec 0 (Z.of_nat i)); [| lia].
  rewrite Nat2Z.id, H. reflexivity.
Qed.

Example trim_example : trim (" Travel" +:+ nbsp) = "Travel".
Proof. reflexivity. Qed.

Lemma trimStart_clean (s : string) : starts_clean (trimStart s).
Proof.
  induction s as [| c s IH]; [exact I |].
  cbn [trimStart]. destruct (is_white_space c) eqn:Hc; [exact IH | exact Hc].
Qed.

Lemma trimStart_of_clean (s : string) : starts_clean s -> trimStart s = s.
Proof. destruct s as [| c s]; [reflexivity |]. cbn. intros ->. reflexivity. Qed.

Lemma trimEnd_clean (s : string) : starts_clean s -> starts_clean (trimEnd s).
Proof.
  destruct s as [| c s]; [intros _; exact I |].
  cbn [starts_clean trimEnd]. intros Hc.
  destruct (trimEnd s); [rewrite Hc |]; exact Hc.
Qed.

Lemma trimEnd_idempotent (s : string) : trimEnd (trimEnd s) = trimEnd s.
Proof.
  induction s as [| c s IH]; [reflexivity |].
  cbn [trimEnd]. destruct (trimEnd s) as [| d t] eqn:Ht.
  - destruct (is_white_space c) eqn:Hc; [reflexivity |].
    cbn [trimEnd]. rewrite Hc. reflexivity.
  - change (trimEnd (String c (String d t)))
      with (match trimEnd (String d t) with
            | EmptyString => if is_white_space c then EmptyString else String c EmptyString
            | String a u => String c (String a u)
            end).
    rewrite IH. reflexivity.
Qed.

Lemma trim_idempotent (s : string) : trim (trim s) = trim s.
Proof.
  unfold trim.
  rewrite (trimStart_of_clean (trimEnd (trimStart s))).
  - apply trimEnd_idempotent.
  - apply trimEnd_clean, trimStart_clean.
Qed.

(** The last code unit of a trimmed string is not white space. *)
Lemma trimEnd_last (s : string) (c : ascii) :
  last (trimEnd s) = Some c -> is_white_space c = false.
Proof.
  revert c. induction s as [| d s IH]; [discriminate |].
  intros c. cbn [trimEnd]. destruct (trimEnd s) as [| a u] eqn:Ht.
  - destruct (is_white_space d) eqn:Hd; [discriminate |].
    cbn. intros [= <-]. exact Hd.
  - change (last (String d (String a u))) with (last (String a u)). apply IH.
Qed.

Lemma index_outside (l : list string) (i : Z) :
  i < 0 \/ Z.of_nat (length l) <= i -> index l i = None.
Proof.
  intros H. unfold index. destruct (Z.leb_spec 0 i); [| reflexivity].
  apply lookup_ge_None. lia.
Qed.

(** The white space of the strings modelled: TAB, LF, VT, FF, CR, SP and
    U+00A0. *)
Lemma is_white_space_codes (c : ascii) :
  is_white_space c = true <-> In (N_of_ascii c) [9%N; 10%N; 11%N; 12%N; 13%N; 32%N; 160%N].
Proof.
  unfold is_white_space. cbn [In].
  rewrite !orb_true_iff, andb_true_iff, !N.leb_le, !N.eqb_eq. lia.
Qed.

(** Trimming drops white space, and white space only, at both ends. *)
Lemma trimStart_split (s : string) :
  exists before, s = before +:+ trimStart s /\ white before = true.
Proof.
  induction s as [| c s (before & Hs & Hw)].
  - exists "". split; reflexivity.
  - cbn [trimStart]. destruct (is_white_space c) eqn:Hc.
    + exists (String c before). cbn. rewrite Hc, Hw.
      split; [exact (f_equal (String c) Hs) | reflexivity].
    + exists "". split; reflexivity.
Qed.

Lemma trimEnd_split (s : string) :
  exists after, s = trimEnd s +:+ after /\ white after = true.
Proof.
  induction s as [| c s (after & Hs & Hw)].
  - exists "". split; reflexivity.
  - cbn [trimEnd]. destruct (trimEnd s) as [| a u] eqn:Ht.
    + cbn in Hs. destruct (is_white_space c) eqn:Hc.
      * exists (String c after). cbn. rewrite Hc, Hw.
        split; [exact (f_equal (String c) Hs) | reflexivity].
      * exists after. split; [exact (f_equal (String c) Hs) | exact Hw].
    + exists after. split; [exact (f_equal (String c) Hs) | exact Hw].
Qed.

Lemma trim_split (s : string) :
  exists before after,
    s = before +:+ trim s +:+ after /\ white before = true /\ white after = true.
Proof.
  destruct (trimStart_split s) as (before & Hs & Hb).
  destruct (trimEnd_split (trimStart s)) as (after & Ht & Ha).
  exists before, after. split; [| split; assumption].
  unfold trim. rewrite <- Ht. exact Hs.
Qed.

(** What [editValue] calls, in terms of [currentValueName] and [trim]. *)
Lemma editValue_calls (p : Page) (newValueName : option string) :
  ((exists i n, In (renameReportFieldsListValue i n) (editValue p newValueName))
     <-> trim <$> newValueName <> Some (currentValueName p))
  /\ (forall i n, In (renameReportFieldsListValue i n) (editValue p newValueName) ->
        i = valueIndex p /\ n = trim <$> newValueName)
  /\ (exists renames,
        editValue p newValueName = (renames ++ [Keyboard_dismiss; Navigation_goBack])%list
        /\ (renames = [] \/
            renames = [renameReportFieldsListValue (valueIndex p) (trim <$> newValueName)]))
  /\ count_occ effect_eq_dec (editValue p newValueName) Keyboard_dismiss = 1%nat
  /\ count_occ effect_eq_dec (editValue p newValueName) Navigation_goBack = 1%nat.
Proof.
  unfold editValue.
  destruct (bool_decide_reflect (Some (currentValueName p) = trim <$> newValueName)) as [Heq | Hne];
    cbn [negb app].
  - split; [split |]; [| | split; [| split; [| split]]].
    + intros (i & n & [H | [H | []]]); discriminate.
    + intros H. congruence.
    + intros i n [H | [H | []]]; discriminate.
    + exists []. split; [reflexivity | left; reflexivity].
    + reflexivity.
    + reflexivity.
  - split; [split |]; [| | split; [| split; [| split]]].
    + intros _. congruence.
    + intros _. eexists _, _. left. reflexivity.
    + intros i n [H | [H | [H | []]]]; try discriminate.
      injection H as <- <-. split; reflexivity.
    + exists [renameReportFieldsListValue (valueIndex p) (trim <$> newValueName)].
      split; [reflexivity | right; reflexivity].
    + reflexivity.
    + reflexivity.
Qed.


(** C9: [editValue] calls [renameReportFieldsListValue] if and only if the
    trimmed new value differs from the current value at the edited index,
    and then with that index and the trimmed value; every submission ends
    with [Keyboard.dismiss()] followed by [Navigation.goBack()], each called
    once, whether or not a rename took place. Here the current value is
    the entry of the draft's list at the edited index, and the empty
    string when there is no draft, no list or no entry at that index; the
    trimmed new value is the new value without the white space (TAB, LF,
    VT, FF, CR, SP, U+00A0) at its two ends, and [undefined] when the
    field has no value. *)
Theorem editValue_renames_iff_changed (p : Page) (newValueName : option string) :
  exists (current : string) (valueName : option string),
    (forall d l v,
        formDraft p = Some d -> listValues d = Some l -> 0 <= valueIndex p ->
        l !! Z.to_nat (valueIndex p) = Some v -> current = v)
    /\ ((forall d l,
           formDraft p = Some d -> listValues d = Some l ->
           valueIndex p < 0 \/ Z.of_nat (length l) <= valueIndex p) ->
        current = "")
    /\ (newValueName = None -> valueName = None)
    /\ (forall s, newValueName = Some s ->
          exists before t after,
            valueName = Some t
            /\ s = before +:+ t +:+ after
            /\ white before = true /\ white after = true
            /\ starts_clean t /\ ends_clean t)
    /\ (forall c, is_white_space c = true
                  <-> In (N_of_ascii c) [9%N; 10%N; 11%N; 12%N; 13%N; 32%N; 160%N])
    /\ ((exists i n, In (renameReportFieldsListValue i n) (editValue p newValueName))
          <-> valueName <> Some current)
    /\ (forall i n, In (renameReportFieldsListValue i n) (editValue p newValueName) ->
          i = valueIndex p /\ n = valueName)
    /\ (exists renames,
          editValue p newValueName = (renames ++ [Keyboard_dismiss; Navigation_goBack])%list
          /\ (renames = [] \/
              renames = [renameReportFieldsListValue (valueIndex p) valueName]))
    /\ count_occ effect_eq_dec (editValue p newValueName) Keyboard_dismiss = 1%nat
    /\ count_occ effect_eq_dec (editValue p newValueName) Navigation_goBack = 1%nat.
Proof.
  exists (currentValueName p), (trim <$> newValueName).
  split; [| split; [| split; [| split; [| split]]]].
  - intros d l v Hd Hl Hi Hv. unfold currentValueName, index. rewrite Hd. cbn.
    rewrite Hl. cbn. destruct (Z.leb_spec 0 (valueIndex p)); [| lia].
    rewrite Hv. reflexivity.
  - intros H. unfold currentValueName.
    destruct (formDraft p) as [d |] eqn:Hd; [| reflexivity]. cbn.
    destruct (listValues d) as [l |] eqn:Hl; [| reflexivity]. cbn.
    rewrite (index_outside l _ (H d l eq_refl Hl)). reflexivity.
  - intros ->. reflexivity.
  - intros s ->. destruct (trim_split s) as (before & after & Hs & Hb & Ha).
    exists before, (trim s), after.
    split; [reflexivity |]. split; [exact Hs |]. split; [exact Hb |]. split; [exact Ha |].
    split.
    + apply trimEnd_clean, trimStart_clean.
    + intros c. apply trimEnd_last.
  - apply is_white_space_codes.
  - exact (editValue_calls p newValueName).
Qed.

End ReportFieldsEditValueSpec.

(* ===================================================================== *)
(** ** Properties of SearchRouter *)
(* ===================================================================== *)

Module SearchRouterSpec.
Import JS SearchRouter.
Local Open Scope router_scope.

#[local] Arguments spread_with : simpl never.
#[local] Arguments length_of : simpl never.
#[local] Arguments template_number : simpl never.
#[local] Arguments deepEqual : simpl never.
#[local] Arguments String.append : simpl never.
#[local] Arguments truthy : simpl never.
#[local] Arguments ToBoolean : simpl never.
#[local] Arguments onSearchQueryChange : simpl never.

(** Unfolding the handlers down to functions on worlds. *)
Ltac unfold_router :=
  unfold dispatch, onSubmit, updateAutocompleteSubstitutions,
    onListItemPress, onListItemPress_begin, onListItemPress_try, onListItemPress_catch,
    setFocusAndScrollToRight, setTextAndUpdateSelection, submitSearch,
    onSearchQueryChange, onSearchQueryChange_begin, onSearchQueryChange_try,
    onSearchQueryChange_catch, backHistory, onRouterClose, navigate,
    updateAndScrollToFocusedIndex, newActionId, now, random, call,
    setTextInputValue, setAutocompleteQueryValue, setSelection,
    setAutocompleteSubstitutions, emit, update, try_catch, lift, throw, bind, ret.

(** Running a handler: compute, and follow the equations at hand. *)
Ltac follow :=
  repeat first
    [ progress cbn
    | match goal with H : ?l = _ |- context [?l] => rewrite H end
    | rewrite bool_decide_eq_true_2 by congruence
    | rewrite bool_decide_eq_false_2 by congruence ].

(** Splitting on what a collaborator or a library function does. *)
Ltac split_paths :=
  repeat first
    [ progress cbn
    | match goal with H : ?l = _ |- context [?l] => rewrite H end
    | match goal with
      | |- context [match raises ?E ?e with _ => _ end] => destruct (raises E e) eqn:?
      | |- context [if listRef ?w then _ else _] => destruct (listRef w) eqn:?
      | |- context [match lineBreaksToSpaces ?E ?a ?b with _ => _ end] =>
          destruct (lineBreaksToSpaces E a b) eqn:?
      | |- context [match getAutocompleteQueryWithComma ?E ?a ?b with _ => _ end] =>
          destruct (getAutocompleteQueryWithComma E a b) eqn:?
      | |- context [match getUpdatedSubstitutionsMap ?E ?a ?b with _ => _ end] =>
          destruct (getUpdatedSubstitutionsMap E a b) eqn:?
      | |- context [if negb (deepEqual ?a ?b) then _ else _] => destruct (deepEqual a b) eqn:?
      | |- context [if ?a || ?b then _ else _] => destruct (a || b) eqn:?
      | |- context [if ?b then _ else _] => destruct b eqn:?
      end ].

Lemma append_assoc (a b c : string) : (a +:+ b) +:+ c = a +:+ b +:+ c.
Proof.
  induction a as [| x a IH]; [reflexivity |].
  change ((String x a +:+ b) +:+ c) with (String x ((a +:+ b) +:+ c)).
  rewrite IH. reflexivity.
Qed.

Lemma append_not_empty_r (a b : string) : b <> "" -> a +:+ b <> "".
Proof. intros H. destruct a; [exact H | discriminate]. Qed.

Lemma append_nbsp_not_empty (s : string) : s +:+ nbsp <> "".
Proof. apply append_not_empty_r. discriminate. Qed.

Lemma last_append (a b : string) : b <> "" -> last (a +:+ b) = last b.
Proof.
  intros Hb. induction a as [| c a IH]; [reflexivity |].
  change (String c a +:+ b) with (String c (a +:+ b)).
  cbn [last]. rewrite IH.
  destruct (a +:+ b) eqn:Hab; [| reflexivity].
  exfalso. revert Hab. apply append_not_empty_r, Hb.
Qed.

Lemma append_nbsp_last (s : string) : last (s +:+ nbsp) = Some "160"%char.
Proof. rewrite last_append; [reflexivity | discriminate]. Qed.

Lemma ToBoolean_Str (s : string) : s <> "" -> ToBoolean (Str s) = true.
Proof. intros H. unfold ToBoolean. rewrite bool_decide_eq_false_2; auto. Qed.

Lemma truthy_Some (s : string) : s <> "" -> truthy (Some s) = true.
Proof. apply ToBoolean_Str. Qed.

Lemma truthy_false (o : option string) : truthy o = false <-> o = None \/ o = Some "".
Proof.
  destruct o as [s |]; unfold truthy, ToBoolean; cbn.
  - destruct (bool_decide_reflect (s = "")) as [-> | Hne]; cbn.
    + split; [right; reflexivity | reflexivity].
    + split; [discriminate |]. intros [H | H]; [discriminate | congruence].
  - split; [left; reflexivity | reflexivity].
Qed.

Lemma navigations_app (l1 l2 : list event) :
  navigations (l1 ++ l2) = (navigations l1 + navigations l2)%nat.
Proof. unfold navigations. rewrite List.filter_app, List.length_app. reflexivity. Qed.

Section Submission.

Variable E : Env.

Lemma submitSearch_falsy (r : State) (queryString : string) (w : World)
    (queryWithSubstitutions : string) (updatedQuery : option string) :
  getQueryWithSubstitutions E queryString (autocompleteSubstitutions r)
    = Normal queryWithSubstitutions ->
  getQueryWithUpdatedValues E queryWithSubstitutions = Normal updatedQuery ->
  truthy updatedQuery = false ->
  submitSearch E r queryString w = (Normal tt, w).
Proof.
  intros H1 H2 H3. unfold_router. follow. reflexivity.
Qed.

Lemma submitSearch_truthy (r : State) (queryString : string) (w : World)
    (queryWithSubstitutions updatedQuery : string) :
  getQueryWithSubstitutions E queryString (autocompleteSubstitutions r)
    = Normal queryWithSubstitutions ->
  getQueryWithUpdatedValues E queryWithSubstitutions = Normal (Some updatedQuery) ->
  updatedQuery <> "" ->
  raises E BackHistory = None ->
  raises E OnRouterClose = None ->
  raises E (Navigate (SEARCH_ROOT updatedQuery)) = None ->
  exists w',
    submitSearch E r queryString w = (Normal tt, w')
    /\ pending w' =
         {| textInputValue := ""; autocompleteQueryValue := "";
            selection := selection (pending w);
            autocompleteSubstitutions := autocompleteSubstitutions (pending w) |}
    /\ out w' = (out w ++ [BackHistory; OnRouterClose; Navigate (SEARCH_ROOT updatedQuery);
                           SetTextInputValue ""; SetAutocompleteQueryValue ""])%list.
Proof.
  intros H1 H2 H3 H4 H5 H6.
  pose proof (truthy_Some _ H3) as Ht.
  unfold_router. follow.
  eexists. split; [reflexivity |]. cbn.
  rewrite <- !app_assoc. cbn [app]. split; reflexivity.
Qed.

(** C2: when applying the substitution map and then the normalizer yields
    nothing usable ([undefined] or the empty string), [submitSearch]
    returns normally and leaves the world as it was: no navigation, no other
    call, no log line, no state setter. *)
Theorem submitSearch_noop (r : State) (queryString : string) (w : World)
    (queryWithSubstitutions : string) (updatedQuery : option string) :
  getQueryWithSubstitutions E queryString (autocompleteSubstitutions r)
    = Normal queryWithSubstitutions ->
  getQueryWithUpdatedValues E queryWithSubstitutions = Normal updatedQuery ->
  truthy updatedQuery = false ->
  submitSearch E r queryString w = (Normal tt, w).
Proof. apply submitSearch_falsy. Qed.

(** C1, amended: when the query is non-empty after the substitution map
    and the normalizer, and the navigation collaborators return,
    [submitSearch] resets the text buffer and the autocomplete query value
    to the empty string, leaves the substitution map and the selection as
    they were, and navigates exactly once, to the search route of the
    canonical query, after closing the router. *)
Theorem submitSearch_navigates_once (r : State) (queryString : string) (w : World)
    (queryWithSubstitutions updatedQuery : string) :
  getQueryWithSubstitutions E queryString (autocompleteSubstitutions r)
    = Normal queryWithSubstitutions ->
  getQueryWithUpdatedValues E queryWithSubstitutions = Normal (Some updatedQuery) ->
  updatedQuery <> "" ->
  raises E BackHistory = None ->
  raises E OnRouterClose = None ->
  raises E (Navigate (SEARCH_ROOT updatedQuery)) = None ->
  exists w',
    submitSearch E r queryString w = (Normal tt, w')
    /\ textInputValue (pending w') = ""
    /\ autocompleteQueryValue (pending w') = ""
    /\ autocompleteSubstitutions (pending w') = autocompleteSubstitutions (pending w)
    /\ selection (pending w') = selection (pending w)
    /\ out w' = (out w ++ [BackHistory; OnRouterClose; Navigate (SEARCH_ROOT updatedQuery);
                           SetTextInputValue ""; SetAutocompleteQueryValue ""])%list
    /\ navigations (out w') = S (navigations (out w)).
Proof.
  intros H1 H2 H3 H4 H5 H6.
  destruct (submitSearch_truthy r queryString w _ _ H1 H2 H3 H4 H5 H6) as (w' & Hrun & Hp & Ho).
  exists w'. rewrite Hp, Ho, navigations_app. cbn.
  repeat split; auto. lia.
Qed.

(** C3, amended: two submissions in a row from the input, the second by
    the handler of the render that follows the first, each with no option
    focused in the list, and a normalizer that yields nothing for the
    empty buffer: the first navigates and clears the buffer, the second
    reads the empty buffer and does nothing; one navigation in all. *)
Theorem onSubmit_twice_navigates_once (w : World)
    (queryWithSubstitutions updatedQuery emptyWithSubstitutions : string)
    (emptyUpdated : option string) :
  getQueryWithSubstitutions E (textInputValue (pending w))
      (autocompleteSubstitutions (pending w)) = Normal queryWithSubstitutions ->
  getQueryWithUpdatedValues E queryWithSubstitutions = Normal (Some updatedQuery) ->
  updatedQuery <> "" ->
  raises E BackHistory = None ->
  raises E OnRouterClose = None ->
  raises E (Navigate (SEARCH_ROOT updatedQuery)) = None ->
  getQueryWithSubstitutions E "" (autocompleteSubstitutions (pending w))
    = Normal emptyWithSubstitutions ->
  getQueryWithUpdatedValues E emptyWithSubstitutions = Normal emptyUpdated ->
  truthy emptyUpdated = false ->
  exists w1,
    dispatch (fun r => onSubmit E r None) w = (Normal tt, w1)
    /\ textInputValue (pending w1) = ""
    /\ dispatch (fun r => onSubmit E r None) w1 = (Normal tt, w1)
    /\ navigations (out w1) = S (navigations (out w)).
Proof.
  intros H1 H2 H3 H4 H5 H6 H7 H8 H9.
  destruct (submitSearch_truthy (pending w) (textInputValue (pending w)) w
              _ _ H1 H2 H3 H4 H5 H6) as (w1 & Hrun & Hp & Ho).
  exists w1. unfold dispatch, onSubmit. rewrite Hrun, Hp, Ho, navigations_app. cbn.
  repeat split; [| lia].
  apply (submitSearch_falsy _ _ _ emptyWithSubstitutions emptyUpdated); auto.
Qed.

(** Two calls of [submitSearch] made by the handler of one render with one
    query text navigate twice: the handler reads its argument and the state
    of its render, not the buffer the first call cleared. *)
Remark submitSearch_same_render_twice (r : State) (queryString : string) (w : World)
    (queryWithSubstitutions updatedQuery : string) :
  getQueryWithSubstitutions E queryString (autocompleteSubstitutions r)
    = Normal queryWithSubstitutions ->
  getQueryWithUpdatedValues E queryWithSubstitutions = Normal (Some updatedQuery) ->
  updatedQuery <> "" ->
  raises E BackHistory = None ->
  raises E OnRouterClose = None ->
  raises E (Navigate (SEARCH_ROOT updatedQuery)) = None ->
  exists w1 w2,
    submitSearch E r queryString w = (Normal tt, w1)
    /\ submitSearch E r queryString w1 = (Normal tt, w2)
    /\ navigations (out w2) = S (S (navigations (out w))).
Proof.
  intros H1 H2 H3 H4 H5 H6.
  destruct (submitSearch_truthy r queryString w _ _ H1 H2 H3 H4 H5 H6) as (w1 & Hrun1 & _ & Ho1).
  destruct (submitSearch_truthy r queryString w1 _ _ H1 H2 H3 H4 H5 H6) as (w2 & Hrun2 & _ & Ho2).
  exists w1, w2. rewrite Ho2, Ho1, !navigations_app. cbn.
  repeat split; auto. lia.
Qed.

End Submission.

Section Keystroke.

Variable E : Env.

(** A keystroke whose library calls and list update return. *)
Lemma onSearchQueryChange_normal (r : State) (userQuery : string) (autoScrollToRight : bool)
    (w : World) (singleLine updated : string) (m' : gmap string string) :
  lineBreaksToSpaces E userQuery true = Normal singleLine ->
  getAutocompleteQueryWithComma E (textInputValue r) singleLine = Normal updated ->
  getUpdatedSubstitutionsMap E singleLine (autocompleteSubstitutions r) = Normal m' ->
  raises E (UpdateAndScrollToFocusedIndex
              (if ToBoolean (Str updated) || (0 <? length_of (textInputValue r))
               then 0 else -1)) = None ->
  exists w' evs,
    onSearchQueryChange E r userQuery autoScrollToRight w = (Normal tt, w')
    /\ pending w' =
         {| textInputValue := updated; autocompleteQueryValue := updated;
            selection := selection (pending w);
            autocompleteSubstitutions :=
              if deepEqual (autocompleteSubstitutions r) m'
              then autocompleteSubstitutions (pending w) else m' |}
    /\ out w' = (out w ++ evs)%list
    /\ navigations evs = 0%nat.
Proof.
  intros H1 H2 H3 H4. unfold_router. unfold onSearchQueryChange.
  unfold_router. destruct autoScrollToRight; follow;
  destruct (deepEqual (autocompleteSubstitutions r) m') eqn:Hd; cbn;
    destruct (ToBoolean (Str updated) || (0 <? length_of (textInputValue r))) eqn:Hc; cbn;
    destruct (listRef w) eqn:Hl; follow;
    (eexists; eexists; split; [reflexivity |]; cbn;
     rewrite <- ?app_assoc; cbn [app];
     split; [reflexivity | split; [reflexivity | reflexivity]]).
Qed.

End Keystroke.

Section Acceptance.

Variable E : Env.

(** The handlers, except [onSearchQueryChange], as functions on worlds. *)
Ltac unfold_press :=
  unfold dispatch, onListItemPress, onListItemPress_begin, onListItemPress_try,
    onListItemPress_catch, setFocusAndScrollToRight, newActionId, now, random, call,
    setSelection, setAutocompleteSubstitutions, emit, update, try_catch, lift, throw,
    bind, ret.

(** C5, amended: an autocomplete suggestion with a search query that is
    not empty, accepted while the buffer is not empty. With [trimmed] the
    buffer without the fragment being typed and [sanitized] the sanitized
    fragment of the item, the new query is [trimmed], [sanitized] and
    U+00A0; when the line-break and comma passes leave that text as it
    is, it becomes the buffer, the caret is at its end, and the identifier
    of the item is merged into the substitution map of the render under
    the map key of the item (an item without a map key or an identifier
    has nothing to merge). *)
Theorem accept_autocomplete_suggestion (w : World) (item : SearchQueryItem)
    (fragment trimmed sanitized : string) (m' : gmap string string) :
  textInputValue (pending w) <> "" ->
  searchItemType item = Some AUTOCOMPLETE_SUGGESTION ->
  searchQuery item = Some fragment ->
  fragment <> "" ->
  getQueryWithoutAutocompletedPart E (textInputValue (pending w)) = Normal trimmed ->
  sanitizeSearchValue E fragment = Normal sanitized ->
  lineBreaksToSpaces E (trimmed +:+ sanitized +:+ nbsp) true
    = Normal (trimmed +:+ sanitized +:+ nbsp) ->
  getAutocompleteQueryWithComma E (textInputValue (pending w)) (trimmed +:+ sanitized +:+ nbsp)
    = Normal (trimmed +:+ sanitized +:+ nbsp) ->
  getUpdatedSubstitutionsMap E (trimmed +:+ sanitized +:+ nbsp)
    (autocompleteSubstitutions (pending w)) = Normal m' ->
  raises E (UpdateAndScrollToFocusedIndex 0) = None ->
  exists w',
    dispatch (fun r => onListItemPress E r (QueryItem item)) w = (Normal tt, w')
    /\ textInputValue (pending w') = trimmed +:+ sanitized +:+ nbsp
    /\ last (textInputValue (pending w')) = Some "160"%char
    /\ selection (pending w') =
         {| start := length_of (textInputValue (pending w'));
            end_ := length_of (textInputValue (pending w')) |}
    /\ (forall key id,
          mapKey item = Some key -> key <> "" ->
          autocompleteID item = Some id -> id <> "" ->
          autocompleteSubstitutions (pending w')
            = <[key := id]> (autocompleteSubstitutions (pending w)))
    /\ (truthy (mapKey item) = false \/ truthy (autocompleteID item) = false ->
        autocompleteSubstitutions (pending w') = m').
Proof.
  intros Htext Htype Hq Hfrag Htrim Hsan Hline Hcomma Hmap Hraise.
  pose proof (truthy_Some _ Hfrag) as Tq.
  pose proof (ToBoolean_Str _ Htext) as Tt.
  unfold_press. follow.
  match goal with
  | |- context [onSearchQueryChange E ?r ?q ?a ?w0] =>
      destruct (onSearchQueryChange_normal E r q a w0 _ _ m' Hline Hcomma Hmap)
        as (w1 & evs & Hrun & Hp & _)
  end.
  { rewrite ToBoolean_Str; [exact Hraise |].
    apply append_not_empty_r, append_nbsp_not_empty. }
  rewrite Hrun. follow.
  assert (Hm : (if deepEqual (autocompleteSubstitutions (pending w)) m'
                then autocompleteSubstitutions (pending w) else m') = m').
  { unfold deepEqual. case_bool_decide; congruence. }
  destruct (truthy (mapKey item)) eqn:Tk; destruct (truthy (autocompleteID item)) eqn:Ti; cbn;
    destruct (raises E (RunAfterInteractions _)); cbn;
    (eexists; split; [reflexivity |]; cbn; rewrite Hp; cbn;
     split; [reflexivity |];
     split; [rewrite last_append by apply append_nbsp_not_empty; apply append_nbsp_last |];
     split; [reflexivity |]; split).
  all: try (intros key id Hk Hk' Hi Hi'; rewrite ?Hk, ?Hi in *; cbn).
  all: try (rewrite (truthy_Some _ Hk') in Tk; discriminate Tk).
  all: try (rewrite (truthy_Some _ Hi') in Ti; discriminate Ti).
  all: try reflexivity.
  all: try (intros [H | H]; discriminate H).
  all: intros _; exact Hm.
Qed.

(** The key of a contextual suggestion exists for invoice rooms and chats
    only, and is never empty. *)
Lemma getContextualSearchAutocompleteKey_cases (item : SearchQueryItem) :
  (roomType item = Some (DATA_TYPES_INVOICE (CONST E)) ->
     getContextualSearchAutocompleteKey E item
       = Some (SYNTAX_FILTER_KEYS_TO (CONST E) +:+ ":" +:+ template (searchQuery item)))
  /\ (roomType item <> Some (DATA_TYPES_INVOICE (CONST E)) ->
      roomType item = Some (DATA_TYPES_CHAT (CONST E)) ->
      getContextualSearchAutocompleteKey E item
        = Some (SYNTAX_FILTER_KEYS_IN (CONST E) +:+ ":" +:+ template (searchQuery item)))
  /\ (roomType item <> Some (DATA_TYPES_INVOICE (CONST E)) ->
      roomType item <> Some (DATA_TYPES_CHAT (CONST E)) ->
      getContextualSearchAutocompleteKey E item = None).
Proof.
  unfold getContextualSearchAutocompleteKey.
  repeat split; intros; repeat case_bool_decide; congruence.
Qed.

Lemma contextual_key_not_empty (item : SearchQueryItem) (key : string) :
  getContextualSearchAutocompleteKey E item = Some key -> key <> "".
Proof.
  unfold getContextualSearchAutocompleteKey.
  repeat case_bool_decide; intros Hkey; inversion Hkey;
    apply append_not_empty_r; discriminate.
Qed.

(** The query synthesized for a chat, or any room that is neither an
    expense nor an invoice room. *)
Lemma getContextualSearchQuery_chat (item : SearchQueryItem) (v : string) :
  roomType item <> Some (DATA_TYPES_EXPENSE (CONST E)) ->
  roomType item <> Some (DATA_TYPES_INVOICE (CONST E)) ->
  sanitizeSearchValue E (default "" (searchQuery item)) = Normal v ->
  getContextualSearchQuery E item
    = Normal (SEARCH_USER_FRIENDLY_KEYS_TYPE (CONST E) +:+ ":" +:+ template (roomType item)
              +:+ " " +:+ SEARCH_USER_FRIENDLY_KEYS_IN (CONST E) +:+ ":" +:+ v).
Proof.
  intros H1 H2 H3. unfold getContextualSearchQuery.
  rewrite !bool_decide_eq_false_2 by assumption. cbn. rewrite H3.
  rewrite !append_assoc. reflexivity.
Qed.

(** A contextual suggestion accepted from an empty buffer, with the key
    as [getContextualSearchAutocompleteKey] gives it. *)
Lemma accept_contextual_by_key (w : World) (item : SearchQueryItem)
    (fragment contextual : string) (m' : gmap string string) :
  textInputValue (pending w) = "" ->
  searchItemType item = Some CONTEXTUAL_SUGGESTION ->
  searchQuery item = Some fragment ->
  fragment <> "" ->
  getContextualSearchQuery E item = Normal contextual ->
  lineBreaksToSpaces E (contextual +:+ nbsp) true = Normal (contextual +:+ nbsp) ->
  getAutocompleteQueryWithComma E "" (contextual +:+ nbsp) = Normal (contextual +:+ nbsp) ->
  getUpdatedSubstitutionsMap E (contextual +:+ nbsp) (autocompleteSubstitutions (pending w))
    = Normal m' ->
  raises E (UpdateAndScrollToFocusedIndex 0) = None ->
  exists w',
    dispatch (fun r => onListItemPress E r (QueryItem item)) w = (Normal tt, w')
    /\ textInputValue (pending w') = contextual +:+ nbsp
    /\ last (textInputValue (pending w')) = Some "160"%char
    /\ textInputValue (pending w') <> ""
    /\ selection (pending w') =
         {| start := length_of (textInputValue (pending w'));
            end_ := length_of (textInputValue (pending w')) |}
    /\ (forall key id,
          getContextualSearchAutocompleteKey E item = Some key ->
          autocompleteID item = Some id ->
          id <> "" ->
          autocompleteSubstitutions (pending w')
            = <[key := id]> (autocompleteSubstitutions (pending w))
          /\ dom (autocompleteSubstitutions (pending w'))
             = {[key]} ∪ dom (autocompleteSubstitutions (pending w)))
    /\ (getContextualSearchAutocompleteKey E item = None
          \/ truthy (autocompleteID item) = false ->
        autocompleteSubstitutions (pending w') = m').
Proof.
  intros Htext Htype Hq Hfrag Hctx Hline Hcomma Hmap Hraise.
  pose proof (truthy_Some _ Hfrag) as Tq.
  unfold_press. follow.
  match goal with
  | |- context [onSearchQueryChange E ?r ?q ?a ?w0] =>
      destruct (onSearchQueryChange_normal E r q a w0 _ (contextual +:+ nbsp) m' Hline)
        as (w1 & evs & Hrun & Hp & _)
  end.
  { rewrite Htext. exact Hcomma. }
  { exact Hmap. }
  { rewrite ToBoolean_Str by apply append_nbsp_not_empty. exact Hraise. }
  rewrite Hrun. follow.
  assert (Hm : (if deepEqual (autocompleteSubstitutions (pending w)) m'
                then autocompleteSubstitutions (pending w) else m') = m').
  { unfold deepEqual. case_bool_decide; congruence. }
  destruct (getContextualSearchAutocompleteKey E item) as [key |] eqn:Hkey.
  - rewrite (truthy_Some _ (contextual_key_not_empty _ _ Hkey)).
    destruct (truthy (autocompleteID item)) eqn:Hid; cbn;
      destruct (raises E (RunAfterInteractions _)); cbn;
      (eexists; split; [reflexivity |]; cbn; rewrite Hp; cbn;
       split; [reflexivity |];
       split; [apply append_nbsp_last |];
       split; [apply append_nbsp_not_empty |];
       split; [reflexivity |]; split).
    all: try (intros key' id Hk' Hid' Hne; inversion Hk'; subst key').
    all: try (rewrite Hid' in *; cbn; unfold spread_with;
              split; [reflexivity | apply dom_insert_L]).
    all: try (rewrite Hid' in Hid; rewrite (truthy_Some _ Hne) in Hid; discriminate).
    all: try (intros [H | H]; discriminate).
    all: intros _; exact Hm.
  - destruct (truthy None) eqn:Hn; [discriminate |]. cbn.
    destruct (raises E (RunAfterInteractions _)); cbn;
      (eexists; split; [reflexivity |]; cbn; rewrite Hp; cbn;
       split; [reflexivity |];
       split; [apply append_nbsp_last |];
       split; [apply append_nbsp_not_empty |];
       split; [reflexivity |]; split;
       [intros key' id Hk'; discriminate | intros _; exact Hm]).
Qed.

(** C4, amended: a contextual suggestion with a search query that is not
    empty, accepted from an empty buffer. When the line-break and comma
    passes leave the synthesized query and its U+00A0 as they are, that
    text becomes the buffer, which ends in U+00A0 and is not empty, and
    the caret is at its end. When the item carries an identifier, it is
    bound in the substitution map of the render under [to:] and the search
    query for an invoice room, and under [in:] and the search query for a
    chat, which adds that one key; for any other room type, or without an
    identifier, no key is added and the map is the one the keystroke pass
    computed. *)
Theorem accept_contextual_suggestion (w : World) (item : SearchQueryItem)
    (fragment contextual : string) (m' : gmap string string) :
  textInputValue (pending w) = "" ->
  searchItemType item = Some CONTEXTUAL_SUGGESTION ->
  searchQuery item = Some fragment ->
  fragment <> "" ->
  getContextualSearchQuery E item = Normal contextual ->
  lineBreaksToSpaces E (contextual +:+ nbsp) true = Normal (contextual +:+ nbsp) ->
  getAutocompleteQueryWithComma E "" (contextual +:+ nbsp) = Normal (contextual +:+ nbsp) ->
  getUpdatedSubstitutionsMap E (contextual +:+ nbsp) (autocompleteSubstitutions (pending w))
    = Normal m' ->
  raises E (UpdateAndScrollToFocusedIndex 0) = None ->
  exists w',
    dispatch (fun r => onListItemPress E r (QueryItem item)) w = (Normal tt, w')
    /\ textInputValue (pending w') = contextual +:+ nbsp
    /\ last (textInputValue (pending w')) = Some "160"%char
    /\ textInputValue (pending w') <> ""
    /\ selection (pending w') =
         {| start := length_of (textInputValue (pending w'));
            end_ := length_of (textInputValue (pending w')) |}
    /\ (forall id,
          autocompleteID item = Some id ->
          id <> "" ->
          (roomType item = Some (DATA_TYPES_INVOICE (CONST E)) ->
             autocompleteSubstitutions (pending w')
               = <[SYNTAX_FILTER_KEYS_TO (CONST E) +:+ ":" +:+ fragment := id]>
                   (autocompleteSubstitutions (pending w))
             /\ dom (autocompleteSubstitutions (pending w'))
                = {[SYNTAX_FILTER_KEYS_TO (CONST E) +:+ ":" +:+ fragment]}
                  ∪ dom (autocompleteSubstitutions (pending w)))
          /\ (roomType item <> Some (DATA_TYPES_INVOICE (CONST E)) ->
              roomType item = Some (DATA_TYPES_CHAT (CONST E)) ->
              autocompleteSubstitutions (pending w')
                = <[SYNTAX_FILTER_KEYS_IN (CONST E) +:+ ":" +:+ fragment := id]>
                    (autocompleteSubstitutions (pending w))
              /\ dom (autocompleteSubstitutions (pending w'))
                 = {[SYNTAX_FILTER_KEYS_IN (CONST E) +:+ ":" +:+ fragment]}
                   ∪ dom (autocompleteSubstitutions (pending w))))
    /\ ((roomType item <> Some (DATA_TYPES_INVOICE (CONST E))
         /\ roomType item <> Some (DATA_TYPES_CHAT (CONST E)))
        \/ truthy (autocompleteID item) = false ->
        autocompleteSubstitutions (pending w') = m').
Proof.
  intros Htext Htype Hq Hfrag Hctx Hline Hcomma Hmap Hraise.
  destruct (accept_contextual_by_key w item fragment contextual m'
              Htext Htype Hq Hfrag Hctx Hline Hcomma Hmap Hraise)
    as (w' & Hrun & Ht & Hl & Hne & Hsel & Hkey & Hnone).
  destruct (getContextualSearchAutocompleteKey_cases item) as (Kinv & Kchat & Kother).
  rewrite Hq in Kinv, Kchat. unfold template in Kinv, Kchat. cbn [default] in Kinv, Kchat.
  exists w'.
  split; [exact Hrun |]. split; [exact Ht |]. split; [exact Hl |]. split; [exact Hne |].
  split; [exact Hsel |]. split.
  - intros id Hid Hidne. split.
    + intros Hr. exact (Hkey _ id (Kinv Hr) Hid Hidne).
    + intros Hr1 Hr2. exact (Hkey _ id (Kchat Hr1 Hr2) Hid Hidne).
  - intros [[H1 H2] | H]; apply Hnone; [left; apply Kother; assumption | right; exact H].
Qed.

End Acceptance.

Section Invariants.

Variable E : Env.

(** C6, amended: a programmatic text replacement
    ([setTextAndUpdateSelection]) puts the caret at the end of the new
    text, so that [0 <= start <= end <= length(text)] holds afterwards; a
    keystroke ([onSearchQueryChange]) leaves the selection as it was,
    whatever becomes of the text; and [setSelection] stores the range it is
    given as it is, without clamping. *)
Theorem selection_after_updates :
  (forall (text : string) (w : World),
     exists w',
       setTextAndUpdateSelection text w = (Normal tt, w')
       /\ textInputValue (pending w') = text
       /\ selection (pending w') = {| start := length_of text; end_ := length_of text |}
       /\ selection_in_bounds (pending w'))
  /\ (forall (r : State) (userQuery : string) (autoScrollToRight : bool) (w : World),
        selection (pending (snd (onSearchQueryChange E r userQuery autoScrollToRight w)))
          = selection (pending w))
  /\ (forall (range : Selection) (w : World),
        fst (setSelection range w) = Normal tt
        /\ selection (pending (snd (setSelection range w))) = range).
Proof.
  split; [| split].
  - intros text w. unfold_router. cbn.
    eexists. split; [reflexivity |]. cbn.
    repeat split; cbn; unfold length_of; lia.
  - intros r userQuery autoScrollToRight w.
    unfold onSearchQueryChange. unfold_router.
    destruct autoScrollToRight; split_paths; reflexivity.
  - intros range w. unfold_router. cbn. split; reflexivity.
Qed.

(** C7, amended: a merge builds the new map from the map of the render
    ([{...substitutions, [key]: identifier}]) and hands it to the state
    setter every time, also when it equals the map it was built from, as
    when the same key and identifier are merged twice; only the keystroke
    pass compares the maps, and calls the setter when they differ. *)
Theorem substitutions_after_updates :
  (forall (r : State) (item : SearchQueryItem) (key id : string) (w : World),
     mapKey item = Some key -> key <> "" ->
     autocompleteID item = Some id -> id <> "" ->
     exists w',
       updateAutocompleteSubstitutions r item w = (Normal tt, w')
       /\ autocompleteSubstitutions (pending w') = <[key := id]> (autocompleteSubstitutions r)
       /\ out w' = (out w ++ [SetAutocompleteSubstitutions
                                (<[key := id]> (autocompleteSubstitutions r))])%list)
  /\ (forall (item : SearchQueryItem) (key id : string) (w : World),
        mapKey item = Some key -> key <> "" ->
        autocompleteID item = Some id -> id <> "" ->
        exists w1 w2,
          dispatch (fun r => updateAutocompleteSubstitutions r item) w = (Normal tt, w1)
          /\ dispatch (fun r => updateAutocompleteSubstitutions r item) w1 = (Normal tt, w2)
          /\ autocompleteSubstitutions (pending w2) = autocompleteSubstitutions (pending w1)
          /\ out w2 = (out w1 ++ [SetAutocompleteSubstitutions
                                    (autocompleteSubstitutions (pending w1))])%list)
  /\ (forall (r : State) (userQuery : string) (autoScrollToRight : bool) (w : World),
        exists evs,
          out (snd (onSearchQueryChange E r userQuery autoScrollToRight w)) = (out w ++ evs)%list
          /\ forall m, In (SetAutocompleteSubstitutions m) evs ->
                       m <> autocompleteSubstitutions r).
Proof.
  split; [| split].
  - intros r item key id w Hk Hk' Hi Hi'.
    pose proof (truthy_Some _ Hk') as Tk. pose proof (truthy_Some _ Hi') as Ti.
    unfold_router. follow. eexists. split; [reflexivity |]. split; reflexivity.
  - intros item key id w Hk Hk' Hi Hi'.
    pose proof (truthy_Some _ Hk') as Tk. pose proof (truthy_Some _ Hi') as Ti.
    unfold_router. follow. eexists. eexists.
    split; [reflexivity |]. split; [reflexivity |]. cbn.
    unfold spread_with. rewrite insert_insert_eq. split; reflexivity.
  - intros r userQuery autoScrollToRight w.
    unfold onSearchQueryChange. unfold_router.
    destruct autoScrollToRight; split_paths;
      (eexists; split; [rewrite <- ?app_assoc; cbn [app]; reflexivity |];
       intros m Hin; cbn in Hin;
       repeat (destruct Hin as [Hin | Hin]; try discriminate Hin); try contradiction;
       injection Hin as <-; intros Heq;
       match goal with
       | Hd : deepEqual _ _ = false |- _ =>
           unfold deepEqual in Hd; rewrite bool_decide_eq_true_2 in Hd by congruence;
           discriminate Hd
       end).
Qed.

(** C8, amended: an exception raised in the [try] block of
    [onSearchQueryChange] is logged by [Log.alert] with the action
    identifier, the error, the elapsed time and the input length, and
    thrown again; one raised in the [try] block of [onListItemPress] is
    logged with the action identifier, the error, the elapsed time and the
    kind of the item, and thrown again; one raised while the deferred focus
    and scroll is scheduled is logged with the action identifier and the
    error, and not thrown again. *)
Theorem exceptions_logged :
  (forall (r : State) (userQuery : string) (autoScrollToRight : bool) (w : World),
     exists w1,
       onSearchQueryChange_begin E r userQuery autoScrollToRight w
         = (Normal ("search_query" +:+ "_" +:+ template_number (Date_now E (clock w))
                    +:+ "_" +:+ Math_random E (draws w),
                    Date_now E (S (clock w))), w1)
       /\ forall actionId startTime error w2,
            onSearchQueryChange_begin E r userQuery autoScrollToRight w
              = (Normal (actionId, startTime), w1) ->
            onSearchQueryChange_try E r userQuery autoScrollToRight actionId startTime w1
              = (Throw error, w2) ->
            exists w3,
              onSearchQueryChange E r userQuery autoScrollToRight w = (Throw error, w3)
              /\ pending w3 = pending w2
              /\ out w3 =
                   (out w2 ++
                    [LogAlert "[CMD_K_FREEZE] Search query change failed"
                       [("actionId", Str actionId);
                        ("error", Str (String_of error));
                        ("duration", Number (Date_now E (clock w2) - startTime));
                        ("inputLength", Number (length_of userQuery));
                        ("timestamp", Number (Date_now E (clock w2)))]])%list)
  /\ (forall (r : State) (item : ListItem) (w : World),
        exists w1,
          onListItemPress_begin E item w
            = (Normal ("list_item_press" +:+ "_" +:+ template_number (Date_now E (clock w))
                       +:+ "_" +:+ Math_random E (draws w),
                       Date_now E (S (clock w))), w1)
          /\ forall actionId startTime error w2,
               onListItemPress_begin E item w = (Normal (actionId, startTime), w1) ->
               onListItemPress_try E r item actionId startTime w1 = (Throw error, w2) ->
               exists w3,
                 onListItemPress E r item w = (Throw error, w3)
                 /\ pending w3 = pending w2
                 /\ out w3 =
                      (out w2 ++
                       [LogAlert "[CMD_K_FREEZE] List item press failed"
                          [("actionId", Str actionId);
                           ("error", Str (String_of error));
                           ("duration", Number (Date_now E (clock w2) - startTime));
                           ("itemType", Str (itemType item));
                           ("searchItemType", searchItemType_of E item);
                           ("timestamp", Number (Date_now E (clock w2)))]])%list)
  /\ (forall (actionId : string) (w : World) (error : exn),
        raises E (RunAfterInteractions (focusAndScrollToRight actionId)) = Some error ->
        exists w',
          setFocusAndScrollToRight E actionId w = (Normal tt, w')
          /\ pending w' = pending w
          /\ out w' =
               (out w ++
                [RunAfterInteractions (focusAndScrollToRight actionId);
                 LogAlert "[CMD_K_FREEZE] Focus and scroll failed"
                   [("actionId", Str actionId);
                    ("error", Str (String_of error));
                    ("timestamp", Number (Date_now E (clock w)))]])%list).
Proof.
  split; [| split].
  - intros r userQuery autoScrollToRight w. eexists. split; [reflexivity |].
    intros actionId startTime error w2 Hbegin Htry.
    unfold onSearchQueryChange, bind. rewrite Hbegin. cbn [fst snd].
    unfold try_catch. rewrite Htry.
    unfold onSearchQueryChange_catch, now, emit, throw, bind. cbn.
    eexists. split; [reflexivity |]. split; reflexivity.
  - intros r item w. eexists. split; [reflexivity |].
    intros actionId startTime error w2 Hbegin Htry.
    unfold onListItemPress, bind. rewrite Hbegin. cbn [fst snd].
    unfold try_catch. rewrite Htry.
    unfold onListItemPress_catch, now, emit, throw, bind. cbn.
    eexists. split; [reflexivity |]. split; reflexivity.
  - intros actionId w error Hraise. unfold_router. follow.
    eexists. split; [reflexivity |]. cbn. rewrite <- app_assoc. split; reflexivity.
Qed.

End Invariants.


(** *** The theorems at the sample environment *)

Import Sample.

Example accepted_general_caret :
  selection_in_bounds accepted_general
  /\ end_ (selection accepted_general) = length_of (textInputValue accepted_general).
Proof. repeat split; vm_compute; congruence. Qed.

Example applyTo_scenario :
  applyTo ("type:chat in:#general" +:+ nbsp) {["in:#general" := "room_42"]}
    = "type:chat room_42" +:+ nbsp
  /\ applyTo "type:expense" {["in:#general" := "room_42"]} = "type:expense".
Proof. split; vm_compute; reflexivity. Qed.

(** A keystroke during which [lineBreaksToSpaces] throws: the handler logs
    the alert and ends with the exception; the text is untouched. *)
Example keystroke_exception_rethrown :
  dispatch (fun r => onSearchQueryChange (env None (Some (Error "bad input"))) r "ab" false)
    (world_of typing_in)
  = (Throw (Error "bad input"),
     {| pending := typing_in; shouldScrollRef := false; listRef := true; textInputRef := true;
        out := [LogInfo "[CMD_K_DEBUG] Search query change started" false
                  [("actionId", Str "search_query_1700000000000_k3x9q2a");
                   ("inputLength", Number 2);
                   ("previousInputLength", Number 13);
                   ("autoScrollToRight", Bool false);
                   ("timestamp", Number 1700000000001)];
                LogAlert "[CMD_K_FREEZE] Search query change failed"
                  [("actionId", Str "search_query_1700000000000_k3x9q2a");
                   ("error", Str "Error: bad input");
                   ("duration", Number 1);
                   ("inputLength", Number 2);
                   ("timestamp", Number 1700000000002)]];
        clock := 3%nat; draws := 1%nat |}).
Proof. vm_compute. reflexivity. Qed.

(** The same failure while a suggestion is accepted: both handlers log
    their alert, and the exception reaches the caller. *)
Example selection_exception_rethrown :
  fst (dispatch (fun r => onListItemPress (env None (Some (Error "bad input"))) r
                            (QueryItem general_room)) (world_of typing_in))
  = Throw (Error "bad input")
  /\ List.filter (fun e => match e with LogAlert _ _ => true | _ => false end)
       (out (snd (dispatch (fun r => onListItemPress (env None (Some (Error "bad input"))) r
                                       (QueryItem general_room)) (world_of typing_in))))
     = [LogAlert "[CMD_K_FREEZE] Search query change failed"
          [("actionId", Str "search_query_1700000000002_k3x9q2a");
           ("error", Str "Error: bad input");
           ("duration", Number 1);
           ("inputLength", Number 22);
           ("timestamp", Number 1700000000004)];
        LogAlert "[CMD_K_FREEZE] List item press failed"
          [("actionId", Str "list_item_press_1700000000000_k3x9q2a");
           ("error", Str "Error: bad input");
           ("duration", Number 4);
           ("itemType", Str "SearchQueryItem");
           ("searchItemType", Str "autocompleteSuggestion");
           ("timestamp", Number 1700000000005)]].
Proof. split; vm_compute; reflexivity. Qed.

(** A blank query from the first render: nothing happens. *)
Lemma submitSearch_noop_blank :
  submitSearch (env None None) initialState "  " initialWorld = (Normal tt, initialWorld).
Proof.
  apply (submitSearch_noop (env None None) initialState "  " initialWorld "  " None);
    reflexivity.
Defined.

(** C1, counterexample: after the query of scenario A is submitted the
    substitution map still holds the entry of [#general]; it is not
    empty. *)
Lemma submitSearch_keeps_substitutions :
  fst (submitSearch (env None None) accepted_general (textInputValue accepted_general)
         (world_of accepted_general)) = Normal tt
  /\ autocompleteSubstitutions
       (pending (snd (submitSearch (env None None) accepted_general
                        (textInputValue accepted_general) (world_of accepted_general))))
     = {["in:#general" := "room_42"]}
  /\ autocompleteSubstitutions
       (pending (snd (submitSearch (env None None) accepted_general
                        (textInputValue accepted_general) (world_of accepted_general))))
     <> ∅.
Proof.
  split; [reflexivity |]. split; [reflexivity |].
  apply map_non_empty_singleton.
Qed.

(** The query of scenario A, submitted. *)
Lemma submitSearch_navigates_once_scenario :
  exists w',
    submitSearch (env None None) accepted_general (textInputValue accepted_general)
      (world_of accepted_general) = (Normal tt, w')
    /\ textInputValue (pending w') = ""
    /\ autocompleteQueryValue (pending w') = ""
    /\ autocompleteSubstitutions (pending w')
       = autocompleteSubstitutions (pending (world_of accepted_general))
    /\ selection (pending w') = selection (pending (world_of accepted_general))
    /\ out w' =
         (out (world_of accepted_general) ++
          [BackHistory; OnRouterClose;
           Navigate (SEARCH_ROOT ("type:chat room_42" +:+ nbsp));
           SetTextInputValue ""; SetAutocompleteQueryValue ""])%list
    /\ navigations (out w') = S (navigations (out (world_of accepted_general))).
Proof.
  apply (submitSearch_navigates_once (env None None) accepted_general
           (textInputValue accepted_general) (world_of accepted_general)
           ("type:chat room_42" +:+ nbsp) ("type:chat room_42" +:+ nbsp));
    first [vm_compute; reflexivity | discriminate].
Defined.

(** The query of scenario A, submitted twice from the input. *)
Lemma onSubmit_twice_scenario :
  exists w1,
    dispatch (fun r => onSubmit (env None None) r None) (world_of accepted_general) = (Normal tt, w1)
    /\ textInputValue (pending w1) = ""
    /\ dispatch (fun r => onSubmit (env None None) r None) w1 = (Normal tt, w1)
    /\ navigations (out w1) = S (navigations (out (world_of accepted_general))).
Proof.
  apply (onSubmit_twice_navigates_once (env None None) (world_of accepted_general)
           ("type:chat room_42" +:+ nbsp) ("type:chat room_42" +:+ nbsp) "" None);
    first [vm_compute; reflexivity | discriminate].
Defined.

(** C4, counterexample: the contextual suggestion of an expense chat
    carries an identifier, and accepting it from the empty buffer adds no
    key to the substitution map. *)
Lemma accept_expense_chat_adds_no_key :
  autocompleteID this_expense_chat = Some "policy_7"
  /\ dispatch (fun r => onListItemPress (env None None) r (QueryItem this_expense_chat)) initialWorld
     = (Normal tt,
        snd (dispatch (fun r => onListItemPress (env None None) r (QueryItem this_expense_chat))
               initialWorld))
  /\ textInputValue
       (pending (snd (dispatch (fun r => onListItemPress (env None None) r
                                           (QueryItem this_expense_chat)) initialWorld)))
     = "type:expense policyID:policy_7" +:+ nbsp
  /\ autocompleteSubstitutions
       (pending (snd (dispatch (fun r => onListItemPress (env None None) r
                                           (QueryItem this_expense_chat)) initialWorld)))
     = ∅.
Proof.
  split; [reflexivity |].
  split; [vm_compute; reflexivity |].
  split; vm_compute; reflexivity.
Qed.

(** Scenario B: the contextual suggestion of the chat [#general], accepted
    from the empty buffer of the first render. *)
Lemma accept_contextual_chat :
  exists w',
    dispatch (fun r => onListItemPress (env None None) r (QueryItem this_chat)) initialWorld
      = (Normal tt, w')
    /\ textInputValue (pending w') = "type:chat in:#general" +:+ nbsp
    /\ last (textInputValue (pending w')) = Some "160"%char
    /\ textInputValue (pending w') <> ""
    /\ selection (pending w') =
         {| start := length_of (textInputValue (pending w'));
            end_ := length_of (textInputValue (pending w')) |}
    /\ (forall id,
          autocompleteID this_chat = Some id ->
          id <> "" ->
          (roomType this_chat = Some "invoice" ->
             autocompleteSubstitutions (pending w')
               = <["to" +:+ ":" +:+ "#general" := id]>
                   (autocompleteSubstitutions (pending initialWorld))
             /\ dom (autocompleteSubstitutions (pending w'))
                = {["to" +:+ ":" +:+ "#general"]}
                  ∪ dom (autocompleteSubstitutions (pending initialWorld)))
          /\ (roomType this_chat <> Some "invoice" ->
              roomType this_chat = Some "chat" ->
              autocompleteSubstitutions (pending w')
                = <["in" +:+ ":" +:+ "#general" := id]>
                    (autocompleteSubstitutions (pending initialWorld))
              /\ dom (autocompleteSubstitutions (pending w'))
                 = {["in" +:+ ":" +:+ "#general"]}
                   ∪ dom (autocompleteSubstitutions (pending initialWorld))))
    /\ ((roomType this_chat <> Some "invoice" /\ roomType this_chat <> Some "chat")
        \/ truthy (autocompleteID this_chat) = false ->
        autocompleteSubstitutions (pending w') = ∅).
Proof.
  apply (accept_contextual_suggestion (env None None) initialWorld this_chat
           "#general" "type:chat in:#general" ∅);
    first [vm_compute; reflexivity | discriminate].
Defined.

(** Scenario A: the suggestion [#general] accepted on [type:chat in:]. *)
Lemma accept_autocomplete_scenario_A :
  exists w',
    dispatch (fun r => onListItemPress (env None None) r (QueryItem general_room)) (world_of typing_in)
      = (Normal tt, w')
    /\ textInputValue (pending w') = "type:chat in:" +:+ "#general" +:+ nbsp
    /\ last (textInputValue (pending w')) = Some "160"%char
    /\ selection (pending w') =
         {| start := length_of (textInputValue (pending w'));
            end_ := length_of (textInputValue (pending w')) |}
    /\ (forall key id,
          mapKey general_room = Some key -> key <> "" ->
          autocompleteID general_room = Some id -> id <> "" ->
          autocompleteSubstitutions (pending w')
            = <[key := id]> (autocompleteSubstitutions (pending (world_of typing_in))))
    /\ (truthy (mapKey general_room) = false \/ truthy (autocompleteID general_room) = false ->
        autocompleteSubstitutions (pending w') = ∅).
Proof.
  apply (accept_autocomplete_suggestion (env None None) (world_of typing_in) general_room
           "#general" "type:chat in:" "#general" ∅);
    first [vm_compute; reflexivity | discriminate].
Defined.

(** Scenario A, computed: the buffer becomes [type:chat in:#general] with
    U+00A0 at its end, and the map gains [in:#general], bound to
    [room_42]. *)
Example scenario_A_state :
  pending (snd (dispatch (fun r => onListItemPress (env None None) r (QueryItem general_room))
                  (world_of typing_in)))
  = accepted_general.
Proof. vm_compute. reflexivity. Qed.

(** C6, counterexample: the text is replaced by [abc], which puts the
    caret at 3, and a keystroke then leaves [a] in the input: the selection
    is still at 3, beyond the end of the text. And [setSelection] keeps a
    range that lies outside the text. *)
Lemma selection_out_of_bounds_after_keystroke :
  selection_in_bounds (pending (snd (setTextAndUpdateSelection "abc" initialWorld)))
  /\ textInputValue
       (pending (snd (dispatch (fun r => onSearchQueryChange (env None None) r "a" false)
                        (snd (setTextAndUpdateSelection "abc" initialWorld))))) = "a"
  /\ selection
       (pending (snd (dispatch (fun r => onSearchQueryChange (env None None) r "a" false)
                        (snd (setTextAndUpdateSelection "abc" initialWorld)))))
     = {| start := 3; end_ := 3 |}
  /\ ~ selection_in_bounds
         (pending (snd (dispatch (fun r => onSearchQueryChange (env None None) r "a" false)
                          (snd (setTextAndUpdateSelection "abc" initialWorld)))))
  /\ selection (pending (snd (setSelection {| start := 7; end_ := 2 |} initialWorld)))
     = {| start := 7; end_ := 2 |}.
Proof.
  split; [repeat split; vm_compute; congruence |].
  split; [vm_compute; reflexivity |]. split; [vm_compute; reflexivity |].
  split; [| vm_compute; reflexivity].
  intros (_ & _ & H). vm_compute in H. apply H. reflexivity.
Qed.

(** C7, counterexample: [in:#general] is already bound to [room_42], the
    same pair is merged again, and the state setter is called with a map
    equal to the one the state holds. *)
Lemma merge_of_known_pair_calls_setter :
  spread_with (autocompleteSubstitutions accepted_general) "in:#general" "room_42"
    = autocompleteSubstitutions accepted_general
  /\ updateAutocompleteSubstitutions accepted_general general_room (world_of accepted_general)
     = (Normal tt,
        {| pending := accepted_general; shouldScrollRef := false;
           listRef := true; textInputRef := true;
           out := [SetAutocompleteSubstitutions (autocompleteSubstitutions accepted_general)];
           clock := 0%nat; draws := 0%nat |}).
Proof. split; vm_compute; reflexivity. Qed.

(** C8, counterexample: scheduling the deferred focus throws while the
    suggestion of scenario A is accepted. The exception is logged, without
    elapsed time or input length, and [onListItemPress] returns normally:
    it does not reach the caller. *)
Lemma focus_exception_not_rethrown :
  raises (env (Some (Error "focus failed")) None)
    (RunAfterInteractions (focusAndScrollToRight "list_item_press_1700000000000_k3x9q2a"))
    = Some (Error "focus failed")
  /\ fst (dispatch (fun r => onListItemPress (env (Some (Error "focus failed")) None) r
                              (QueryItem general_room)) (world_of typing_in))
     = Normal tt
  /\ In (LogAlert "[CMD_K_FREEZE] Focus and scroll failed"
           [("actionId", Str "list_item_press_1700000000000_k3x9q2a");
            ("error", Str "Error: focus failed");
            ("timestamp", Number 1700000000005)])
        (out (snd (dispatch (fun r => onListItemPress (env (Some (Error "focus failed")) None) r
                                        (QueryItem general_room)) (world_of typing_in)))).
Proof.
  split; [reflexivity |]. split; [vm_compute; reflexivity |].
  vm_compute. repeat first [left; reflexivity | right].
Qed.

(** C3, counterexample: the query of scenario A submitted twice by the
    handler of one render, and the same query text handed to
    [submitSearch] twice, the second time by the handler of the render
    that follows the first: the first call clears the buffer, and yet two
    navigations are made each time, because the handler reads the text of
    its render, or its argument, and not the buffer. *)
Lemma onSubmit_same_render_navigates_twice :
  textInputValue
    (pending (snd (onSubmit (env None None) accepted_general None (world_of accepted_general))))
    = ""
  /\ navigations
       (out (snd (onSubmit (env None None) accepted_general None
                    (snd (onSubmit (env None None) accepted_general None
                            (world_of accepted_general))))))
     = 2%nat
  /\ navigations
       (out (snd (dispatch (fun r => submitSearch (env None None) r "type:chat")
                    (snd (dispatch (fun r => submitSearch (env None None) r "type:chat")
                            initialWorld)))))
     = 2%nat.
Proof.
  split; [vm_compute; reflexivity |]. split; vm_compute; reflexivity.
Qed.

(** C5, counterexample: the buffer holds [type:chat in:] and a suggestion
    over two lines is accepted, with a line-break pass that makes one
    space of CR LF: the text set has 19 code units and the caret is at 20,
    counted on the text before the pass, beyond the end. And a suggestion
    with an empty search query, an identifier and a map key is not
    accepted at all: the state stays as it was. *)
Lemma accept_autocomplete_caret_beyond_end :
  fst (dispatch (fun r => onListItemPress SampleMore.single_line r
                            (QueryItem SampleMore.two_lines)) (world_of typing_in))
    = Normal tt
  /\ textInputValue
       (pending (snd (dispatch (fun r => onListItemPress SampleMore.single_line r
                                           (QueryItem SampleMore.two_lines))
                        (world_of typing_in))))
     = "type:chat in:Ada" +:+ nbsp +:+ "B" +:+ nbsp
  /\ length_of
       (textInputValue
          (pending (snd (dispatch (fun r => onListItemPress SampleMore.single_line r
                                              (QueryItem SampleMore.two_lines))
                           (world_of typing_in)))))
     = 19
  /\ selection
       (pending (snd (dispatch (fun r => onListItemPress SampleMore.single_line r
                                           (QueryItem SampleMore.two_lines))
                        (world_of typing_in))))
     = {| start := 20; end_ := 20 |}
  /\ ~ selection_in_bounds
         (pending (snd (dispatch (fun r => onListItemPress SampleMore.single_line r
                                             (QueryItem SampleMore.two_lines))
                          (world_of typing_in))))
  /\ truthy (autocompleteID SampleMore.blank_suggestion) = true
  /\ truthy (mapKey SampleMore.blank_suggestion) = true
  /\ pending (snd (dispatch (fun r => onListItemPress (env None None) r
                                        (QueryItem SampleMore.blank_suggestion))
                     (world_of typing_in)))
     = typing_in.
Proof.
  split; [vm_compute; reflexivity |]. split; [vm_compute; reflexivity |].
  split; [vm_compute; reflexivity |]. split; [vm_compute; reflexivity |].
  split; [intros (_ & _ & H); vm_compute in H; apply H; reflexivity |].
  split; [vm_compute; reflexivity |]. split; vm_compute; reflexivity.
Qed.

End SearchRouterSpec.

(* ===================================================================== *)
(** ** Properties of the web attributes *)
(* ===================================================================== *)

Module PressableAttributesSpec.
Import JS Pressable PressableAttributes.

(** X1: the [dataSet] handed down holds every entry of the caller's
    [dataSet] as it is; [tag] is ['pressable'] unless the caller's [dataSet]
    has a [tag] of its own; [dragArea] is [false] when [noDragArea] is set
    and the caller's [dataSet] has no [dragArea]; and no other name
    appears. *)
Theorem dataSet_caller_wins (p : AttributeProps) :
  (forall k v, default ∅ (dataSet p) !! k = Some v -> dataSet_of p !! k = Some v)
  /\ (default ∅ (dataSet p) !! "tag" = None -> dataSet_of p !! "tag" = Some (Str "pressable"))
  /\ (default ∅ (dataSet p) !! "dragArea" = None ->
      dataSet_of p !! "dragArea"
        = if default false (noDragArea p) then Some (Bool false) else None)
  /\ (forall k, k <> "tag" -> k <> "dragArea" ->
        dataSet_of p !! k = default ∅ (dataSet p) !! k).
Proof.
  unfold dataSet_of, dragArea_part.
  split; [| split; [| split]].
  - intros k v H. apply lookup_union_Some_l. exact H.
  - intros H. rewrite lookup_union_r by exact H.
    destruct (default false (noDragArea p)).
    + rewrite lookup_union_r by (apply lookup_singleton_ne; discriminate).
      apply lookup_singleton_eq.
    + rewrite (left_id_L ∅ (∪)). apply lookup_singleton_eq.
  - intros H. rewrite lookup_union_r by exact H.
    destruct (default false (noDragArea p)).
    + apply lookup_union_Some_l, lookup_singleton_eq.
    + rewrite (left_id_L ∅ (∪)). apply lookup_singleton_ne. discriminate.
  - intros k Ht Hd.
    destruct (default ∅ (dataSet p) !! k) as [v |] eqn:Hk.
    + apply lookup_union_Some_l. exact Hk.
    + rewrite lookup_union_r by exact Hk.
      destruct (default false (noDragArea p)).
      * rewrite lookup_union_r by (apply lookup_singleton_ne; congruence).
        apply lookup_singleton_ne. congruence.
      * rewrite (left_id_L ∅ (∪)). apply lookup_singleton_ne. congruence.
Qed.

(** X2: without a [tabIndex] prop, the pressable is in the tab order
    ([tabIndex] 0) exactly when neither [accessible] nor [focusable] is
    [false]; both count as [true] when they are not given. *)
Theorem tabIndex_default_order (p : PressableProps) :
  tabIndex p = None ->
  (WebGenericPressable_tabIndex p = 0
     <-> accessible p <> Some false /\ focusable p <> Some false)
  /\ (WebGenericPressable_tabIndex p = -1
        <-> accessible p = Some false \/ focusable p = Some false).
Proof.
  intros H. rewrite (PressableSpec.tabIndex_absent p H).
  destruct (accessible p) as [[|] |], (focusable p) as [[|] |]; cbn;
    repeat split; intros; try discriminate; try congruence; try tauto;
    try (destruct H0; congruence); try (left; reflexivity); try (right; reflexivity).
Qed.

Lemma tabIndex_default_order_plain :
  (WebGenericPressable_tabIndex
     {| focusable := None; accessible := None; tabIndex := None |} = 0
     <-> None <> Some false /\ None <> Some false)
  /\ (WebGenericPressable_tabIndex
        {| focusable := None; accessible := None; tabIndex := None |} = -1
        <-> None = Some false \/ None = Some false).
Proof.
  apply (tabIndex_default_order {| focusable := None; accessible := None; tabIndex := None |}).
  reflexivity.
Defined.

End PressableAttributesSpec.

(* ===================================================================== *)
(** ** More on ReportFieldsEditValuePage *)
(* ===================================================================== *)

Module ReportFieldsEditValueMore.
Import JS Text ReportFieldsEditValue ReportFieldsEditValueSpec.

(** X3: the name handed to [renameReportFieldsListValue] never begins or
    ends with white space, and trimming it again changes nothing. *)
Theorem rename_receives_trimmed_name (p : Page) (newValueName : option string)
    (i : Z) (n : string) :
  In (renameReportFieldsListValue i (Some n)) (editValue p newValueName) ->
  trim n = n
  /\ starts_clean n
  /\ (forall c, last n = Some c -> is_white_space c = false).
Proof.
  unfold editValue. intros H. apply in_app_or in H.
  destruct H as [H | [H | [H | []]]]; try discriminate.
  destruct (negb _); [| contradiction].
  destruct H as [H | []]. injection H as _ Hn.
  destruct newValueName as [v |]; [| discriminate]. cbn in Hn. injection Hn as <-.
  split; [apply trim_idempotent |]. split.
  - apply trimEnd_clean, trimStart_clean.
  - intros c. apply trimEnd_last.
Qed.

Lemma rename_receives_trimmed_name_sample :
  trim "Travel" = "Travel"
  /\ starts_clean "Travel"
  /\ (forall c, last "Travel" = Some c -> is_white_space c = false).
Proof.
  apply (rename_receives_trimmed_name
           {| formDraft := Some {| listValues := Some ["Meals"] |}; valueIndex := 0 |}
           (Some "  Travel ") 0 "Travel").
  vm_compute. left. reflexivity.
Defined.

(** X4: when there is no current value at the edited index (no draft, no
    list, or an index outside the list), the current value counts as the
    empty string: a submission renames exactly when the field has a value
    whose trimmed text is not empty, or has no value at all. *)
Theorem editValue_without_current_value (p : Page) (newValueName : option string) :
  (formDraft p = None
   \/ (exists d, formDraft p = Some d /\ listValues d = None)
   \/ (exists d l, formDraft p = Some d /\ listValues d = Some l
                   /\ (valueIndex p < 0 \/ Z.of_nat (length l) <= valueIndex p))) ->
  currentValueName p = ""
  /\ ((exists i n, In (renameReportFieldsListValue i n) (editValue p newValueName))
        <-> trim <$> newValueName <> Some "").
Proof.
  intros H.
  assert (Hc : currentValueName p = "").
  { unfold currentValueName.
    destruct H as [-> | [(d & -> & Hl) | (d & l & -> & Hl & Hi)]]; cbn.
    - reflexivity.
    - rewrite Hl. reflexivity.
    - rewrite Hl. cbn. rewrite (index_outside l _ Hi). reflexivity. }
  split; [exact Hc |].
  unfold editValue. rewrite Hc.
  destruct (bool_decide_reflect (Some "" = trim <$> newValueName)) as [Heq | Hne]; cbn.
  - split.
    + intros (i & n & [Hin | [Hin | []]]); discriminate.
    + congruence.
  - split.
    + intros _. congruence.
    + intros _. eexists _, _. left. reflexivity.
Qed.

Lemma editValue_without_current_value_sample :
  currentValueName
    {| formDraft := Some {| listValues := Some ["Meals"] |}; valueIndex := 3 |} = ""
  /\ ((exists i n, In (renameReportFieldsListValue i n)
                     (editValue {| formDraft := Some {| listValues := Some ["Meals"] |};
                                   valueIndex := 3 |} (Some "  ")))
        <-> trim <$> Some "  " <> Some "").
Proof.
  apply (editValue_without_current_value
           {| formDraft := Some {| listValues := Some ["Meals"] |}; valueIndex := 3 |}
           (Some "  ")).
  right. right. exists {| listValues := Some ["Meals"] |}, ["Meals"].
  split; [reflexivity |]. split; [reflexivity |]. right. cbn. lia.
Defined.


End ReportFieldsEditValueMore.

(* ===================================================================== *)
(** ** Properties of SearchFiltersCategoryPage *)
(* ===================================================================== *)

Module SearchFiltersCategorySpec.
Import SearchFiltersCategory.

Lemma Set_add_elem (s : list string) (x y : string) :
  y ∈ Set_add s x <-> y ∈ s \/ y = x.
Proof.
  unfold Set_add. case_bool_decide as Hx.
  - split; [tauto |]. intros [Hy | ->]; assumption.
  - rewrite elem_of_app, list_elem_of_singleton. reflexivity.
Qed.

Lemma Set_add_NoDup (s : list string) (x : string) : NoDup s -> NoDup (Set_add s x).
Proof.
  intros Hs. unfold Set_add. case_bool_decide as Hx; [exact Hs |].
  apply NoDup_app. split; [exact Hs |]. split.
  - intros y Hy Hin. apply list_elem_of_singleton in Hin. congruence.
  - apply NoDup_singleton.
Qed.

Lemma add_all_elem (cs : list Category.t) (s : list string) (y : string) :
  y ∈ fold_left (fun names c => Set_add names (Category.name c)) cs s
  <-> y ∈ s \/ exists c, c ∈ cs /\ Category.name c = y.
Proof.
  revert s. induction cs as [| c cs IH]; intros s; cbn [fold_left].
  - split; [tauto |]. intros [H | (c & Hc & _)]; [exact H |]. inversion Hc.
  - rewrite IH, Set_add_elem. split.
    + intros [[H | ->] | (c' & Hc' & Hn)].
      * left. exact H.
      * right. exists c. split; [left | reflexivity].
      * right. exists c'. split; [right; exact Hc' | exact Hn].
    + intros [H | (c' & Hc' & Hn)].
      * left. left. exact H.
      * apply elem_of_cons in Hc'. destruct Hc' as [-> | Hc'].
        -- left. right. symmetry. exact Hn.
        -- right. exists c'. split; assumption.
Qed.

Lemma add_all_NoDup (cs : list Category.t) (s : list string) :
  NoDup s -> NoDup (fold_left (fun names c => Set_add names (Category.name c)) cs s).
Proof.
  revert s. induction cs as [| c cs IH]; intros s Hs; cbn [fold_left]; [exact Hs |].
  apply IH, Set_add_NoDup, Hs.
Qed.

Lemma add_policies_elem (ps : list (option (list (string * Category.t))))
    (s : list string) (y : string) :
  y ∈ fold_left
        (fun names policyCategories =>
           fold_left (fun names c => Set_add names (Category.name c))
             (values (default [] policyCategories)) names) ps s
  <-> y ∈ s \/ exists cats c, Some cats ∈ ps /\ c ∈ values cats /\ Category.name c = y.
Proof.
  revert s. induction ps as [| p ps IH]; intros s; cbn [fold_left].
  - split; [tauto |]. intros [H | (cats & c & Hp & _)]; [exact H |]. inversion Hp.
  - rewrite IH, add_all_elem. split.
    + intros [[H | (c & Hc & Hn)] | (cats & c & Hp & Hc & Hn)].
      * left. exact H.
      * destruct p as [cats |]; [| inversion Hc].
        right. exists cats, c. split; [left | split; assumption].
      * right. exists cats, c. split; [right; exact Hp | split; assumption].
    + intros [H | (cats & c & Hp & Hc & Hn)].
      * left. left. exact H.
      * apply elem_of_cons in Hp. destruct Hp as [<- | Hp].
        -- left. right. exists c. split; assumption.
        -- right. exists cats, c. split; [exact Hp | split; assumption].
Qed.

Lemma add_policies_NoDup (ps : list (option (list (string * Category.t)))) (s : list string) :
  NoDup s ->
  NoDup (fold_left
           (fun names policyCategories =>
              fold_left (fun names c => Set_add names (Category.name c))
                (values (default [] policyCategories)) names) ps s).
Proof.
  revert s. induction ps as [| p ps IH]; intros s Hs; cbn [fold_left]; [exact Hs |].
  apply IH, add_all_NoDup, Hs.
Qed.

Lemma uniqueCategoryNames_NoDup all : NoDup (uniqueCategoryNames all).
Proof. apply add_policies_NoDup, NoDup_nil_2. Qed.

Lemma uniqueCategoryNames_elem all (y : string) :
  y ∈ uniqueCategoryNames all
  <-> exists cats c, Some cats ∈ values (default [] all) /\ c ∈ values cats
                     /\ Category.name c = y.
Proof.
  unfold uniqueCategoryNames. rewrite add_policies_elem.
  split; [| intros H; right; exact H].
  intros [H | H]; [inversion H | exact H].
Qed.

Section Page.

Variable translate : string -> string.
Variable CATEGORY_EMPTY_VALUE : string.
Variable POLICY_CATEGORIES : string.

(** X6: when the collection has no entry for the policy of the form, the
    picker lists the no-category item and then one item per category name
    found in any policy: each name once, however many policies share it,
    with the name as its value. *)
Theorem categoryItems_of_all_policies all (form : option Form) :
  singlePolicyCategories POLICY_CATEGORIES all form = None ->
  exists names,
    categoryItems translate CATEGORY_EMPTY_VALUE POLICY_CATEGORIES all form
      = {| name := translate "search.noCategory"; value := CATEGORY_EMPTY_VALUE |}
        :: map (fun n => {| name := n; value := n |}) names
    /\ NoDup names
    /\ (forall y, y ∈ names
          <-> exists cats c, Some cats ∈ values (default [] all) /\ c ∈ values cats
                             /\ Category.name c = y).
Proof.
  intros H. exists (uniqueCategoryNames all). unfold categoryItems. rewrite H.
  split; [reflexivity |]. split.
  - apply uniqueCategoryNames_NoDup.
  - apply uniqueCategoryNames_elem.
Qed.

(** X7: when the collection has an entry for the policy of the form, the
    picker lists the no-category item, named by the translation of
    [search.noCategory], and then one item per category of that entry
    alone, with the name of the category as its name and as its value, in
    the order of the entry and without merging equal names; a category
    that only another policy has is not listed. *)
Theorem categoryItems_of_one_policy all (form : option Form)
    (categories : list (string * Category.t)) :
  singlePolicyCategories POLICY_CATEGORIES all form = Some categories ->
  categoryItems translate CATEGORY_EMPTY_VALUE POLICY_CATEGORIES all form
    = {| name := translate "search.noCategory"; value := CATEGORY_EMPTY_VALUE |}
      :: map (fun e => {| name := Category.name (snd e); value := Category.name (snd e) |})
           categories
  /\ List.length (categoryItems translate CATEGORY_EMPTY_VALUE POLICY_CATEGORIES all form)
     = S (List.length categories)
  /\ map value (categoryItems translate CATEGORY_EMPTY_VALUE POLICY_CATEGORIES all form)
     = CATEGORY_EMPTY_VALUE :: map (fun e => Category.name (snd e)) categories
  /\ (forall y, y <> CATEGORY_EMPTY_VALUE ->
        (forall e, e ∈ categories -> Category.name (snd e) <> y) ->
        y ∉ map value (categoryItems translate CATEGORY_EMPTY_VALUE POLICY_CATEGORIES all form)).
Proof.
  intros H. unfold categoryItems. rewrite H. cbn [app]. unfold values.
  split; [| split; [| split]].
  - cbn. rewrite map_map. reflexivity.
  - cbn. rewrite !length_map. reflexivity.
  - cbn. rewrite !map_map. reflexivity.
  - intros y Hy Hnone Hin. cbn in Hin. rewrite !map_map in Hin.
    apply elem_of_cons in Hin. destruct Hin as [-> | Hin]; [congruence |].
    apply list_elem_of_In, in_map_iff in Hin. destruct Hin as (e & He & Hin).
    apply (Hnone e); [apply list_elem_of_In; exact Hin | exact He].
Qed.

(** X8: the selected items carry the categories of the form as their
    values, in the same order; an item shows its value as its name, except
    the empty-category value, which shows the translated "no category"
    and is then the first item of the picker. *)
Theorem selectedCategoriesItems_values (form : option Form) :
  (map value <$> selectedCategoriesItems translate CATEGORY_EMPTY_VALUE form
     = form ≫= category)
  /\ (forall items it,
        selectedCategoriesItems translate CATEGORY_EMPTY_VALUE form = Some items ->
        it ∈ items ->
        (value it <> CATEGORY_EMPTY_VALUE -> name it = value it)
        /\ (value it = CATEGORY_EMPTY_VALUE ->
            forall all form',
              head (categoryItems translate CATEGORY_EMPTY_VALUE POLICY_CATEGORIES all form')
                = Some it)).
Proof.
  unfold selectedCategoriesItems. destruct form as [f |]; cbn; [| split; [reflexivity | discriminate]].
  destruct (category f) as [cs |]; cbn; [| split; [reflexivity | discriminate]].
  split.
  - f_equal. rewrite map_map. rewrite <- (map_id cs) at 2. apply map_ext.
    intros c. case_bool_decide; reflexivity.
  - intros items it [= <-] Hin.
    apply list_elem_of_In, in_map_iff in Hin. destruct Hin as (c & <- & _).
    case_bool_decide as Hc; cbn; split; try congruence.
    intros _ all form'. unfold categoryItems.
    destruct (singlePolicyCategories _ _ _); subst c; reflexivity.
Qed.

(** X9: with no entry for the policy of the form, the values of the
    picker's items are pairwise distinct exactly when no policy has a
    category named like the empty-category value. *)
Theorem categoryItems_values_distinct all (form : option Form) :
  singlePolicyCategories POLICY_CATEGORIES all form = None ->
  NoDup (map value (categoryItems translate CATEGORY_EMPTY_VALUE POLICY_CATEGORIES all form))
  <-> ~ exists cats c, Some cats ∈ values (default [] all) /\ c ∈ values cats
                       /\ Category.name c = CATEGORY_EMPTY_VALUE.
Proof.
  intros H. unfold categoryItems. rewrite H. cbn [app map value].
  rewrite map_map. cbn [value]. rewrite map_id.
  rewrite NoDup_cons, uniqueCategoryNames_elem.
  pose proof (uniqueCategoryNames_NoDup all). tauto.
Qed.

End Page.

Import SampleMore.

Example categoryItems_without_policy :
  categoryItems translate "none" "policyCategories_" allPolicyCategories (form_of None None)
  = [{| name := "No category"; value := "none" |};
     {| name := "Travel"; value := "Travel" |};
     {| name := "Meals"; value := "Meals" |};
     {| name := "Fuel"; value := "Fuel" |}].
Proof. vm_compute. reflexivity. Qed.

Example categoryItems_with_policy :
  categoryItems translate "none" "policyCategories_" allPolicyCategories (form_of (Some "B") None)
  = [{| name := "No category"; value := "none" |};
     {| name := "Travel"; value := "Travel" |};
     {| name := "Fuel"; value := "Fuel" |}]
  /\ categoryItems translate "none" "policyCategories_" allPolicyCategories
       (form_of (Some "C") None)
     = categoryItems translate "none" "policyCategories_" allPolicyCategories (form_of None None).
Proof. split; vm_compute; reflexivity. Qed.

Lemma categoryItems_of_all_policies_sample :
  exists names,
    categoryItems translate "none" "policyCategories_" allPolicyCategories (form_of None None)
      = {| name := translate "search.noCategory"; value := "none" |}
        :: map (fun n => {| name := n; value := n |}) names
    /\ NoDup names
    /\ (forall y, y ∈ names
          <-> exists cats c, Some cats ∈ values (default [] allPolicyCategories)
                             /\ c ∈ values cats /\ Category.name c = y).
Proof.
  apply (categoryItems_of_all_policies translate "none" "policyCategories_"
           allPolicyCategories (form_of None None)).
  vm_compute. reflexivity.
Defined.

Lemma categoryItems_of_one_policy_sample :
  categoryItems translate "none" "policyCategories_" allPolicyCategories
    (form_of (Some "A") None)
    = {| name := translate "search.noCategory"; value := "none" |}
      :: map (fun e => {| name := Category.name (snd e); value := Category.name (snd e) |})
           [("Travel", {| Category.name := "Travel" |});
            ("Meals", {| Category.name := "Meals" |})]
  /\ List.length (categoryItems translate "none" "policyCategories_" allPolicyCategories
                    (form_of (Some "A") None)) = 3%nat
  /\ map value (categoryItems translate "none" "policyCategories_" allPolicyCategories
                  (form_of (Some "A") None))
     = "none" :: map (fun e => Category.name (snd e))
                   [("Travel", {| Category.name := "Travel" |});
                    ("Meals", {| Category.name := "Meals" |})]
  /\ (forall y, y <> "none" ->
        (forall e, e ∈ [("Travel", {| Category.name := "Travel" |});
                        ("Meals", {| Category.name := "Meals" |})] ->
                   Category.name (snd e) <> y) ->
        y ∉ map value (categoryItems translate "none" "policyCategories_" allPolicyCategories
                         (form_of (Some "A") None))).
Proof.
  apply (categoryItems_of_one_policy translate "none" "policyCategories_"
           allPolicyCategories (form_of (Some "A") None)
           [("Travel", {| Category.name := "Travel" |});
            ("Meals", {| Category.name := "Meals" |})]).
  vm_compute. reflexivity.
Defined.

Lemma categoryItems_values_distinct_sample :
  NoDup (map value (categoryItems translate "none" "policyCategories_" allPolicyCategories
                      (form_of None None)))
  <-> ~ exists cats c, Some cats ∈ values (default [] allPolicyCategories)
                       /\ c ∈ values cats /\ Category.name c = "none".
Proof.
  apply (categoryItems_values_distinct translate "none" "policyCategories_"
           allPolicyCategories (form_of None None)).
  vm_compute. reflexivity.
Defined.

End SearchFiltersCategorySpec.

(* ===================================================================== *)
(** ** More on SearchRouter *)
(* ===================================================================== *)

Module SearchRouterMoreSpec.
Import JS SearchRouter SearchRouterList Trace SearchRouterSpec.
Local Open Scope router_scope.

#[local] Arguments spread_with : simpl never.
#[local] Arguments length_of : simpl never.
#[local] Arguments template_number : simpl never.
#[local] Arguments deepEqual : simpl never.
#[local] Arguments String.append : simpl never.
#[local] Arguments truthy : simpl never.
#[local] Arguments ToBoolean : simpl never.
#[local] Arguments onSearchQueryChange : simpl never.
#[local] Arguments submitSearch : simpl never.
#[local] Arguments getContextualSearchQuery : simpl never.
#[local] Arguments getContextualSearchAutocompleteKey : simpl never.

Lemma effects_app (l1 l2 : list event) : effects (l1 ++ l2) = (effects l1 ++ effects l2)%list.
Proof. apply List.filter_app. Qed.

Lemma find_some_first {A} (f : A -> bool) (l : list A) (x : A) :
  List.find f l = Some x ->
  exists before after,
    l = (before ++ x :: after)%list /\ f x = true /\ Forall (fun y => f y = false) before.
Proof.
  induction l as [| a l IH]; [discriminate |].
  cbn [List.find]. destruct (f a) eqn:Ha.
  - intros [= <-]. exists [], l. repeat split; [exact Ha | constructor].
  - intros H. destruct (IH H) as (before & after & -> & Hx & Hb).
    exists (a :: before), after. repeat split; [exact Hx | constructor; assumption].
Qed.

Section Offers.

Variable E : Env.
Variable translate : string -> string.

(** X10: a contextual suggestion is offered only when there is a report in
    context, the buffer is empty, the router is displayed and a recent
    report has the identifier of the context; it is then built from the
    first such report, as a contextual suggestion whose search query is
    the report's text, else its alternate text, else its identifier. *)
Theorem getAdditionalSections_offered (contextualReportID : option string)
    (textInputValue : string) (isSearchRouterDisplayed : option bool)
    (recentReports : list Report.t) (section : ContextualSection) :
  getAdditionalSections E translate contextualReportID textInputValue
    isSearchRouterDisplayed recentReports = Normal (Some section) ->
  truthy contextualReportID = true
  /\ textInputValue = ""
  /\ isSearchRouterDisplayed = Some true
  /\ exists before report after,
       recentReports = (before ++ report :: after)%list
       /\ Report.reportID report = contextualReportID
       /\ Forall (fun o => Report.reportID o <> contextualReportID) before
       /\ keyForList section = "contextualSearch"
       /\ searchItemType (data section) = Some CONTEXTUAL_SUGGESTION
       /\ mapKey (data section) = None
       /\ policyID (data section) = Report.policyID report
       /\ searchQuery (data section)
          = first_defined (Report.text report)
              (first_defined (Report.alternateText report) (Report.reportID report)).
Proof.
  unfold getAdditionalSections.
  destruct (truthy contextualReportID) eqn:Hc; cbn [negb]; [| discriminate].
  destruct (ToBoolean (Str textInputValue)) eqn:Ht; [discriminate |].
  destruct isSearchRouterDisplayed as [[|] |]; cbn [default negb]; try discriminate.
  destruct (List.find _ recentReports) as [report |] eqn:Hf; [| discriminate].
  destruct (find_some_first _ _ _ Hf) as (before & after & Hl & Hx & Hb).
  intros Hrun.
  split; [reflexivity |]. split.
  { unfold ToBoolean in Ht. apply negb_false_iff, bool_decide_eq_true in Ht. exact Ht. }
  split; [reflexivity |].
  exists before, report, after. split; [exact Hl |]. split.
  { apply bool_decide_eq_true in Hx. exact Hx. }
  split.
  { eapply Forall_impl; [exact Hb |]. intros o Ho. cbn in Ho.
    apply bool_decide_eq_false in Ho. exact Ho. }
  destruct (default false (Report.isInvoiceRoom report)),
           (default false (Report.isPolicyExpenseChat report)); cbn in Hrun;
    (destruct (lineBreaksToSpaces E _ false) as [text' | e]; [| discriminate Hrun]);
    injection Hrun as <-; cbn; repeat split.
Qed.

(** X11: nothing is offered while the buffer holds text, while the router
    is not displayed, or without a report in context, whatever the library
    functions and the recent reports are. *)
Theorem getAdditionalSections_withheld (contextualReportID : option string)
    (textInputValue : string) (isSearchRouterDisplayed : option bool)
    (recentReports : list Report.t) :
  textInputValue <> "" \/ isSearchRouterDisplayed <> Some true
  \/ contextualReportID = None \/ contextualReportID = Some "" ->
  getAdditionalSections E translate contextualReportID textInputValue
    isSearchRouterDisplayed recentReports = Normal None.
Proof.
  intros H. unfold getAdditionalSections.
  destruct (truthy contextualReportID) eqn:Hc; cbn [negb]; [| reflexivity].
  destruct (ToBoolean (Str textInputValue)) eqn:Ht; [reflexivity |].
  destruct isSearchRouterDisplayed as [[|] |]; cbn [default negb]; try reflexivity.
  exfalso. destruct H as [H | [H | H]].
  - apply H. unfold ToBoolean in Ht. apply negb_false_iff, bool_decide_eq_true in Ht. exact Ht.
  - apply H. reflexivity.
  - apply truthy_false in H. congruence.
Qed.

(** X12: the room type and the identifier of the offered suggestion. An
    expense chat gives the expense type and the policy identifier, or the
    empty string without one, whether or not it is also an invoice room;
    an invoice room gives the invoice type and, for an individual
    receiver whose account is a safe integer, the decimal digits of that
    account, or the empty string for any other receiver or none; every
    other report gives the chat type and the identifier of the report. *)
Theorem getAdditionalSections_room (contextualReportID : option string)
    (isSearchRouterDisplayed : option bool) (recentReports : list Report.t)
    (report : Report.t) (section : ContextualSection) :
  List.find (fun o => bool_decide (Report.reportID o = contextualReportID)) recentReports
    = Some report ->
  getAdditionalSections E translate contextualReportID ""
    isSearchRouterDisplayed recentReports = Normal (Some section) ->
  (Report.isPolicyExpenseChat report = Some true ->
     roomType (data section) = Some (DATA_TYPES_EXPENSE (CONST E))
     /\ autocompleteID (data section)
        = if truthy (Report.policyID report) then Report.policyID report else Some "")
  /\ (Report.isPolicyExpenseChat report <> Some true ->
      Report.isInvoiceRoom report = Some true ->
      roomType (data section) = Some (DATA_TYPES_INVOICE (CONST E))
      /\ (forall accountID,
            Report.invoiceReceiver report = Some (Individual accountID) ->
            isSafeInteger accountID = true ->
            autocompleteID (data section) = Some (template_number accountID))
      /\ (Report.invoiceReceiver report = None
          \/ Report.invoiceReceiver report = Some NotIndividual ->
          autocompleteID (data section) = Some ""))
  /\ (Report.isPolicyExpenseChat report <> Some true ->
      Report.isInvoiceRoom report <> Some true ->
      roomType (data section) = Some (DATA_TYPES_CHAT (CONST E))
      /\ autocompleteID (data section) = Report.reportID report).
Proof.
  intros Hf. unfold getAdditionalSections.
  destruct (truthy contextualReportID) eqn:Hc; cbn [negb]; [| discriminate].
  destruct (ToBoolean (Str "")) eqn:Ht; [discriminate |].
  destruct isSearchRouterDisplayed as [[|] |]; cbn [default negb]; try discriminate.
  rewrite Hf. intros Hrun.
  destruct (Report.isInvoiceRoom report) as [[|] |],
           (Report.isPolicyExpenseChat report) as [[|] |]; cbn in Hrun;
    (destruct (lineBreaksToSpaces E _ false) as [text' | e]; [| discriminate Hrun]);
    injection Hrun as <-; cbn;
    repeat split; intros; try congruence; try reflexivity;
    repeat match goal with
           | H : _ \/ _ |- _ => destruct H
           | H : Report.invoiceReceiver report = _ |- _ => rewrite H
           end; reflexivity.
Qed.

End Offers.

(** Splitting on every outcome of a press or a submission. *)
Ltac split_all :=
  repeat first
    [ progress cbn
    | match goal with H : ?l = _ |- context [?l] => rewrite H end
    | rewrite bool_decide_eq_true_2 by congruence
    | rewrite bool_decide_eq_false_2 by congruence
    | match goal with
      | |- context [match raises ?E ?e with _ => _ end] => destruct (raises E e) eqn:?
      | |- context [match getQueryWithSubstitutions ?E ?a ?b with _ => _ end] =>
          destruct (getQueryWithSubstitutions E a b) eqn:?
      | |- context [match getQueryWithUpdatedValues ?E ?a with _ => _ end] =>
          destruct (getQueryWithUpdatedValues E a) eqn:?
      | |- context [if negb (truthy ?a) then _ else _] => destruct (truthy a) eqn:?
      | |- context [if listRef ?w then _ else _] => destruct (listRef w) eqn:?
      end ].

(** Closing a goal on two logs that extend [out w]. *)
Ltac extends_out :=
  first [ rewrite <- ?app_assoc; cbn [app]; reflexivity
        | symmetry; apply app_nil_r ].

Ltac same_effects :=
  eexists; eexists;
  split; [extends_out |]; split; [extends_out |]; reflexivity.

Section Presses.

Variable E : Env.

(** A press that falls through to the submission does what the
    submission does. *)
Lemma press_as_submit (r : State) (item : SearchQueryItem) (query : string) (w : World) :
  searchQuery item = Some query ->
  query <> "" ->
  searchItemType item <> Some CONTEXTUAL_SUGGESTION ->
  searchItemType item <> Some AUTOCOMPLETE_SUGGESTION \/ textInputValue r = "" ->
  fst (onListItemPress E r (QueryItem item) w) = fst (submitSearch E r query w)
  /\ pending (snd (onListItemPress E r (QueryItem item) w))
     = pending (snd (submitSearch E r query w))
  /\ exists pressed submitted,
       out (snd (onListItemPress E r (QueryItem item) w)) = (out w ++ pressed)%list
       /\ out (snd (submitSearch E r query w)) = (out w ++ submitted)%list
       /\ effects pressed = effects submitted.
Proof.
  intros Hq Hne Hctx Hauto.
  pose proof (truthy_Some _ Hne) as Tq.
  assert (Hbranch : bool_decide (searchItemType item = Some AUTOCOMPLETE_SUGGESTION)
                    && ToBoolean (Str (textInputValue r)) = false).
  { destruct Hauto as [H | ->].
    - rewrite bool_decide_eq_false_2 by exact H. reflexivity.
    - apply andb_false_r. }
  unfold_router. unfold submitSearch. unfold_router.
  split_all; (split; [reflexivity |]; split; [reflexivity |]; same_effects).
Qed.

(** X13: pressing a suggestion that has no search query (undefined or
    empty) does nothing but log: the handler returns, the state and the
    refs are as before, no state setter and no collaborator is called. *)
Theorem onListItemPress_without_query (r : State) (item : SearchQueryItem) (w : World) :
  truthy (searchQuery item) = false ->
  exists w' logged,
    onListItemPress E r (QueryItem item) w = (Normal tt, w')
    /\ pending w' = pending w
    /\ shouldScrollRef w' = shouldScrollRef w
    /\ out w' = (out w ++ logged)%list
    /\ effects logged = [].
Proof.
  intros H. unfold_router. follow.
  eexists. eexists. split; [reflexivity |]. cbn.
  split; [reflexivity |]. split; [reflexivity |]. split; [extends_out | reflexivity].
Qed.

(** X14: a pressed suggestion that is not contextual, and is not an
    autocomplete suggestion unless the buffer is empty, is submitted: the
    press ends as [submitSearch] on its search query ends, leaves the same
    state, and makes the same calls in the same order. So an autocomplete
    suggestion pressed on an empty buffer is searched for, not completed. *)
Theorem onListItemPress_submits (r : State) (item : SearchQueryItem) (query : string)
    (w : World) :
  searchQuery item = Some query ->
  query <> "" ->
  searchItemType item <> Some CONTEXTUAL_SUGGESTION ->
  searchItemType item <> Some AUTOCOMPLETE_SUGGESTION \/ textInputValue r = "" ->
  fst (onListItemPress E r (QueryItem item) w) = fst (submitSearch E r query w)
  /\ pending (snd (onListItemPress E r (QueryItem item) w))
     = pending (snd (submitSearch E r query w))
  /\ exists pressed submitted,
       out (snd (onListItemPress E r (QueryItem item) w)) = (out w ++ pressed)%list
       /\ out (snd (submitSearch E r query w)) = (out w ++ submitted)%list
       /\ effects pressed = effects submitted.
Proof. apply press_as_submit. Qed.

(** X15: while the buffer holds text, the list has a row that searches
    for that text; submitting the input with this row focused does what
    submitting it with nothing focused does. *)
Theorem onSubmit_with_search_row (w : World) :
  textInputValue (pending w) <> "" ->
  exists row,
    searchQueryItem (textInputValue (pending w)) = Some row
    /\ searchQuery row = Some (textInputValue (pending w))
    /\ searchItemType row = Some SEARCH
    /\ fst (dispatch (fun r => onSubmit E r (Some (QueryItem row))) w)
       = fst (dispatch (fun r => onSubmit E r None) w)
    /\ pending (snd (dispatch (fun r => onSubmit E r (Some (QueryItem row))) w))
       = pending (snd (dispatch (fun r => onSubmit E r None) w))
    /\ exists focused unfocused,
         out (snd (dispatch (fun r => onSubmit E r (Some (QueryItem row))) w))
           = (out w ++ focused)%list
         /\ out (snd (dispatch (fun r => onSubmit E r None) w)) = (out w ++ unfocused)%list
         /\ effects focused = effects unfocused.
Proof.
  intros H. unfold searchQueryItem. rewrite (ToBoolean_Str _ H).
  eexists. split; [reflexivity |]. split; [reflexivity |]. split; [reflexivity |].
  unfold dispatch, onSubmit.
  apply press_as_submit; [reflexivity | exact H | discriminate | left; discriminate].
Qed.

(** X16: pressing a row that has a report opens that report and closes
    the router: [backHistory], [Navigation.navigate] to the route of the
    report and [onRouterClose] are each called once, and nothing else is,
    log lines apart; no order among the three is stated. The buffer, the
    selection and the substitution map stay as they are. *)
Theorem onListItemPress_opens_report (r : State) (row : OptionData) (id : string)
    (w : World) :
  reportID row = Some id ->
  id <> "" ->
  raises E BackHistory = None ->
  raises E (Navigate (REPORT_WITH_ID id)) = None ->
  raises E OnRouterClose = None ->
  exists w' evs,
    onListItemPress E r (OptionItem row) w = (Normal tt, w')
    /\ pending w' = pending w
    /\ out w' = (out w ++ evs)%list
    /\ Permutation (effects evs) [BackHistory; Navigate (REPORT_WITH_ID id); OnRouterClose]
    /\ navigations evs = 1%nat.
Proof.
  intros Hid Hne H1 H2 H3. pose proof (truthy_Some _ Hne) as Tid.
  unfold_router. follow.
  eexists. eexists. split; [reflexivity |]. cbn.
  split; [reflexivity |]. split; [extends_out |]. split; reflexivity.
Qed.

(** X17: pressing a row without a report never calls
    [Navigation.navigate]. With a [login] property it opens the chat with
    that login, or with nobody when the login is empty; without one it
    opens nothing. The router is closed in every case, and the state stays
    as it is. *)
Theorem onListItemPress_opens_person (r : State) (row : OptionData) (w : World) :
  truthy (reportID row) = false ->
  raises E BackHistory = None ->
  (forall logins, raises E (NavigateToAndOpenReport logins false) = None) ->
  raises E OnRouterClose = None ->
  exists w' evs,
    onListItemPress E r (OptionItem row) w = (Normal tt, w')
    /\ pending w' = pending w
    /\ out w' = (out w ++ evs)%list
    /\ effects evs
       = (BackHistory
          :: match login row with
             | Some l => [NavigateToAndOpenReport (if bool_decide (l = "") then [] else [l]) false]
             | None => []
             end ++ [OnRouterClose])%list
    /\ navigations evs = 0%nat.
Proof.
  intros Hid H1 H2 H3.
  unfold_router. follow. destruct (login row) as [l |]; follow.
  - repeat first [rewrite H2 | progress follow].
    eexists. eexists. split; [reflexivity |]. cbn.
    split; [reflexivity |]. split; [extends_out |].
    unfold ToBoolean. destruct (bool_decide (l = "")); split; reflexivity.
  - eexists. eexists. split; [reflexivity |]. cbn.
    split; [reflexivity |]. split; [extends_out |]. split; reflexivity.
Qed.

End Presses.

Section Keystrokes.

Variable E : Env.

(** X18: whatever the library functions and the list do, a keystroke only
    logs, sets the text, the autocomplete query value and the substitution
    map, and moves the focus of the list: it never navigates, never closes
    the router, never sets the selection and never schedules a focus. *)
Theorem onSearchQueryChange_events (r : State) (userQuery : string)
    (autoScrollToRight : bool) (w : World) :
  exists evs,
    out (snd (onSearchQueryChange E r userQuery autoScrollToRight w)) = (out w ++ evs)%list
    /\ forallb keystroke_event evs = true
    /\ navigations evs = 0%nat.
Proof.
  unfold onSearchQueryChange. unfold_router.
  destruct autoScrollToRight; split_paths;
    (eexists; split; [extends_out | split; reflexivity]).
Qed.

(** X19: a keystroke whose library calls return. The text and the
    autocomplete query value both become the query the comma pass
    returns, the substitution map becomes the recomputed one, the
    selection stays, and the scroll flag is raised when asked. The calls
    are the two text setters, the map setter when the map changed, and the
    focus of the list, moved to no row exactly when the new text and the
    previous text are both empty, and to the first row otherwise. *)
Theorem onSearchQueryChange_updates (userQuery : string) (autoScrollToRight : bool)
    (w : World) (singleLine updated : string) (m' : gmap string string) :
  lineBreaksToSpaces E userQuery true = Normal singleLine ->
  getAutocompleteQueryWithComma E (textInputValue (pending w)) singleLine = Normal updated ->
  getUpdatedSubstitutionsMap E singleLine (autocompleteSubstitutions (pending w)) = Normal m' ->
  (forall i, raises E (UpdateAndScrollToFocusedIndex i) = None) ->
  exists w' evs index,
    dispatch (fun r => onSearchQueryChange E r userQuery autoScrollToRight) w = (Normal tt, w')
    /\ pending w' =
         {| textInputValue := updated; autocompleteQueryValue := updated;
            selection := selection (pending w); autocompleteSubstitutions := m' |}
    /\ shouldScrollRef w' = autoScrollToRight || shouldScrollRef w
    /\ out w' = (out w ++ evs)%list
    /\ effects evs =
         ([SetTextInputValue updated; SetAutocompleteQueryValue updated]
          ++ (if bool_decide (autocompleteSubstitutions (pending w) = m') then []
              else [SetAutocompleteSubstitutions m'])
          ++ (if listRef w then [UpdateAndScrollToFocusedIndex index] else []))%list
    /\ (index = -1 <-> updated = "" /\ textInputValue (pending w) = "")
    /\ (index = 0 <-> ~ (updated = "" /\ textInputValue (pending w) = "")).
Proof.
  intros H1 H2 H3 H4.
  assert (Hidx : forall i : Z,
             i = (if ToBoolean (Str updated) || (0 <? length_of (textInputValue (pending w)))
                  then 0 else -1) ->
             (i = -1 <-> updated = "" /\ textInputValue (pending w) = "")
             /\ (i = 0 <-> ~ (updated = "" /\ textInputValue (pending w) = ""))).
  { intros i ->. unfold ToBoolean, length_of.
    destruct (bool_decide_reflect (updated = "")) as [-> | Hu];
      destruct (textInputValue (pending w)) as [| c s]; cbn;
      intuition (try discriminate; try congruence). }
  unfold dispatch, onSearchQueryChange. unfold_router.
  destruct autoScrollToRight; follow;
    unfold deepEqual;
    destruct (bool_decide (autocompleteSubstitutions (pending w) = m')) eqn:Hd; cbn;
    (destruct (ToBoolean (Str updated) || (0 <? length_of (textInputValue (pending w))))
       eqn:Hc; [pose (index := 0) | pose (index := -1)]);
    cbn; destruct (listRef w) eqn:Hl; follow; rewrite ?H4; cbn;
    (eexists; eexists; exists index;
     split; [reflexivity |]; cbn;
     split; [try (apply bool_decide_eq_true in Hd; rewrite <- Hd);
             destruct (pending w); reflexivity |];
     split; [reflexivity |];
     split; [extends_out |];
     split; [reflexivity | apply Hidx; reflexivity]).
Qed.

(** X20: when the line-break pass or the comma pass throws, the keystroke
    ends with that exception before any state setter is called: the state
    is as it was. *)
Theorem onSearchQueryChange_fails_early (r : State) (userQuery : string)
    (autoScrollToRight : bool) (w : World) (error : exn) :
  lineBreaksToSpaces E userQuery true = Throw error
  \/ (exists singleLine,
        lineBreaksToSpaces E userQuery true = Normal singleLine
        /\ getAutocompleteQueryWithComma E (textInputValue r) singleLine = Throw error) ->
  exists w' evs,
    onSearchQueryChange E r userQuery autoScrollToRight w = (Throw error, w')
    /\ pending w' = pending w
    /\ out w' = (out w ++ evs)%list
    /\ effects evs = [].
Proof.
  intros [H | (s & H1 & H2)]; unfold onSearchQueryChange; unfold_router;
    destruct autoScrollToRight; follow;
    (eexists; eexists; split; [reflexivity |]; cbn;
     split; [reflexivity |]; split; [extends_out | reflexivity]).
Qed.

(** X21: when recomputing the substitution map throws, the keystroke ends
    with that exception after the text was set: the text and the
    autocomplete query value hold the new query, the substitution map and
    the selection are the old ones, and the focus of the list was not
    moved. *)
Theorem onSearchQueryChange_fails_late (r : State) (userQuery : string)
    (autoScrollToRight : bool) (w : World) (singleLine updated : string) (error : exn) :
  lineBreaksToSpaces E userQuery true = Normal singleLine ->
  getAutocompleteQueryWithComma E (textInputValue r) singleLine = Normal updated ->
  getUpdatedSubstitutionsMap E singleLine (autocompleteSubstitutions r) = Throw error ->
  exists w' evs,
    onSearchQueryChange E r userQuery autoScrollToRight w = (Throw error, w')
    /\ pending w' =
         {| textInputValue := updated; autocompleteQueryValue := updated;
            selection := selection (pending w);
            autocompleteSubstitutions := autocompleteSubstitutions (pending w) |}
    /\ out w' = (out w ++ evs)%list
    /\ effects evs = [SetTextInputValue updated; SetAutocompleteQueryValue updated].
Proof.
  intros H1 H2 H3. unfold onSearchQueryChange. unfold_router.
  destruct autoScrollToRight; follow;
    (eexists; eexists; split; [reflexivity |]; cbn;
     split; [reflexivity |]; split; [extends_out | reflexivity]).
Qed.

(** X22: the scroll effect scrolls the input once for a raised flag and
    lowers the flag, so that running it again does nothing; while the
    input is not mounted it does nothing and the flag stays. A text
    replacement raises the flag. *)
Theorem scrollEffect_once (w : World) :
  exists w',
    scrollEffect w = (Normal tt, w')
    /\ scrollEffect w' = (Normal tt, w')
    /\ pending w' = pending w
    /\ out w' = (out w ++ if textInputRef w && shouldScrollRef w then [ScrollToRight] else [])%list
    /\ (textInputRef w = true -> shouldScrollRef w' = false)
    /\ (textInputRef w = false -> w' = w)
    /\ (forall text, shouldScrollRef (snd (setTextAndUpdateSelection text w)) = true).
Proof.
  unfold scrollEffect, setTextAndUpdateSelection. unfold_router.
  destruct w as [p s l t o c d]. cbn.
  destruct t, s; cbn; eexists; (split; [reflexivity |]); cbn;
    rewrite ?app_nil_r; repeat split; try reflexivity; try discriminate.
Qed.

End Keystrokes.

Section Merges.

Variable E : Env.

(** X23: a suggestion without an identifier or without a map key,
    undefined or empty, leaves the substitution map alone: no setter is
    called and the world is as it was. *)
Theorem updateAutocompleteSubstitutions_without_pair (r : State) (item : SearchQueryItem)
    (w : World) :
  truthy (autocompleteID item) = false \/ truthy (mapKey item) = false ->
  updateAutocompleteSubstitutions r item w = (Normal tt, w).
Proof.
  intros [H | H]; unfold updateAutocompleteSubstitutions; rewrite H; cbn;
    [| rewrite orb_true_r]; reflexivity.
Qed.

(** X24: two merges made by the handler of one render do not add up: the
    second starts again from the map of that render, and the key of the
    first is lost unless the render had it. Made by the handlers of
    successive renders, both keys are bound. *)
Theorem updateAutocompleteSubstitutions_twice (r : State) (first second : SearchQueryItem)
    (k1 id1 k2 id2 : string) (w : World) :
  mapKey first = Some k1 -> k1 <> "" -> autocompleteID first = Some id1 -> id1 <> "" ->
  mapKey second = Some k2 -> k2 <> "" -> autocompleteID second = Some id2 -> id2 <> "" ->
  k1 <> k2 ->
  (autocompleteSubstitutions
     (pending (snd (updateAutocompleteSubstitutions r second
                      (snd (updateAutocompleteSubstitutions r first w)))))
   = <[k2 := id2]> (autocompleteSubstitutions r)
   /\ autocompleteSubstitutions
        (pending (snd (updateAutocompleteSubstitutions r second
                         (snd (updateAutocompleteSubstitutions r first w))))) !! k1
      = autocompleteSubstitutions r !! k1)
  /\ (autocompleteSubstitutions
        (pending (snd (dispatch (fun r' => updateAutocompleteSubstitutions r' second)
                         (snd (dispatch (fun r' => updateAutocompleteSubstitutions r' first) w)))))
      = <[k2 := id2]> (<[k1 := id1]> (autocompleteSubstitutions (pending w)))
      /\ autocompleteSubstitutions
           (pending (snd (dispatch (fun r' => updateAutocompleteSubstitutions r' second)
                            (snd (dispatch (fun r' => updateAutocompleteSubstitutions r' first)
                                    w))))) !! k1
         = Some id1
      /\ autocompleteSubstitutions
           (pending (snd (dispatch (fun r' => updateAutocompleteSubstitutions r' second)
                            (snd (dispatch (fun r' => updateAutocompleteSubstitutions r' first)
                                    w))))) !! k2
         = Some id2).
Proof.
  intros Hk1 Hk1' Hi1 Hi1' Hk2 Hk2' Hi2 Hi2' Hne.
  pose proof (truthy_Some _ Hk1') as T1. pose proof (truthy_Some _ Hi1') as T2.
  pose proof (truthy_Some _ Hk2') as T3. pose proof (truthy_Some _ Hi2') as T4.
  unfold_router. follow. unfold spread_with.
  split; [split | split; [| split]].
  - reflexivity.
  - apply lookup_insert_ne. congruence.
  - reflexivity.
  - rewrite lookup_insert_ne by congruence. apply lookup_insert_eq.
  - apply lookup_insert_eq.
Qed.

(** X25: the query synthesized for an expense chat or an invoice room
    names the room type and the policy, written [undefined] when the item
    has no policy; only an invoice room with an identifier adds the
    sanitized search query after [to:]. Without that addition
    [sanitizeSearchValue] is not called, so the query cannot fail. *)
Theorem getContextualSearchQuery_of_policy_room (item : SearchQueryItem) :
  roomType item = Some (DATA_TYPES_EXPENSE (CONST E))
  \/ roomType item = Some (DATA_TYPES_INVOICE (CONST E)) ->
  (roomType item <> Some (DATA_TYPES_INVOICE (CONST E)) \/ truthy (autocompleteID item) = false ->
     getContextualSearchQuery E item
       = Normal (SEARCH_USER_FRIENDLY_KEYS_TYPE (CONST E) +:+ ":" +:+ template (roomType item)
                 +:+ " " +:+ SEARCH_USER_FRIENDLY_KEYS_POLICY_ID (CONST E) +:+ ":"
                 +:+ template (policyID item)))
  /\ (roomType item = Some (DATA_TYPES_INVOICE (CONST E)) ->
      truthy (autocompleteID item) = true ->
      getContextualSearchQuery E item
        = match sanitizeSearchValue E (default "" (searchQuery item)) with
          | Normal v =>
              Normal (SEARCH_USER_FRIENDLY_KEYS_TYPE (CONST E) +:+ ":" +:+ template (roomType item)
                      +:+ " " +:+ SEARCH_USER_FRIENDLY_KEYS_POLICY_ID (CONST E) +:+ ":"
                      +:+ template (policyID item)
                      +:+ " " +:+ SEARCH_USER_FRIENDLY_KEYS_TO (CONST E) +:+ ":" +:+ v)
          | Throw e => Throw e
          end).
Proof.
  intros Hroom. unfold getContextualSearchQuery.
  assert (Hc : bool_decide (roomType item = Some (DATA_TYPES_EXPENSE (CONST E)))
               || bool_decide (roomType item = Some (DATA_TYPES_INVOICE (CONST E))) = true).
  { destruct Hroom as [H | H]; rewrite (bool_decide_eq_true_2 _ H);
      [reflexivity | apply orb_true_r]. }
  rewrite Hc. split.
  - intros [H | H].
    + rewrite (bool_decide_eq_false_2 _ H). cbn [andb].
      rewrite !append_assoc. reflexivity.
    + rewrite H, andb_false_r. rewrite !append_assoc. reflexivity.
  - intros H1 H2. rewrite (bool_decide_eq_true_2 _ H1), H2. cbn [andb].
    destruct (sanitizeSearchValue E _); [| reflexivity].
    rewrite !append_assoc. reflexivity.
Qed.

(** X26: [submitSearch] has no handler of its own: when applying the
    substitutions or normalizing throws, submitting the input with nothing
    focused ends with that exception and leaves the world as it was, log
    included. *)
Theorem onSubmit_exception_unlogged (w : World) (error : exn) :
  getQueryWithSubstitutions E (textInputValue (pending w))
    (autocompleteSubstitutions (pending w)) = Throw error
  \/ (exists q,
        getQueryWithSubstitutions E (textInputValue (pending w))
          (autocompleteSubstitutions (pending w)) = Normal q
        /\ getQueryWithUpdatedValues E q = Throw error) ->
  dispatch (fun r => onSubmit E r None) w = (Throw error, w).
Proof.
  intros [H | (q & H1 & H2)]; unfold dispatch, onSubmit, submitSearch; unfold_router;
    follow; reflexivity.
Qed.

(** X27: [submitSearch] clears the buffer as its last step: whenever it
    ends with an exception, whichever call threw it, the text, the
    autocomplete query value, the selection and the substitution map are
    as they were, and no state setter was called. *)
Theorem submitSearch_exception_keeps_state (r : State) (queryString : string)
    (w w' : World) (error : exn) :
  submitSearch E r queryString w = (Throw error, w') ->
  pending w' = pending w
  /\ exists evs,
       out w' = (out w ++ evs)%list
       /\ forallb (fun e => negb (is_setter e)) evs = true.
Proof.
  unfold submitSearch. unfold_router.
  split_all; intros H; try discriminate H; injection H as <- <-; cbn;
    (split; [reflexivity |]; eexists; split; [extends_out | reflexivity]).
Qed.

End Merges.

Section Offered.

Variable E : Env.
Variable translate : string -> string.

(** The handlers, except [onSearchQueryChange], as functions on worlds. *)
Ltac unfold_press :=
  unfold dispatch, onListItemPress, onListItemPress_begin, onListItemPress_try,
    onListItemPress_catch, setFocusAndScrollToRight, newActionId, now, random, call,
    setSelection, setAutocompleteSubstitutions, emit, update, try_catch, lift, throw,
    bind, ret.

(** X28: from the offer to the buffer. With an empty buffer and the
    router displayed, the chat in context, which has a title, is offered;
    accepting the offer writes the chat type and [in:] with the sanitized
    title into the buffer, followed by U+00A0, puts the caret at the end,
    and binds [in:] with the title as typed to the identifier of the
    report in the substitution map. *)
Theorem offered_chat_accepted (w : World) (id title sanitized label : string)
    (recentReports : list Report.t) (report : Report.t) (m' : gmap string string) :
  textInputValue (pending w) = "" ->
  List.find (fun o => bool_decide (Report.reportID o = Some id)) recentReports = Some report ->
  id <> "" ->
  Report.text report = Some title ->
  title <> "" ->
  Report.isInvoiceRoom report <> Some true ->
  Report.isPolicyExpenseChat report <> Some true ->
  DATA_TYPES_CHAT (CONST E) <> DATA_TYPES_INVOICE (CONST E) ->
  DATA_TYPES_CHAT (CONST E) <> DATA_TYPES_EXPENSE (CONST E) ->
  lineBreaksToSpaces E (translate "search.searchIn" +:+ " " +:+ title) false = Normal label ->
  sanitizeSearchValue E title = Normal sanitized ->
  lineBreaksToSpaces E
    ((SEARCH_USER_FRIENDLY_KEYS_TYPE (CONST E) +:+ ":" +:+ DATA_TYPES_CHAT (CONST E)
      +:+ " " +:+ SEARCH_USER_FRIENDLY_KEYS_IN (CONST E) +:+ ":" +:+ sanitized) +:+ nbsp) true
    = Normal ((SEARCH_USER_FRIENDLY_KEYS_TYPE (CONST E) +:+ ":" +:+ DATA_TYPES_CHAT (CONST E)
               +:+ " " +:+ SEARCH_USER_FRIENDLY_KEYS_IN (CONST E) +:+ ":" +:+ sanitized)
              +:+ nbsp) ->
  getAutocompleteQueryWithComma E ""
    ((SEARCH_USER_FRIENDLY_KEYS_TYPE (CONST E) +:+ ":" +:+ DATA_TYPES_CHAT (CONST E)
      +:+ " " +:+ SEARCH_USER_FRIENDLY_KEYS_IN (CONST E) +:+ ":" +:+ sanitized) +:+ nbsp)
    = Normal ((SEARCH_USER_FRIENDLY_KEYS_TYPE (CONST E) +:+ ":" +:+ DATA_TYPES_CHAT (CONST E)
               +:+ " " +:+ SEARCH_USER_FRIENDLY_KEYS_IN (CONST E) +:+ ":" +:+ sanitized)
              +:+ nbsp) ->
  getUpdatedSubstitutionsMap E
    ((SEARCH_USER_FRIENDLY_KEYS_TYPE (CONST E) +:+ ":" +:+ DATA_TYPES_CHAT (CONST E)
      +:+ " " +:+ SEARCH_USER_FRIENDLY_KEYS_IN (CONST E) +:+ ":" +:+ sanitized) +:+ nbsp)
    (autocompleteSubstitutions (pending w)) = Normal m' ->
  raises E (UpdateAndScrollToFocusedIndex 0) = None ->
  exists section w',
    getAdditionalSections E translate (Some id) (textInputValue (pending w)) (Some true)
      recentReports = Normal (Some section)
    /\ text section = label
    /\ dispatch (fun r => onListItemPress E r (QueryItem (data section))) w = (Normal tt, w')
    /\ textInputValue (pending w')
       = (SEARCH_USER_FRIENDLY_KEYS_TYPE (CONST E) +:+ ":" +:+ DATA_TYPES_CHAT (CONST E)
          +:+ " " +:+ SEARCH_USER_FRIENDLY_KEYS_IN (CONST E) +:+ ":" +:+ sanitized) +:+ nbsp
    /\ selection (pending w')
       = {| start := length_of (textInputValue (pending w'));
            end_ := length_of (textInputValue (pending w')) |}
    /\ autocompleteSubstitutions (pending w')
       = <[SYNTAX_FILTER_KEYS_IN (CONST E) +:+ ":" +:+ title := id]>
           (autocompleteSubstitutions (pending w)).
Proof.
  intros Htext Hfind Hid Htitle Htitle' Hinv Hexp Hci Hce Hlabel Hsan Hline Hcomma Hmap Hraise.
  assert (Hrid : Report.reportID report = Some id).
  { destruct (find_some_first _ _ _ Hfind) as (_ & _ & _ & Hx & _).
    apply bool_decide_eq_true in Hx. exact Hx. }
  assert (Hi : default false (Report.isInvoiceRoom report) = false).
  { destruct (Report.isInvoiceRoom report) as [[|] |]; first [reflexivity | congruence]. }
  assert (He : default false (Report.isPolicyExpenseChat report) = false).
  { destruct (Report.isPolicyExpenseChat report) as [[|] |]; first [reflexivity | congruence]. }
  unfold getAdditionalSections.
  rewrite (truthy_Some _ Hid), Htext. cbn [negb default].
  change (ToBoolean (Str "")) with false. cbn iota.
  rewrite Hfind, Hi, He, Htitle. cbn.
  rewrite Hlabel, Hrid.
  match goal with
  | |- exists s w', Normal (Some ?s0) = _ /\ _ => exists s0; set (sec := s0)
  end.
  assert (Hquery : getContextualSearchQuery E (data sec)
                   = Normal (SEARCH_USER_FRIENDLY_KEYS_TYPE (CONST E) +:+ ":"
                             +:+ DATA_TYPES_CHAT (CONST E) +:+ " "
                             +:+ SEARCH_USER_FRIENDLY_KEYS_IN (CONST E) +:+ ":" +:+ sanitized)).
  { apply (getContextualSearchQuery_chat E (data sec) sanitized); unfold sec; cbn.
    all: congruence. }
  assert (Hkey : getContextualSearchAutocompleteKey E (data sec)
                 = Some (SYNTAX_FILTER_KEYS_IN (CONST E) +:+ ":" +:+ title)).
  { destruct (getContextualSearchAutocompleteKey_cases E (data sec)) as (_ & H & _).
    apply H; unfold sec; cbn; congruence. }
  assert (Tkey : truthy (Some (SYNTAX_FILTER_KEYS_IN (CONST E) +:+ ":" +:+ title)) = true).
  { apply truthy_Some, append_not_empty_r. discriminate. }
  pose proof (truthy_Some _ Htitle') as Tt. pose proof (truthy_Some _ Hid) as Ti.
  subst sec. cbn in Hquery, Hkey.
  unfold_press. follow.
  match goal with
  | |- context [onSearchQueryChange E ?r ?q ?a ?w0] =>
      destruct (onSearchQueryChange_normal E r q a w0 _ q m' Hline) as (w1 & evs & Hrun & Hp & _)
  end.
  { rewrite Htext. exact Hcomma. }
  { exact Hmap. }
  { rewrite ToBoolean_Str by apply append_nbsp_not_empty. exact Hraise. }
  rewrite Hrun. follow.
  destruct (raises E (RunAfterInteractions _)); cbn;
    (eexists; split; [reflexivity |]; split; [reflexivity |];
     split; [reflexivity |]; cbn; rewrite Hp; cbn;
     split; [reflexivity |]; split; reflexivity).
Qed.

End Offered.

(** *** The theorems at the sample environment *)

Import Sample SampleMore.

(** Discharging a hypothesis at the sample data. *)
Ltac settle :=
  first [ vm_compute; reflexivity
        | vm_compute; discriminate
        | intros; vm_compute; reflexivity ].

Example getAdditionalSections_samples :
  getAdditionalSections (env None None) translate (Some "room_7") "" (Some true) recentReports
  = Normal (Some {| text := "Search in Ada"; keyForList := "contextualSearch";
                    data := {| searchQuery := Some "Ada"; autocompleteID := Some "1234";
                               searchItemType := Some CONTEXTUAL_SUGGESTION;
                               roomType := Some "invoice"; policyID := Some "policy_7";
                               mapKey := None |} |})
  /\ getAdditionalSections (env None None) translate (Some "room_8") "" (Some true) recentReports
     = Normal (Some {| text := "Search in Acme"; keyForList := "contextualSearch";
                       data := {| searchQuery := Some "Acme"; autocompleteID := Some "";
                                  searchItemType := Some CONTEXTUAL_SUGGESTION;
                                  roomType := Some "invoice"; policyID := Some "policy_7";
                                  mapKey := None |} |})
  /\ getAdditionalSections (env None None) translate (Some "room_10") "" (Some true) recentReports
     = Normal (Some {| text := "Search in "; keyForList := "contextualSearch";
                       data := {| searchQuery := Some ""; autocompleteID := Some "room_10";
                                  searchItemType := Some CONTEXTUAL_SUGGESTION;
                                  roomType := Some "chat"; policyID := None;
                                  mapKey := None |} |})
  /\ getAdditionalSections (env None None) translate (Some "room_99") "" (Some true) recentReports
     = Normal None.
Proof. repeat split; vm_compute; reflexivity. Qed.

Lemma getAdditionalSections_offered_general :
  truthy (Some "room_42") = true
  /\ "" = ""
  /\ Some true = Some true
  /\ exists before report after,
       recentReports = (before ++ report :: after)%list
       /\ Report.reportID report = Some "room_42"
       /\ Forall (fun o => Report.reportID o <> Some "room_42") before
       /\ keyForList general_offer = "contextualSearch"
       /\ searchItemType (data general_offer) = Some CONTEXTUAL_SUGGESTION
       /\ mapKey (data general_offer) = None
       /\ policyID (data general_offer) = Report.policyID report
       /\ searchQuery (data general_offer)
          = first_defined (Report.text report)
              (first_defined (Report.alternateText report) (Report.reportID report)).
Proof.
  apply (getAdditionalSections_offered (env None None) translate (Some "room_42") ""
           (Some true) recentReports general_offer).
  settle.
Defined.

Lemma getAdditionalSections_withheld_typing :
  getAdditionalSections (env None None) translate (Some "room_42") "type:chat in:"
    (Some true) recentReports = Normal None.
Proof.
  apply (getAdditionalSections_withheld (env None None) translate (Some "room_42")
           "type:chat in:" (Some true) recentReports).
  left. discriminate.
Defined.

Lemma getAdditionalSections_room_invoice :
  (Report.isPolicyExpenseChat invoice_of_individual = Some true ->
     roomType (data invoice_offer) = Some (DATA_TYPES_EXPENSE (CONST (env None None)))
     /\ autocompleteID (data invoice_offer)
        = if truthy (Report.policyID invoice_of_individual)
          then Report.policyID invoice_of_individual else Some "")
  /\ (Report.isPolicyExpenseChat invoice_of_individual <> Some true ->
      Report.isInvoiceRoom invoice_of_individual = Some true ->
      roomType (data invoice_offer) = Some (DATA_TYPES_INVOICE (CONST (env None None)))
      /\ (forall accountID,
            Report.invoiceReceiver invoice_of_individual = Some (Individual accountID) ->
            isSafeInteger accountID = true ->
            autocompleteID (data invoice_offer) = Some (template_number accountID))
      /\ (Report.invoiceReceiver invoice_of_individual = None
          \/ Report.invoiceReceiver invoice_of_individual = Some NotIndividual ->
          autocompleteID (data invoice_offer) = Some ""))
  /\ (Report.isPolicyExpenseChat invoice_of_individual <> Some true ->
      Report.isInvoiceRoom invoice_of_individual <> Some true ->
      roomType (data invoice_offer) = Some (DATA_TYPES_CHAT (CONST (env None None)))
      /\ autocompleteID (data invoice_offer) = Report.reportID invoice_of_individual).
Proof.
  apply (getAdditionalSections_room (env None None) translate (Some "room_7") (Some true)
           recentReports invoice_of_individual invoice_offer); settle.
Defined.

(** The account of the sample is a safe integer, and is written [1234];
    a chat without a title is offered with an empty search query, and
    accepting that offer leaves the buffer empty. *)
Example invoice_and_untitled_offers :
  isSafeInteger 1234 = true
  /\ template_number 1234 = "1234"
  /\ getAdditionalSections (env None None) translate (Some "room_10") "" (Some true)
       recentReports = Normal (Some untitled_offer)
  /\ dispatch (fun r => onListItemPress (env None None) r (QueryItem (data untitled_offer)))
       initialWorld
     = (Normal tt,
        snd (dispatch (fun r => onListItemPress (env None None) r
                                  (QueryItem (data untitled_offer))) initialWorld))
  /\ pending (snd (dispatch (fun r => onListItemPress (env None None) r
                                        (QueryItem (data untitled_offer))) initialWorld))
     = initialState.
Proof.
  split; [reflexivity |]. split; [vm_compute; reflexivity |].
  split; [vm_compute; reflexivity |]. split; vm_compute; reflexivity.
Qed.

Lemma onListItemPress_without_query_blank :
  exists w' logged,
    onListItemPress (env None None) typing_in (QueryItem blank_suggestion) (world_of typing_in)
      = (Normal tt, w')
    /\ pending w' = pending (world_of typing_in)
    /\ shouldScrollRef w' = shouldScrollRef (world_of typing_in)
    /\ out w' = (out (world_of typing_in) ++ logged)%list
    /\ effects logged = [].
Proof.
  apply (onListItemPress_without_query (env None None) typing_in blank_suggestion
           (world_of typing_in)).
  settle.
Defined.

Lemma onListItemPress_submits_on_empty_buffer :
  fst (onListItemPress (env None None) initialState (QueryItem general_room) initialWorld)
    = fst (submitSearch (env None None) initialState "#general" initialWorld)
  /\ pending (snd (onListItemPress (env None None) initialState (QueryItem general_room)
                     initialWorld))
     = pending (snd (submitSearch (env None None) initialState "#general" initialWorld))
  /\ exists pressed submitted,
       out (snd (onListItemPress (env None None) initialState (QueryItem general_room)
                   initialWorld)) = (out initialWorld ++ pressed)%list
       /\ out (snd (submitSearch (env None None) initialState "#general" initialWorld))
          = (out initialWorld ++ submitted)%list
       /\ effects pressed = effects submitted.
Proof.
  apply (onListItemPress_submits (env None None) initialState general_room "#general"
           initialWorld); [settle | discriminate | discriminate | right; reflexivity].
Defined.

Example autocomplete_on_empty_buffer_navigates :
  effects (out (snd (onListItemPress (env None None) initialState (QueryItem general_room)
                       initialWorld)))
  = [BackHistory; OnRouterClose; Navigate (SEARCH_ROOT "#general");
     SetTextInputValue ""; SetAutocompleteQueryValue ""].
Proof. vm_compute. reflexivity. Qed.

Lemma onSubmit_with_search_row_typing :
  exists row,
    searchQueryItem (textInputValue (pending (world_of typing_in))) = Some row
    /\ searchQuery row = Some (textInputValue (pending (world_of typing_in)))
    /\ searchItemType row = Some SEARCH
    /\ fst (dispatch (fun r => onSubmit (env None None) r (Some (QueryItem row)))
              (world_of typing_in))
       = fst (dispatch (fun r => onSubmit (env None None) r None) (world_of typing_in))
    /\ pending (snd (dispatch (fun r => onSubmit (env None None) r (Some (QueryItem row)))
                       (world_of typing_in)))
       = pending (snd (dispatch (fun r => onSubmit (env None None) r None) (world_of typing_in)))
    /\ exists focused unfocused,
         out (snd (dispatch (fun r => onSubmit (env None None) r (Some (QueryItem row)))
                     (world_of typing_in)))
           = (out (world_of typing_in) ++ focused)%list
         /\ out (snd (dispatch (fun r => onSubmit (env None None) r None) (world_of typing_in)))
            = (out (world_of typing_in) ++ unfocused)%list
         /\ effects focused = effects unfocused.
Proof.
  apply (onSubmit_with_search_row (env None None) (world_of typing_in)).
  discriminate.
Defined.

Lemma onListItemPress_opens_report_general :
  exists w' evs,
    onListItemPress (env None None) typing_in (OptionItem report_row) (world_of typing_in)
      = (Normal tt, w')
    /\ pending w' = pending (world_of typing_in)
    /\ out w' = (out (world_of typing_in) ++ evs)%list
    /\ Permutation (effects evs)
         [BackHistory; Navigate (REPORT_WITH_ID "room_42"); OnRouterClose]
    /\ navigations evs = 1%nat.
Proof.
  apply (onListItemPress_opens_report (env None None) typing_in report_row "room_42"
           (world_of typing_in)); first [discriminate | settle].
Defined.

Lemma onListItemPress_opens_person_ada :
  exists w' evs,
    onListItemPress (env None None) typing_in (OptionItem person_row) (world_of typing_in)
      = (Normal tt, w')
    /\ pending w' = pending (world_of typing_in)
    /\ out w' = (out (world_of typing_in) ++ evs)%list
    /\ effects evs
       = (BackHistory
          :: match login person_row with
             | Some l => [NavigateToAndOpenReport (if bool_decide (l = "") then [] else [l]) false]
             | None => []
             end ++ [OnRouterClose])%list
    /\ navigations evs = 0%nat.
Proof.
  apply (onListItemPress_opens_person (env None None) typing_in person_row
           (world_of typing_in)); first [settle | intros; reflexivity].
Defined.

Lemma onSearchQueryChange_updates_typing :
  exists w' evs index,
    dispatch (fun r => onSearchQueryChange (env None None) r "type:chat in:#" false)
      (world_of typing_in) = (Normal tt, w')
    /\ pending w' =
         {| textInputValue := "type:chat in:#"; autocompleteQueryValue := "type:chat in:#";
            selection := selection (pending (world_of typing_in));
            autocompleteSubstitutions := ∅ |}
    /\ shouldScrollRef w' = false || shouldScrollRef (world_of typing_in)
    /\ out w' = (out (world_of typing_in) ++ evs)%list
    /\ effects evs =
         ([SetTextInputValue "type:chat in:#"; SetAutocompleteQueryValue "type:chat in:#"]
          ++ (if bool_decide (autocompleteSubstitutions (pending (world_of typing_in)) = ∅)
              then [] else [SetAutocompleteSubstitutions ∅])
          ++ (if listRef (world_of typing_in)
              then [UpdateAndScrollToFocusedIndex index] else []))%list
    /\ (index = -1 <-> "type:chat in:#" = ""
                        /\ textInputValue (pending (world_of typing_in)) = "")
    /\ (index = 0 <-> ~ ("type:chat in:#" = ""
                         /\ textInputValue (pending (world_of typing_in)) = "")).
Proof.
  apply (onSearchQueryChange_updates (env None None) "type:chat in:#" false
           (world_of typing_in) "type:chat in:#" "type:chat in:#" ∅);
    first [settle | intros; reflexivity].
Defined.

Lemma onSearchQueryChange_fails_early_sample :
  exists w' evs,
    onSearchQueryChange (env None (Some (Error "bad input"))) typing_in "ab" false
      (world_of typing_in) = (Throw (Error "bad input"), w')
    /\ pending w' = pending (world_of typing_in)
    /\ out w' = (out (world_of typing_in) ++ evs)%list
    /\ effects evs = [].
Proof.
  apply (onSearchQueryChange_fails_early (env None (Some (Error "bad input"))) typing_in
           "ab" false (world_of typing_in) (Error "bad input")).
  left. reflexivity.
Defined.

Lemma onSearchQueryChange_fails_late_sample :
  exists w' evs,
    onSearchQueryChange (failing in_getUpdatedSubstitutionsMap (Error "bad map")) typing_in
      "ab" false (world_of typing_in) = (Throw (Error "bad map"), w')
    /\ pending w' =
         {| textInputValue := "ab"; autocompleteQueryValue := "ab";
            selection := selection (pending (world_of typing_in));
            autocompleteSubstitutions := autocompleteSubstitutions (pending (world_of typing_in)) |}
    /\ out w' = (out (world_of typing_in) ++ evs)%list
    /\ effects evs = [SetTextInputValue "ab"; SetAutocompleteQueryValue "ab"].
Proof.
  apply (onSearchQueryChange_fails_late (failing in_getUpdatedSubstitutionsMap (Error "bad map"))
           typing_in "ab" false (world_of typing_in) "ab" "ab" (Error "bad map")); settle.
Defined.

Lemma updateAutocompleteSubstitutions_without_pair_sample :
  updateAutocompleteSubstitutions typing_in this_chat (world_of typing_in)
  = (Normal tt, world_of typing_in).
Proof.
  apply (updateAutocompleteSubstitutions_without_pair typing_in this_chat (world_of typing_in)).
  right. reflexivity.
Defined.

Lemma updateAutocompleteSubstitutions_twice_sample :
  (autocompleteSubstitutions
     (pending (snd (updateAutocompleteSubstitutions typing_in ada
                      (snd (updateAutocompleteSubstitutions typing_in general_room
                              (world_of typing_in))))))
   = <["from:Ada" := "1234"]> (autocompleteSubstitutions typing_in)
   /\ autocompleteSubstitutions
        (pending (snd (updateAutocompleteSubstitutions typing_in ada
                         (snd (updateAutocompleteSubstitutions typing_in general_room
                                 (world_of typing_in)))))) !! "in:#general"
      = autocompleteSubstitutions typing_in !! "in:#general")
  /\ (autocompleteSubstitutions
        (pending (snd (dispatch (fun r' => updateAutocompleteSubstitutions r' ada)
                         (snd (dispatch (fun r' => updateAutocompleteSubstitutions r' general_room)
                                 (world_of typing_in))))))
      = <["from:Ada" := "1234"]>
          (<["in:#general" := "room_42"]>
             (autocompleteSubstitutions (pending (world_of typing_in))))
      /\ autocompleteSubstitutions
           (pending (snd (dispatch (fun r' => updateAutocompleteSubstitutions r' ada)
                            (snd (dispatch (fun r' => updateAutocompleteSubstitutions r'
                                                        general_room)
                                    (world_of typing_in)))))) !! "in:#general"
         = Some "room_42"
      /\ autocompleteSubstitutions
           (pending (snd (dispatch (fun r' => updateAutocompleteSubstitutions r' ada)
                            (snd (dispatch (fun r' => updateAutocompleteSubstitutions r'
                                                        general_room)
                                    (world_of typing_in)))))) !! "from:Ada"
         = Some "1234").
Proof.
  apply (updateAutocompleteSubstitutions_twice typing_in general_room ada
           "in:#general" "room_42" "from:Ada" "1234" (world_of typing_in));
    first [reflexivity | discriminate].
Defined.

Lemma getContextualSearchQuery_of_invoice_room :
  (roomType invoice_suggestion <> Some (DATA_TYPES_INVOICE (CONST (env None None)))
   \/ truthy (autocompleteID invoice_suggestion) = false ->
     getContextualSearchQuery (env None None) invoice_suggestion
       = Normal (SEARCH_USER_FRIENDLY_KEYS_TYPE (CONST (env None None)) +:+ ":"
                 +:+ template (roomType invoice_suggestion)
                 +:+ " " +:+ SEARCH_USER_FRIENDLY_KEYS_POLICY_ID (CONST (env None None)) +:+ ":"
                 +:+ template (policyID invoice_suggestion)))
  /\ (roomType invoice_suggestion = Some (DATA_TYPES_INVOICE (CONST (env None None))) ->
      truthy (autocompleteID invoice_suggestion) = true ->
      getContextualSearchQuery (env None None) invoice_suggestion
        = match sanitizeSearchValue (env None None)
                  (default "" (searchQuery invoice_suggestion)) with
          | Normal v =>
              Normal (SEARCH_USER_FRIENDLY_KEYS_TYPE (CONST (env None None)) +:+ ":"
                      +:+ template (roomType invoice_suggestion)
                      +:+ " " +:+ SEARCH_USER_FRIENDLY_KEYS_POLICY_ID (CONST (env None None))
                      +:+ ":" +:+ template (policyID invoice_suggestion)
                      +:+ " " +:+ SEARCH_USER_FRIENDLY_KEYS_TO (CONST (env None None))
                      +:+ ":" +:+ v)
          | Throw e => Throw e
          end).
Proof.
  apply (getContextualSearchQuery_of_policy_room (env None None) invoice_suggestion).
  right. reflexivity.
Defined.

Example getContextualSearchQuery_samples :
  getContextualSearchQuery (env None None) invoice_suggestion
    = Normal "type:invoice policyID:undefined to:Ada"
  /\ getContextualSearchQuery (env None None) (data expense_offer)
     = Normal "type:expense policyID:policy_7"
  /\ getContextualSearchQuery (env None None) (data general_offer)
     = Normal "type:chat in:#general".
Proof. repeat split; vm_compute; reflexivity. Qed.

Lemma onSubmit_exception_unlogged_sample :
  dispatch (fun r => onSubmit (failing in_getQueryWithUpdatedValues (Error "bad query")) r None)
    (world_of typing_in)
  = (Throw (Error "bad query"), world_of typing_in).
Proof.
  apply (onSubmit_exception_unlogged (failing in_getQueryWithUpdatedValues (Error "bad query"))
           (world_of typing_in) (Error "bad query")).
  right. exists "type:chat in:". split; settle.
Defined.

Lemma submitSearch_exception_keeps_state_sample :
  pending (snd (submitSearch (failing in_getQueryWithUpdatedValues (Error "bad query"))
                  typing_in "type:chat in:" (world_of typing_in)))
    = pending (world_of typing_in)
  /\ exists evs,
       out (snd (submitSearch (failing in_getQueryWithUpdatedValues (Error "bad query"))
                   typing_in "type:chat in:" (world_of typing_in)))
         = (out (world_of typing_in) ++ evs)%list
       /\ forallb (fun e => negb (is_setter e)) evs = true.
Proof.
  apply (submitSearch_exception_keeps_state
           (failing in_getQueryWithUpdatedValues (Error "bad query")) typing_in
           "type:chat in:" (world_of typing_in)
           (snd (submitSearch (failing in_getQueryWithUpdatedValues (Error "bad query"))
                   typing_in "type:chat in:" (world_of typing_in)))
           (Error "bad query")).
  vm_compute. reflexivity.
Defined.

(** The same when the navigation throws, once the router is closed. *)
Example submitSearch_navigation_throws :
  fst (submitSearch (failing in_navigate (Error "no route")) typing_in "type:chat in:"
         (world_of typing_in)) = Throw (Error "no route")
  /\ pending (snd (submitSearch (failing in_navigate (Error "no route")) typing_in
                     "type:chat in:" (world_of typing_in)))
     = typing_in.
Proof. split; vm_compute; reflexivity. Qed.

Lemma offered_chat_accepted_general :
  exists section w',
    getAdditionalSections (env None None) translate (Some "room_42")
      (textInputValue (pending initialWorld)) (Some true) recentReports = Normal (Some section)
    /\ text section = "Search in #general"
    /\ dispatch (fun r => onListItemPress (env None None) r (QueryItem (data section)))
         initialWorld = (Normal tt, w')
    /\ textInputValue (pending w')
       = (SEARCH_USER_FRIENDLY_KEYS_TYPE (CONST (env None None)) +:+ ":"
          +:+ DATA_TYPES_CHAT (CONST (env None None))
          +:+ " " +:+ SEARCH_USER_FRIENDLY_KEYS_IN (CONST (env None None)) +:+ ":"
          +:+ "#general") +:+ nbsp
    /\ selection (pending w')
       = {| start := length_of (textInputValue (pending w'));
            end_ := length_of (textInputValue (pending w')) |}
    /\ autocompleteSubstitutions (pending w')
       = <[SYNTAX_FILTER_KEYS_IN (CONST (env None None)) +:+ ":" +:+ "#general" := "room_42"]>
           (autocompleteSubstitutions (pending initialWorld)).
Proof.
  apply (offered_chat_accepted (env None None) translate initialWorld "room_42" "#general"
           "#general" "Search in #general" recentReports general_chat ∅);
    first [discriminate | settle | vm_compute; discriminate].
Defined.

(** Scenario B, computed: the state after the offered chat is accepted. *)
Example scenario_B_state :
  pending (snd (dispatch (fun r => onListItemPress (env None None) r
                                     (QueryItem (data general_offer))) initialWorld))
  = {| textInputValue := "type:chat in:#general" +:+ nbsp;
       autocompleteQueryValue := "type:chat in:#general" +:+ nbsp;
       selection := {| start := 22; end_ := 22 |};
       autocompleteSubstitutions := {["in:#general" := "room_42"]} |}.
Proof. vm_compute. reflexivity. Qed.

End SearchRouterMoreSpec.
